(* ===== verification/_CoqProject ===== *)
-Q . S2P
Prelude.v
PyStr.v
PyVal.v
Utf8.v
Sha256.v
Json.v
JsonRoundtrip.v
Identity.v
Models.v
ModelsJson.v
Settings.v
Cache.v
Database.v
LLMService.v
CvParser.v
MatchingService.v
Endpoints.v
App.v
Cors.v
Refinement.v
Concurrency.v
