(* ===== verification/Prelude.v ===== *)
(** * Verification development of omogen, the CV / job-description matcher

    omogen is a FastAPI service (src/app).  A POST to [/match] carries a CV
    and a job description as uploaded files; [api/endpoints.py] hands their
    bytes and declared types to [MatchingService.match_cv_job]
    ([services/matching_service.py]), which extracts their texts
    ([services/cv_parser.py]), looks the pair up in a SQLite result cache
    ([data/database.py], keyed by the SHA-256 of the concatenated texts),
    and on a miss asks an OpenAI model through [LLMService.match_cv_job]
    ([services/llm_service.py]) for a JSON score, validates it into a
    pydantic [MatchResult] ([core/models.py]) and stores it unless it is
    an error result.  [main.py] sweeps expired rows at startup with the
    TTL of [core/config.py].

    ** Files, in dependency order

    - [Prelude]: the result type [res] of Python code (a value or a raised
      exception), the state-and-exception monad [st] with its notation in
      [st_scope], the hint databases [omogen] and [omogen_rw], the tactics
      [invc], [zbool], [split_res], and the shared lemmas on [res].
    - [PyStr]: [str] as a list of code points (Z), the string methods the
      sources call ([strip], [startswith], [endswith], [lower], slices,
      [join]); [PyVal]: the values [json.loads] builds and the exceptions.
    - [Utf8]: [str.encode()] and [bytes.decode('utf-8')], with their round
      trip; [Sha256]: FIPS 180-4 on 32-bit words kept in [0, 2^32);
      [Identity]: [Database._generate_hash] and the key of a pair.
    - [Json], [JsonRoundtrip]: [json.dumps] and [json.loads] as CPython's
      [_json] does them, and the lemma [json.loads(json.dumps(v)) = v] that
      the cache's round trip rests on.
    - [Models], [ModelsJson]: pydantic's lax validation of [CriteriaScores]
      and [MatchResult], [model_dump], and the JSON text the cache stores.
    - [Settings]: [core/config.py] as pydantic-settings loads it: the
      environment before the [.env] file before the defaults, names in
      any case, lax validation, extra [.env] variables rejected.
    - [Cache]: the interface [MatchCache] (get and put) the orchestrator
      needs of a cache, its laws [MatchCacheLaws], and the reference cache
      [PairCache], a map keyed by the pair of texts.
    - [Database]: the [match_cache] table as a gmap from key to row, a
      storage fault as part of the state; [init_database], [get_match],
      [cache_match], [cleanup_old_cache], and the instance of [MatchCache]
      whose laws [Database] proves.
    - [LLMService]: the backend as a state [Backend] (prompt file, the
      n-th reply of the client, the prompts sent); [str.format], the call,
      the fence stripping, the parsing and the error result.
    - [CvParser]: [parse_file] and its three extractors; PyMuPDF and
      python-docx are oracles in a record [Extractors].
    - [MatchingService]: [match_cv_job] in [st] over a [World] (cache,
      backend, clock), for any [MatchCache].
    - [Endpoints]: the [/match] handler and its exception mapping, and
      [/health].
    - [App]: [main.py]: the stages of the program's start ([app_boot]:
      settings, [Database()], the logging level, the startup sweep),
      [load_prompt] of [llm_service.py] over a file system given as the
      bytes of each path, the world a request runs in ([app_world]), and
      GET routing as Starlette does it, with FastAPI's documentation
      routes and trailing-slash redirects.
    - [Cors]: Starlette's CORS middleware with the configuration of
      [main.py]: preflights answered by the middleware, the headers it
      adds to the application's responses.
    - [Refinement]: a simulation between caches lifts to [match_cv_job];
      the SQLite store refines [PairCache] on pairs with distinct keys.
    - [Concurrency]: [match_cv_job] cut at its cache read, backend call
      and cache write, the interleavings of concurrent requests as a step
      relation, their invariant and the count of backend calls.

    ** Theorems

    The claims C1 to C36 are the theorems marked by their id.  They state
    the orchestrator's cache behaviour (a hit is served without calling the
    backend, errors are never stored or served, a second call is a hit);
    the containment of backend faults and the adapter's parsing of fenced
    replies; the cache's store-then-read round trip and its row updates;
    the shape of the keys; the bounds of validated scores and of
    processing times; the HTTP status of each error path and, end to end
    over HTTP, a second identical [/match] served from the cache; the
    refinement of the reference cache; over every interleaving of
    requests, that the cache serves no error and that the backend is
    called at most once per request; where each setting comes from and
    which settings are errors; the cross-origin access the CORS
    configuration grants, for simple requests and preflights.  Several
    claims are universally quantified statements of where the code
    departs from its specification or its docstrings: key collisions of
    concatenated texts, a 400 turned into 500, fail-closed storage faults,
    the local-time cutoff of the TTL sweep, upper-case extensions and fence
    tags refused, a prompt file the repository lacks, and extra [.env]
    variables and lower-case log levels that stop the start.  The files
    also keep evaluated examples that are not claims: the SHA-256 test
    vectors, a lax reply accepted, the status of each GET route, and two
    overlapping requests that both call the backend.

    ** Fuel and bounds

    [format_prompt] gives [str.format] one unit of fuel per template
    character, [json_loads] one per input character and [utf8_decode] one
    per byte; each recursive call consumes at least one character or byte,
    so the fuel never runs out first, and the round-trip lemmas prove the
    results.  The clock is a sequence of readings in microseconds, so
    [int((t1 - t0) * 1000)] is an exact truncating division; CPython's
    integers are unbounded, and so are the [Z] values of the model, except
    SHA-256 words, reduced modulo 2^32.

    ** Not modelled

    Logging output and its format; the headers the application itself
    sets (content type and length), to which the CORS middleware adds its
    own; the FastAPI
    machinery that parses multipart requests (an upload is given) and the
    content of the generated documentation pages (an HTML page is its
    title, the OpenAPI paths are given); python-dotenv's file syntax (the
    [.env] file is given as its variables); the boolean [logging] switch
    [logAsyncioTasks] of Python 3.12, not counted among the integer
    attributes a level may name; the internals of
    PyMuPDF, python-docx and the OpenAI client (oracles of the state); the
    floating-point rounding of [time.time()]; and the JSON round trip of
    strings holding surrogate code points (the round-trip lemmas require
    Unicode scalar values). *)

From stdpp Require Import base list option.
From Stdlib Require Import ZArith Lia.

(** Results of Python code: a value, or an exception that propagates. *)
Inductive res (E A : Type) : Type :=
| Ok (a : A)
| Raise (e : E).
Arguments Ok {E A} a.
Arguments Raise {E A} e.

#[export] Instance res_ret {E} : MRet (res E) := fun _ a => Ok a.
#[export] Instance res_bind {E} : MBind (res E) :=
  fun _ _ f m => match m with Ok a => f a | Raise e => Raise e end.
#[export] Instance res_fmap {E} : FMap (res E) :=
  fun _ _ f m => match m with Ok a => Ok (f a) | Raise e => Raise e end.

Definition catch {E A} (m : res E A) (h : E -> res E A) : res E A :=
  match m with Ok a => Ok a | Raise e => h e end.

Definition res_of_option {E A} (e : E) (o : option A) : res E A :=
  match o with Some a => Ok a | None => Raise e end.

(** ** State threaded through effectful code, with exceptions.

    A computation reads and updates a state [S] and returns a [res]; the
    state reached when an exception is raised is kept, as in Python,
    where effects done before a [raise] are not undone. *)
Definition st (S E A : Type) : Type := S -> res E A * S.

Section StateMonad.
  Context {S E : Type}.

Definition st_ret {A} (a : A) : st S E A := fun s => (Ok a, s).
Definition st_bind {A B} (m : st S E A) (f : A -> st S E B) : st S E B :=
    fun s => match m s with
             | (Ok a, s') => f a s'
             | (Raise e, s') => (Raise e, s')
             end.
Definition st_raise {A} (e : E) : st S E A := fun s => (Raise e, s).
Definition st_get : st S E S := fun s => (Ok s, s).
Definition st_put (s : S) : st S E unit := fun _ => (Ok tt, s).
Definition st_modify (f : S -> S) : st S E unit := fun s => (Ok tt, f s).
Definition st_lift {A} (r : res E A) : st S E A := fun s => (r, s).
  (** [try: m except Exception as e: h e] *)
Definition st_catch {A} (m : st S E A) (h : E -> st S E A) : st S E A :=
    fun s => match m s with
             | (Ok a, s') => (Ok a, s')
             | (Raise e, s') => h e s'
             end.
End StateMonad.

Declare Scope st_scope.
Delimit Scope st_scope with st.
Notation "x <- m ;; k" := (st_bind m (fun x => k))
  (at level 100, m at next level, right associativity) : st_scope.
Notation "m ;; k" := (st_bind m (fun _ => k))
  (at level 100, right associativity) : st_scope.

(** ** Automation shared by the components *)
Create HintDb omogen discriminated.
Create Rewrite HintDb omogen_rw.

Section ResLemmas.
  Context {E A B : Type}.

Lemma bind_Ok (a : A) (f : A -> res E B) : (Ok a ≫= f) = f a.
  Proof. reflexivity. Qed.

Lemma bind_Raise (e : E) (f : A -> res E B) : (Raise e ≫= f) = Raise e.
  Proof. reflexivity. Qed.

Lemma bind_eq_Ok (m : res E A) (f : A -> res E B) (b : B) :
    (m ≫= f) = Ok b <-> exists a, m = Ok a /\ f a = Ok b.
  Proof.
    destruct m as [a|e]; simpl; split.
    - eauto.
    - intros (a' & [= <-] & H); exact H.
    - discriminate.
    - intros (a' & ? & _); discriminate.
  Qed.

Lemma bind_eq_Raise (m : res E A) (f : A -> res E B) (e : E) :
    (m ≫= f) = Raise e <-> m = Raise e \/ exists a, m = Ok a /\ f a = Raise e.
  Proof.
    destruct m as [a|e']; simpl; split.
    - eauto.
    - intros [? | (a' & [= <-] & H)]; [discriminate | exact H].
    - intros [= <-]; auto.
    - intros [[= <-] | (a' & ? & _)]; [done | discriminate].
  Qed.

Lemma res_of_option_Ok (e : E) (o : option A) (a : A) :
    res_of_option e o = Ok a <-> o = Some a.
  Proof. destruct o; simpl; split; congruence. Qed.
End ResLemmas.

#[export] Hint Rewrite @bind_Ok @bind_Raise : omogen_rw.

(** [invc H]: invert [H], substitute and clear it. *)
Ltac invc H := inversion H; subst; clear H.

(** [split_res]: case on every [res]/[option]/[bool] scrutinee in the goal,
    remembering the equation. *)
(** Case analysis on the integer comparisons of the goal, each case closed
    by [lia] when its hypotheses contradict. *)
Ltac zbool :=
  repeat match goal with
  | |- context [Z.eqb ?a ?b] => destruct (Z.eqb_spec a b); try (exfalso; lia)
  | |- context [Z.ltb ?a ?b] => destruct (Z.ltb_spec a b); try (exfalso; lia)
  | |- context [Z.leb ?a ?b] => destruct (Z.leb_spec a b); try (exfalso; lia)
  end; cbn [andb orb negb].

Ltac split_res :=
  repeat match goal with
  | |- context [match ?m with Ok _ => _ | Raise _ => _ end] =>
      let E := fresh "E" in destruct m eqn:E
  | |- context [match ?m with Some _ => _ | None => _ end] =>
      let E := fresh "E" in destruct m eqn:E
  | |- context [if ?b then _ else _] =>
      let E := fresh "E" in destruct b eqn:E
  end.
