(* ===== verification/PyStr.v ===== *)
(** * Python [str] values and the string methods the sources call

    A Python [str] is a sequence of Unicode code points; it is modelled
    as [list Z].  The methods used by the sources ([strip], [startswith],
    [endswith], slicing, [lower], [+]) are written as CPython defines them. *)

From stdpp Require Import base list.
From Stdlib Require Import ZArith Lia.
From Stdlib Require Ascii String.
Export String.StringSyntax.
From S2P Require Import Prelude.

Abbreviation pystr := (list Z).

(** A literal: ASCII text written as a Rocq string. *)
Definition py (s : String.string) : pystr :=
  map (fun c => Z.of_nat (Ascii.nat_of_ascii c)) (String.list_ascii_of_string s).
Arguments py s%_string_scope.

Open Scope Z_scope.

(** [str.isspace] on one code point: the characters of bidirectional class
    WS, B or S or of category Zs (CPython's [Py_UNICODE_ISSPACE]). *)
Definition is_space (c : Z) : bool :=
  ((9 <=? c) && (c <=? 13)) || ((28 <=? c) && (c <=? 32))
  || (c =? 133) || (c =? 160) || (c =? 5760)
  || ((8192 <=? c) && (c <=? 8202)) || (c =? 8232) || (c =? 8233)
  || (c =? 8239) || (c =? 8287) || (c =? 12288).

Fixpoint lstrip (s : pystr) : pystr :=
  match s with
  | [] => []
  | c :: t => if is_space c then lstrip t else s
  end.

Definition rstrip (s : pystr) : pystr := rev (lstrip (rev s)).

(** [s.strip()] with no argument. *)
Definition strip (s : pystr) : pystr := rstrip (lstrip s).

(** [s.startswith(p)] *)
Fixpoint startswith (s p : pystr) {struct p} : bool :=
  match p, s with
  | [], _ => true
  | c :: p', d :: s' => (c =? d) && startswith s' p'
  | _ :: _, [] => false
  end.

(** [s.endswith(p)] *)
Definition endswith (s p : pystr) : bool := startswith (rev s) (rev p).

(** [s[n:]] for [n >= 0] *)
Definition slice_from (n : nat) (s : pystr) : pystr := drop n s.

(** [s[:-n]] for [n > 0]: everything but the last [n] code points. *)
Definition slice_drop_last (n : nat) (s : pystr) : pystr := take (length s - n) s.

(** [sep.join(l)] *)
Fixpoint join_sep (sep : pystr) (l : list pystr) : pystr :=
  match l with
  | [] => []
  | [x] => x
  | x :: t => x ++ sep ++ join_sep sep t
  end.

(** [str.lower] on one code point, exact on ASCII and on U+212A KELVIN SIGN
    (the one non-ASCII code point whose lower case is ASCII); other code
    points are left unchanged, which never makes them equal to ASCII. *)
Definition lower_cp (c : Z) : Z :=
  if (65 <=? c) && (c <=? 90) then c + 32
  else if c =? 8490 then 107 else c.

Definition lower (s : pystr) : pystr := map lower_cp s.

(** [s == t] *)
Fixpoint str_eqb (s t : pystr) : bool :=
  match s, t with
  | [], [] => true
  | a :: s', b :: t' => (a =? b) && str_eqb s' t'
  | _, _ => false
  end.

(** A Unicode scalar value: a code point that is not a surrogate. *)
Definition valid_char (c : Z) : Prop := 0 <= c < 1114112 /\ ~ (55296 <= c <= 57343).

#[export] Instance valid_char_dec (c : Z) : Decision (valid_char c).
Proof. unfold valid_char. apply _. Defined.

(** ** Lemmas on the string methods *)

Lemma str_eqb_eq (s t : pystr) : str_eqb s t = true <-> s = t.
Proof.
  revert t; induction s as [|a s IH]; intros [|b t]; simpl; try (split; congruence).
  rewrite andb_true_iff, Z.eqb_eq, IH. split; [intros [-> ->]; done | intros [= -> ->]; done].
Qed.

Lemma str_eqb_refl (s : pystr) : str_eqb s s = true.
Proof. by apply str_eqb_eq. Qed.

Lemma str_eqb_neq (s t : pystr) : s <> t -> str_eqb s t = false.
Proof. intros H. apply not_true_iff_false. by rewrite str_eqb_eq. Qed.

Definition all_space (w : pystr) : Prop := Forall (fun c => is_space c = true) w.

Lemma startswith_spec (s p : pystr) :
  startswith s p = true <-> exists t, s = p ++ t.
Proof.
  revert s; induction p as [|c p IH]; intros [|d s]; simpl.
  - split; eauto.
  - split; eauto.
  - split; [discriminate|]. intros (t & Ht); discriminate.
  - rewrite andb_true_iff, Z.eqb_eq, IH. split.
    + intros (-> & t & ->); eauto.
    + intros (t & Ht). injection Ht as -> ->. eauto.
Qed.

Lemma startswith_app (p s : pystr) : startswith (p ++ s) p = true.
Proof. apply startswith_spec; eauto. Qed.

Lemma endswith_spec (s p : pystr) :
  endswith s p = true <-> exists t, s = t ++ p.
Proof.
  unfold endswith. rewrite startswith_spec. split.
  - intros (t & Ht). exists (rev t).
    rewrite <- (rev_involutive s), Ht, rev_app_distr, rev_involutive. reflexivity.
  - intros (t & ->). exists (rev t). apply rev_app_distr.
Qed.

Lemma endswith_app (s p : pystr) : endswith (s ++ p) p = true.
Proof. apply endswith_spec; eauto. Qed.

(** A string with a suffix is not one without it. *)
Lemma endswith_str_eqb_false (s t p : pystr) :
  endswith s p = true -> endswith t p = false -> str_eqb s t = false.
Proof. intros Hs Ht. apply str_eqb_neq. intros ->. congruence. Qed.

(** A string whose last character differs from a suffix's does not end
    with it, whatever comes before. *)
Lemma endswith_last_neq (s t p : pystr) :
  last t <> None -> last p <> None -> last t <> last p -> endswith (s ++ t) p = false.
Proof.
  intros Ht Hp Hl. apply not_true_iff_false. intros (q & Hq)%endswith_spec.
  apply (f_equal last) in Hq. rewrite !last_app in Hq.
  destruct (last t), (last p); congruence.
Qed.

Lemma slice_from_app (p s : pystr) : slice_from (length p) (p ++ s) = s.
Proof. unfold slice_from. by rewrite drop_app_length. Qed.

Lemma slice_drop_last_app (s p : pystr) : slice_drop_last (length p) (s ++ p) = s.
Proof.
  unfold slice_drop_last. rewrite length_app.
  replace (length s + length p - length p)%nat with (length s) by lia.
  by rewrite take_app_length.
Qed.

Lemma lstrip_spaces (w s : pystr) : all_space w -> lstrip (w ++ s) = lstrip s.
Proof. induction 1 as [|c w Hc _ IH]; simpl; [done|]. by rewrite Hc. Qed.

Lemma lstrip_nonspace (c : Z) (s : pystr) : is_space c = false -> lstrip (c :: s) = c :: s.
Proof. simpl. by intros ->. Qed.

Lemma rstrip_spaces (s w : pystr) : all_space w -> rstrip (s ++ w) = rstrip s.
Proof.
  intros Hw. unfold rstrip. rewrite rev_app_distr, lstrip_spaces; [done|].
  by apply Forall_rev.
Qed.

Lemma lstrip_idem (s : pystr) : lstrip (lstrip s) = lstrip s.
Proof. induction s as [|c s IH]; simpl; [done|]. destruct (is_space c) eqn:E; simpl; [done|]. by rewrite E. Qed.

Lemma lstrip_head (s : pystr) :
  lstrip s = [] \/ exists c t, lstrip s = c :: t /\ is_space c = false.
Proof.
  induction s as [|c s IH]; simpl; [auto|].
  destruct (is_space c) eqn:E; [done|]. right; eauto.
Qed.

Lemma lstrip_spaces_prefix (s : pystr) : exists w, all_space w /\ s = w ++ lstrip s.
Proof.
  induction s as [|c s (w & Hw & Hs)]; simpl.
  - exists []; split; [constructor|done].
  - destruct (is_space c) eqn:E.
    + exists (c :: w). split; [by constructor|]. simpl. by f_equal.
    + exists []. split; [constructor|done].
Qed.

Lemma lstrip_rev_lstrip (s : pystr) :
  lstrip (rev (lstrip (rev (lstrip s)))) = rev (lstrip (rev (lstrip s))).
Proof.
  destruct (lstrip_head s) as [-> | (c & t & Hs & Hc)]; [done|].
  rewrite Hs. destruct (lstrip_spaces_prefix (rev (c :: t))) as (w & Hw & Heq).
  assert (Hr : c :: t = rev (lstrip (rev (c :: t))) ++ rev w).
  { rewrite <- rev_app_distr, <- Heq, rev_involutive. done. }
  destruct (rev (lstrip (rev (c :: t)))) as [|d u] eqn:Ed.
  - done.
  - simpl in Hr. injection Hr as -> _. by apply lstrip_nonspace.
Qed.

(** [strip] is idempotent. *)
Lemma strip_idem (s : pystr) : strip (strip s) = strip s.
Proof.
  unfold strip, rstrip. rewrite lstrip_rev_lstrip, rev_involutive.
  apply lstrip_rev_lstrip.
Qed.

Lemma lstrip_app (s u : pystr) :
  lstrip (s ++ u) = match lstrip s with [] => lstrip u | _ => lstrip s ++ u end.
Proof.
  induction s as [|c s IH]; simpl; [done|].
  destruct (is_space c); [done|]. reflexivity.
Qed.

Lemma lstrip_all_space (w : pystr) : all_space w -> lstrip w = [].
Proof. intros Hw. rewrite <- (app_nil_r w). by rewrite lstrip_spaces. Qed.

(** Surrounding white space does not change [strip]. *)
Lemma strip_spaces (w1 s w2 : pystr) :
  all_space w1 -> all_space w2 -> strip (w1 ++ s ++ w2) = strip s.
Proof.
  intros H1 H2. unfold strip. rewrite lstrip_spaces, lstrip_app by done.
  destruct (lstrip s) as [|c t] eqn:Hs; [by rewrite lstrip_all_space|].
  exact (rstrip_spaces (c :: t) w2 H2).
Qed.

(** A string that starts and ends with a non-space is its own [strip]. *)
Lemma strip_trimmed (c : Z) (m : pystr) (d : Z) :
  is_space c = false -> is_space d = false -> strip (c :: m ++ [d]) = c :: m ++ [d].
Proof.
  intros Hc Hd. unfold strip, rstrip. rewrite lstrip_nonspace by done.
  rewrite app_comm_cons, rev_app_distr. cbn [rev app lstrip]. rewrite Hd. cbn [rev app].
  by rewrite rev_app_distr, rev_involutive.
Qed.

(** [strip] keeps a leading non-space character. *)
Lemma strip_cons_nonspace (c : Z) (s : pystr) :
  is_space c = false -> exists u, strip (c :: s) = c :: u.
Proof.
  intros Hc. unfold strip, rstrip. rewrite lstrip_nonspace by done.
  cbn [rev]. rewrite lstrip_app. destruct (lstrip (rev s)) as [|d t].
  - cbn. rewrite Hc. by exists [].
  - rewrite rev_app_distr. by eexists.
Qed.

#[export] Hint Rewrite startswith_app endswith_app slice_from_app slice_drop_last_app : omogen_rw.
