(* ===== verification/PyVal.v ===== *)
(** * Python values and exceptions

    The objects [json.loads] builds ([None], [bool], [int], [float], [str],
    [list], [dict]) and the exception classes raised or caught by the
    sources, with the part of the class hierarchy the [except] clauses
    test ([ValueError] and its subclasses). *)

From stdpp Require Import base list decidable.
From Stdlib Require Import ZArith Lia.
From S2P Require Import Prelude PyStr.

Open Scope Z_scope.

(** A float as [json.loads] reads it: a finite decimal [m * 10 ^ e], an
    infinity or NaN ([json.loads] accepts [Infinity], [-Infinity], [NaN]). *)
Inductive pyfloat : Type :=
| FNum (m e : Z)
| FInf (neg : bool)
| FNaN.

Inductive pyval : Type :=
| VNone
| VBool (b : bool)
| VInt (z : Z)
| VFloat (f : pyfloat)
| VStr (s : pystr)
| VList (l : list pyval)
| VDict (d : list (pystr * pyval)).

(** [d[k]] on a dict: dicts are kept without duplicate keys, so the first
    binding is the only one. *)
Fixpoint dict_get (k : pystr) (d : list (pystr * pyval)) : option pyval :=
  match d with
  | [] => None
  | (k', v) :: d' => if str_eqb k k' then Some v else dict_get k d'
  end.

(** [d[k] = v]: replaces the binding in place, or appends it. *)
Fixpoint dict_set (k : pystr) (v : pyval) (d : list (pystr * pyval)) : list (pystr * pyval) :=
  match d with
  | [] => [(k, v)]
  | (k', v') :: d' => if str_eqb k k' then (k, v) :: d' else (k', v') :: dict_set k v d'
  end.

(** The Python type name of a value, as [type(v).__name__]. *)
Definition type_name (v : pyval) : pystr :=
  match v with
  | VNone => py "NoneType" | VBool _ => py "bool" | VInt _ => py "int"
  | VFloat _ => py "float" | VStr _ => py "str" | VList _ => py "list"
  | VDict _ => py "dict"
  end.

(** ** Exceptions *)
Inductive exn : Type :=
| ValueError (msg : pystr)
| JSONDecodeError (msg : pystr) (doc : pystr) (pos : nat)   (** json; a ValueError *)
| UnicodeDecodeError (pos : nat)                           (** a ValueError *)
| UnicodeEncodeError (pos : nat)                           (** a ValueError *)
| ValidationError (title : pystr) (errs : list (pystr * pystr))
    (** pydantic: (field, error type) pairs; a ValueError *)
| KeyError (key : pystr)
| IndexError (msg : pystr)
| TypeError (msg : pystr)
| AttributeError (msg : pystr)
| FileNotFoundError (path : pystr)                         (** an OSError *)
| OperationalError (msg : pystr)                           (** sqlite3 *)
| APIError (msg : pystr)                                   (** openai, timeouts included *)
| HTTPException (status : Z) (detail : pystr).             (** fastapi *)

(** [isinstance(e, ValueError)] *)
Definition is_value_error (e : exn) : bool :=
  match e with
  | ValueError _ | JSONDecodeError _ _ _ | UnicodeDecodeError _
  | UnicodeEncodeError _ | ValidationError _ _ => true
  | _ => false
  end.

(** Decimal rendering of an integer, as [str(n)]. *)
Fixpoint digits_rev (fuel : nat) (n : Z) : pystr :=
  match fuel with
  | O => []
  | S f => (48 + n mod 10) :: (if n <? 10 then [] else digits_rev f (n / 10))
  end.

Definition z_to_dec (n : Z) : pystr :=
  let u := rev (digits_rev (S (Z.to_nat (Z.log2 (Z.abs n)))) (Z.abs n)) in
  if n <? 0 then 45 :: u else u.

Definition nat_to_dec (n : nat) : pystr := z_to_dec (Z.of_nat n).

Fixpoint run_to_newline (s : pystr) : nat :=
  match s with [] => O | c :: t => if bool_decide (c = 10) then O else S (run_to_newline t) end.

(** Line and column of a position, as [json.JSONDecodeError] computes them:
    [doc.count('\n', 0, pos) + 1] and [pos - doc.rfind('\n', 0, pos)]. *)
Definition line_col (doc : pystr) (pos : nat) : nat * nat :=
  let pre := take pos doc in
  let nl := length (filter (fun c => c = 10) pre) in
  let col := run_to_newline (rev pre) in
  (S nl, S col).

(** [str(e)] *)
Definition exn_str (e : exn) : pystr :=
  match e with
  | ValueError m | IndexError m | TypeError m | AttributeError m
  | OperationalError m | APIError m => m
  | JSONDecodeError m doc pos =>
      let '(l, c) := line_col doc pos in
      m ++ py ": line " ++ nat_to_dec l ++ py " column " ++ nat_to_dec c
        ++ py " (char " ++ nat_to_dec pos ++ py ")"
  | UnicodeDecodeError pos =>
      py "'utf-8' codec can't decode byte in position " ++ nat_to_dec pos
  | UnicodeEncodeError pos =>
      py "'utf-8' codec can't encode character in position " ++ nat_to_dec pos
        ++ py ": surrogates not allowed"
  | ValidationError t errs =>
      z_to_dec (Z.of_nat (length errs)) ++ py " validation error"
        ++ (if bool_decide (length errs = 1%nat) then [] else py "s")
        ++ py " for " ++ t
        ++ mjoin (map (fun '(f, ty) => [10] ++ f ++ [10] ++ py "  [type=" ++ ty ++ py "]") errs)
  | KeyError k => [39] ++ k ++ [39]
  | FileNotFoundError p => py "[Errno 2] No such file or directory: '" ++ p ++ [39]
  | HTTPException s d => z_to_dec s ++ py ": " ++ d
  end.

(** ** Induction on values, through the nested lists and dicts *)
Section pyval_rect.
  Variable P : pyval -> Prop.
  Hypothesis HNone : P VNone.
  Hypothesis HBool : forall b, P (VBool b).
  Hypothesis HInt : forall z, P (VInt z).
  Hypothesis HFloat : forall f, P (VFloat f).
  Hypothesis HStr : forall s, P (VStr s).
  Hypothesis HList : forall l, Forall P l -> P (VList l).
  Hypothesis HDict : forall d, Forall (fun kv => P (snd kv)) d -> P (VDict d).

Fixpoint pyval_ind' (v : pyval) : P v :=
    match v with
    | VNone => HNone
    | VBool b => HBool b
    | VInt z => HInt z
    | VFloat f => HFloat f
    | VStr s => HStr s
    | VList l =>
        HList l ((fix go (l : list pyval) : Forall P l :=
                    match l with
                    | [] => Forall_nil _
                    | x :: t => Forall_cons _ _ _ (pyval_ind' x) (go t)
                    end) l)
    | VDict d =>
        HDict d ((fix go (d : list (pystr * pyval)) : Forall (fun kv => P (snd kv)) d :=
                    match d with
                    | [] => Forall_nil _
                    | kv :: t => Forall_cons _ _ _ (pyval_ind' (snd kv)) (go t)
                    end) d)
    end.
End pyval_rect.
