(* ===== verification/Utf8.v ===== *)
(** * UTF-8: [str.encode()] and [bytes.decode('utf-8')]

    The strict UTF-8 codec of CPython: encoding fails on surrogate code
    points, decoding rejects invalid start bytes, bad continuation bytes,
    overlong forms, encoded surrogates, code points above U+10FFFF and
    truncated sequences.  Bytes are [Z] values in [0, 256). *)

From stdpp Require Import base list.
From Stdlib Require Import ZArith Lia.
From S2P Require Import Prelude PyStr PyVal.

Open Scope Z_scope.

Definition is_surrogate (c : Z) : bool := (55296 <=? c) && (c <=? 57343).

(** The UTF-8 bytes of one code point. *)
Definition utf8_char (c : Z) : list Z :=
  if c <? 128 then [c]
  else if c <? 2048 then [192 + c / 64; 128 + c mod 64]
  else if c <? 65536 then [224 + c / 4096; 128 + c / 64 mod 64; 128 + c mod 64]
  else [240 + c / 262144; 128 + c / 4096 mod 64; 128 + c / 64 mod 64; 128 + c mod 64].

(** [s.encode()]; [pos] is the index of the next code point. *)
Fixpoint utf8_encode_from (pos : nat) (s : pystr) : res exn (list Z) :=
  match s with
  | [] => Ok []
  | c :: t =>
      if is_surrogate c then Raise (UnicodeEncodeError pos)
      else bs ← utf8_encode_from (S pos) t; Ok (utf8_char c ++ bs)
  end.

Definition utf8_encode (s : pystr) : res exn (list Z) := utf8_encode_from 0 s.

Definition is_cont (b : Z) : bool := (128 <=? b) && (b <=? 191).

(** One code point from the bytes, with the range the second byte must
    fall in, as CPython's decoder checks it. *)
Definition decode_one (b : list Z) : option (Z * list Z) :=
  match b with
  | [] => None
  | b0 :: t =>
      if b0 <? 128 then Some (b0, t)
      else if (194 <=? b0) && (b0 <=? 223) then
        match t with
        | b1 :: t' => if is_cont b1 then Some ((b0 - 192) * 64 + (b1 - 128), t') else None
        | [] => None
        end
      else if (224 <=? b0) && (b0 <=? 239) then
        let lo := if b0 =? 224 then 160 else 128 in
        let hi := if b0 =? 237 then 159 else 191 in
        match t with
        | b1 :: b2 :: t' =>
            if (lo <=? b1) && (b1 <=? hi) && is_cont b2
            then Some (((b0 - 224) * 64 + (b1 - 128)) * 64 + (b2 - 128), t') else None
        | _ => None
        end
      else if (240 <=? b0) && (b0 <=? 244) then
        let lo := if b0 =? 240 then 144 else 128 in
        let hi := if b0 =? 244 then 143 else 191 in
        match t with
        | b1 :: b2 :: b3 :: t' =>
            if (lo <=? b1) && (b1 <=? hi) && is_cont b2 && is_cont b3
            then Some ((((b0 - 240) * 64 + (b1 - 128)) * 64 + (b2 - 128)) * 64 + (b3 - 128), t')
            else None
        | _ => None
        end
      else None
  end.

(** [b.decode('utf-8')]; [pos] is the byte offset reported on error. *)
Fixpoint utf8_decode_from (fuel pos : nat) (b : list Z) : res exn pystr :=
  match fuel, b with
  | _, [] => Ok []
  | O, _ :: _ => Raise (UnicodeDecodeError pos)
  | S f, _ :: _ =>
      match decode_one b with
      | Some (c, t) => s ← utf8_decode_from f (pos + (length b - length t)) t; Ok (c :: s)
      | None => Raise (UnicodeDecodeError pos)
      end
  end.

Definition utf8_decode (b : list Z) : res exn pystr := utf8_decode_from (length b) 0 b.

(** ** Round trip *)

Lemma div64 (x : Z) : x = 64 * (x / 64) + x mod 64 /\ 0 <= x mod 64 < 64.
Proof. split; [apply Z.div_mod; lia | apply Z.mod_pos_bound; lia]. Qed.

(** Decoding the bytes of a scalar value gives it back. *)
Lemma decode_one_char (c : Z) (t : list Z) :
  valid_char c -> decode_one (utf8_char c ++ t) = Some (c, t).
Proof.
  intros [Hc Hs]. unfold utf8_char.
  replace (c / 4096) with (c / 64 / 64) by (rewrite Z.div_div; [reflexivity | lia..]).
  replace (c / 262144) with (c / 64 / 64 / 64) by (rewrite !Z.div_div; [reflexivity | lia..]).
  destruct (div64 c) as [E0 R0]. destruct (div64 (c / 64)) as [E1 R1].
  destruct (div64 (c / 64 / 64)) as [E2 R2].
  set (q1 := c / 64) in *. set (q2 := q1 / 64) in *. set (q3 := q2 / 64) in *.
  set (r0 := c mod 64) in *. set (r1 := q1 mod 64) in *. set (r2 := q2 mod 64) in *.
  clearbody q1 q2 q3 r0 r1 r2.
  unfold decode_one, is_cont. zbool; cbn [app]; zbool; f_equal; f_equal; lia.
Qed.

Lemma utf8_char_cons (c : Z) : exists b bs, utf8_char c = b :: bs.
Proof. unfold utf8_char. repeat case_match; eauto. Qed.

Lemma utf8_encode_from_Ok pos s b :
  utf8_encode_from pos s = Ok b -> b = mjoin (map utf8_char s) /\ Forall (fun c => is_surrogate c = false) s.
Proof.
  revert pos b; induction s as [|c s IH]; intros pos b; simpl; [by intros [= <-]|].
  destruct (is_surrogate c) eqn:Hc; [discriminate|].
  intros (bs & Hbs & [= <-])%bind_eq_Ok. apply IH in Hbs as [-> Hs]. by split; [|constructor].
Qed.

Lemma utf8_decode_from_chars f pos s :
  Forall valid_char s -> (length (mjoin (map utf8_char s)) <= f)%nat ->
  utf8_decode_from f pos (mjoin (map utf8_char s)) = Ok s.
Proof.
  revert f pos; induction s as [|c s IH]; intros f pos Hs Hf; [by destruct f|].
  apply Forall_cons_iff in Hs as [Hc Hs].
  change (mjoin (map utf8_char (c :: s))) with (utf8_char c ++ mjoin (map utf8_char s)) in *.
  rewrite length_app in Hf.
  destruct (utf8_char_cons c) as (b & bs & Eb).
  destruct f as [|f]; [rewrite Eb in Hf; simpl in Hf; lia|].
  rewrite Eb. cbn [app utf8_decode_from]. rewrite !app_comm_cons, <- Eb, decode_one_char by done.
  rewrite IH by (done || (rewrite Eb in Hf; simpl in Hf; lia)). done.
Qed.

(** [s.encode()] then [.decode('utf-8')] gives [s] back. *)
Theorem utf8_decode_encode (s : pystr) (b : list Z) :
  Forall (fun c => 0 <= c < 1114112) s -> utf8_encode s = Ok b -> utf8_decode b = Ok s.
Proof.
  intros Hr (-> & Hs)%utf8_encode_from_Ok. apply utf8_decode_from_chars; [|done].
  apply Forall_forall. intros c Hc. apply (proj1 (Forall_forall _ _) Hr) in Hc as Hc1.
  apply (proj1 (Forall_forall _ _) Hs) in Hc. unfold is_surrogate in Hc.
  split; [done|]. apply andb_false_iff in Hc as [Hc|Hc]; apply Z.leb_gt in Hc; lia.
Qed.
