(* ===== verification/Sha256.v ===== *)
(** * SHA-256 (FIPS 180-4), as [hashlib.sha256]

    Words are [Z] values in [0, 2^32), every addition is reduced modulo
    2^32; messages are lists of bytes. *)

From stdpp Require Import base list.
From Stdlib Require Import ZArith Lia.
From S2P Require Import Prelude.

Open Scope Z_scope.

Definition mask32 : Z := 2 ^ 32 - 1.
Definition add32 (x y : Z) : Z := (x + y) mod 2 ^ 32.
Definition rotr (n x : Z) : Z := Z.lor (Z.shiftr x n) (Z.land (Z.shiftl x (32 - n)) mask32).
Definition not32 (x : Z) : Z := Z.lxor x mask32.

Definition ch (x y z : Z) : Z := Z.lxor (Z.land x y) (Z.land (not32 x) z).
Definition maj (x y z : Z) : Z := Z.lxor (Z.lxor (Z.land x y) (Z.land x z)) (Z.land y z).
Definition bsig0 (x : Z) : Z := Z.lxor (Z.lxor (rotr 2 x) (rotr 13 x)) (rotr 22 x).
Definition bsig1 (x : Z) : Z := Z.lxor (Z.lxor (rotr 6 x) (rotr 11 x)) (rotr 25 x).
Definition ssig0 (x : Z) : Z := Z.lxor (Z.lxor (rotr 7 x) (rotr 18 x)) (Z.shiftr x 3).
Definition ssig1 (x : Z) : Z := Z.lxor (Z.lxor (rotr 17 x) (rotr 19 x)) (Z.shiftr x 10).

Definition K : list Z :=
  [1116352408; 1899447441; 3049323471; 3921009573; 961987163; 1508970993; 2453635748; 2870763221;
   3624381080; 310598401; 607225278; 1426881987; 1925078388; 2162078206; 2614888103; 3248222580;
   3835390401; 4022224774; 264347078; 604807628; 770255983; 1249150122; 1555081692; 1996064986;
   2554220882; 2821834349; 2952996808; 3210313671; 3336571891; 3584528711; 113926993; 338241895;
   666307205; 773529912; 1294757372; 1396182291; 1695183700; 1986661051; 2177026350; 2456956037;
   2730485921; 2820302411; 3259730800; 3345764771; 3516065817; 3600352804; 4094571909; 275423344;
   430227734; 506948616; 659060556; 883997877; 958139571; 1322822218; 1537002063; 1747873779;
   1955562222; 2024104815; 2227730452; 2361852424; 2428436474; 2756734187; 3204031479; 3329325298].

Definition H0 : list Z :=
  [1779033703; 3144134277; 1013904242; 2773480762; 1359893119; 2600822924; 528734635; 1541459225].

(** Big-endian bytes of a number. *)
Fixpoint be_bytes (n : nat) (x : Z) : list Z :=
  match n with O => [] | S k => be_bytes k (x / 256) ++ [x mod 256] end.

Fixpoint be_word (bs : list Z) (acc : Z) : Z :=
  match bs with [] => acc | b :: t => be_word t (acc * 256 + b) end.

(** Padding: [0x80], zeros to 56 mod 64, the bit length on 8 bytes. *)
Definition pad (msg : list Z) : list Z :=
  let l := length msg in
  let z := ((119 - l mod 64) mod 64)%nat in
  msg ++ [128] ++ repeat 0 z ++ be_bytes 8 (Z.of_nat l * 8).

Fixpoint words (fuel : nat) (bs : list Z) : list Z :=
  match fuel with
  | O => []
  | S f => match bs with [] => [] | _ => be_word (take 4 bs) 0 :: words f (drop 4 bs) end
  end.

Fixpoint blocks (fuel : nat) (bs : list Z) : list (list Z) :=
  match fuel with
  | O => []
  | S f => match bs with [] => [] | _ => take 64 bs :: blocks f (drop 64 bs) end
  end.

(** The message schedule: [W] grown from 16 to 64 words, newest last. *)
Fixpoint schedule (n : nat) (w : list Z) : list Z :=
  match n with
  | O => w
  | S k =>
      let t := length w in
      let wt := add32 (add32 (ssig1 (w !!! (t - 2)%nat)) (w !!! (t - 7)%nat))
                      (add32 (ssig0 (w !!! (t - 15)%nat)) (w !!! (t - 16)%nat)) in
      schedule k (w ++ [wt])
  end.

Record regs : Type := mkregs { ra : Z; rb : Z; rc : Z; rd : Z; re : Z; rf : Z; rg : Z; rh : Z }.

Definition round (s : regs) (kt wt : Z) : regs :=
  let t1 := add32 (add32 (add32 (rh s) (bsig1 (re s))) (add32 (ch (re s) (rf s) (rg s)) kt)) wt in
  let t2 := add32 (bsig0 (ra s)) (maj (ra s) (rb s) (rc s)) in
  mkregs (add32 t1 t2) (ra s) (rb s) (rc s) (add32 (rd s) t1) (re s) (rf s) (rg s).

Definition regs_of (h : list Z) : regs :=
  mkregs (h !!! 0%nat) (h !!! 1%nat) (h !!! 2%nat) (h !!! 3%nat)
         (h !!! 4%nat) (h !!! 5%nat) (h !!! 6%nat) (h !!! 7%nat).

Definition compress (h : list Z) (block : list Z) : list Z :=
  let w := schedule 48 (words 16 block) in
  let s := fold_left (fun s kw => round s kw.1 kw.2) (zip K w) (regs_of h) in
  zip_with add32 h [ra s; rb s; rc s; rd s; re s; rf s; rg s; rh s].

(** [hashlib.sha256(msg).digest()] *)
Definition sha256 (msg : list Z) : list Z :=
  let p := pad msg in
  mjoin (map (be_bytes 4) (fold_left compress (blocks (length p) p) H0)).

(** ** Shape of the digest *)

Lemma length_be_bytes (n : nat) (x : Z) : length (be_bytes n x) = n.
Proof. revert x; induction n as [|n IH]; intros x; simpl; [done|]. rewrite length_app, IH. simpl. lia. Qed.

Lemma be_bytes_range (n : nat) (x : Z) : Forall (fun b => 0 <= b < 256) (be_bytes n x).
Proof.
  revert x; induction n as [|n IH]; intros x; simpl; [constructor|].
  apply Forall_app; split; [apply IH|]. constructor; [apply Z.mod_pos_bound; lia|constructor].
Qed.

Lemma length_compress (h block : list Z) : length h = 8%nat -> length (compress h block) = 8%nat.
Proof. intros Hh. unfold compress. rewrite length_zip_with, Hh. reflexivity. Qed.

Lemma length_fold_compress (bs : list (list Z)) (h : list Z) :
  length h = 8%nat -> length (fold_left compress bs h) = 8%nat.
Proof.
  revert h; induction bs as [|b bs IH]; intros h Hh; simpl; [done|].
  by apply IH, length_compress.
Qed.

Lemma length_mjoin_be (l : list Z) : length (mjoin (map (be_bytes 4) l)) = (4 * length l)%nat.
Proof.
  induction l as [|x l IH]; [done|].
  change (mjoin (map (be_bytes 4) (x :: l))) with (be_bytes 4 x ++ mjoin (map (be_bytes 4) l)).
  rewrite length_app, length_be_bytes, IH. simpl. lia.
Qed.

(** A SHA-256 digest is 32 bytes. *)
Lemma length_sha256 (msg : list Z) : length (sha256 msg) = 32%nat.
Proof. unfold sha256. rewrite length_mjoin_be, length_fold_compress; reflexivity. Qed.

Lemma sha256_bytes (msg : list Z) : Forall (fun b => 0 <= b < 256) (sha256 msg).
Proof.
  unfold sha256. generalize (fold_left compress (blocks (length (pad msg)) (pad msg)) H0).
  intros l. induction l as [|x l IH]; [constructor|].
  change (mjoin (map (be_bytes 4) (x :: l))) with (be_bytes 4 x ++ mjoin (map (be_bytes 4) l)).
  apply Forall_app; split; [apply be_bytes_range | apply IH].
Qed.
