(* ===== verification/Json.v ===== *)
(** * [json.dumps] and [json.loads]

    The encoder and decoder of CPython's [json] module as the sources call
    them ([json.dumps(obj)] with the default options, [json.loads(s)]), after
    the C accelerator of [Modules/_json.c]: [ensure_ascii] escaping, the
    [", "] and [": "] separators, the string scanner with its [\uXXXX] and
    surrogate-pair rules, the number grammar, and the error positions of
    [json.JSONDecodeError].  Parsing uses fuel; [json_loads] gives it one
    unit per input character, and every recursive call consumes at least
    one character; [JsonRoundtrip.json_roundtrip] shows the fuel is enough
    on every text [json_dumps] produces. *)

From stdpp Require Import base list decidable.
From Stdlib Require Import ZArith Lia.
From S2P Require Import Prelude PyStr PyVal.

Open Scope Z_scope.

(** ** Encoder *)

(** CPython limits [int] to [str] conversion to 4300 digits. *)
Definition max_str_digits : nat := 4300.

Definition int_limit_error (ndigits : nat) : exn :=
  ValueError (py "Exceeds the limit (4300 digits) for integer string conversion; use sys.set_int_max_str_digits() to increase the limit").

(** [int.__repr__] *)
Definition int_repr (z : Z) : res exn pystr :=
  let s := z_to_dec z in
  let n := length (z_to_dec (Z.abs z)) in
  if (max_str_digits <? n)%nat then Raise (int_limit_error n) else Ok s.

(** [float.__repr__] of a decimal value: [inf], [nan] and positional
    notation with at least one fractional digit.  No float reaches the
    encoder in this program (a dumped [MatchResult] holds none). *)
Fixpoint strip_zeros (fuel : nat) (m e : Z) : Z * Z :=
  match fuel with
  | O => (m, e)
  | S f => if (m =? 0) || negb (m mod 10 =? 0) then (m, e) else strip_zeros f (m / 10) (e + 1)
  end.

Definition float_repr (f : pyfloat) : pystr :=
  match f with
  | FInf false => py "Infinity"
  | FInf true => py "-Infinity"
  | FNaN => py "NaN"
  | FNum m e =>
      let '(m', e') := strip_zeros 64 m e in
      if 0 <=? e' then z_to_dec (m' * 10 ^ e') ++ py ".0"
      else
        let ds := z_to_dec (Z.abs m') in
        let k := Z.to_nat (- e') in
        let ds := repeat 48 (S k - length ds) ++ ds in
        (if m' <? 0 then [45] else []) ++ take (length ds - k) ds ++ [46] ++ drop (length ds - k) ds
  end.

(** Lower-case hexadecimal digit. *)
Definition hexdig (n : Z) : Z := if n <? 10 then 48 + n else 87 + n.

Definition u_escape (c : Z) : pystr :=
  [92; 117; hexdig (c / 4096 mod 16); hexdig (c / 256 mod 16); hexdig (c / 16 mod 16); hexdig (c mod 16)].

(** [ascii_escape_unichar] and [S_CHAR]: printable ASCII but backslash and
    double quote is kept, the rest is escaped, above U+FFFF as a surrogate pair. *)
Definition escape_char (c : Z) : pystr :=
  if c =? 92 then [92; 92]
  else if c =? 34 then [92; 34]
  else if (32 <=? c) && (c <=? 126) then [c]
  else if c =? 8 then [92; 98]
  else if c =? 12 then [92; 102]
  else if c =? 10 then [92; 110]
  else if c =? 13 then [92; 114]
  else if c =? 9 then [92; 116]
  else if 65536 <=? c then
    let v := c - 65536 in u_escape (55296 + v / 1024) ++ u_escape (56320 + v mod 1024)
  else u_escape c.

(** [py_encode_basestring_ascii] *)
Definition encode_str (s : pystr) : pystr := [34] ++ mjoin (map escape_char s) ++ [34].

(** [json.dumps(v)] *)
Fixpoint json_dumps (v : pyval) : res exn pystr :=
  match v with
  | VNone => Ok (py "null")
  | VBool true => Ok (py "true")
  | VBool false => Ok (py "false")
  | VInt z => int_repr z
  | VFloat f => Ok (float_repr f)
  | VStr s => Ok (encode_str s)
  | VList l =>
      items ← (fix go (l : list pyval) : res exn (list pystr) :=
                 match l with
                 | [] => Ok []
                 | x :: t => a ← json_dumps x; r ← go t; Ok (a :: r)
                 end) l;
      Ok ([91] ++ join_sep (py ", ") items ++ [93])
  | VDict d =>
      items ← (fix go (d : list (pystr * pyval)) : res exn (list pystr) :=
                 match d with
                 | [] => Ok []
                 | (k, x) :: t => a ← json_dumps x; r ← go t; Ok ((encode_str k ++ py ": " ++ a) :: r)
                 end) d;
      Ok ([123] ++ join_sep (py ", ") items ++ [125])
  end.

(** ** Decoder *)

(** JSON white space: space, tab, newline, carriage return. *)
Definition is_ws (c : Z) : bool := (c =? 32) || (c =? 9) || (c =? 10) || (c =? 13).

Fixpoint skip_ws (s : pystr) : pystr :=
  match s with c :: t => if is_ws c then skip_ws t else s | [] => [] end.

Definition hex_val (c : Z) : option Z :=
  if (48 <=? c) && (c <=? 57) then Some (c - 48)
  else if (97 <=? c) && (c <=? 102) then Some (c - 87)
  else if (65 <=? c) && (c <=? 70) then Some (c - 55)
  else None.

(** Four hexadecimal digits. *)
Definition hex4 (s : pystr) : option (Z * pystr) :=
  match s with
  | a :: b :: c :: d :: t =>
      match hex_val a, hex_val b, hex_val c, hex_val d with
      | Some a, Some b, Some c, Some d => Some (((a * 16 + b) * 16 + c) * 16 + d, t)
      | _, _, _, _ => None
      end
  | _ => None
  end.

Definition is_high_surrogate (c : Z) : bool := (55296 <=? c) && (c <=? 56319).
Definition is_low_surrogate (c : Z) : bool := (56320 <=? c) && (c <=? 57343).
Definition join_surrogates (hi lo : Z) : Z := 65536 + (hi - 55296) * 1024 + (lo - 56320).

Definition simple_escape (e : Z) : option Z :=
  if e =? 34 then Some 34 else if e =? 92 then Some 92 else if e =? 47 then Some 47
  else if e =? 98 then Some 8 else if e =? 102 then Some 12 else if e =? 110 then Some 10
  else if e =? 114 then Some 13 else if e =? 116 then Some 9 else None.

(** One step of [scanstring_unicode]. *)
Inductive sstep : Type :=
| SChar (c : Z) (rest : pystr)
| SEnd (rest : pystr)
| SErr (msg : pystr) (at_ : pystr).

Definition scan_char (start s : pystr) : sstep :=
  match s with
  | [] => SErr (py "Unterminated string starting at") start
  | c :: t =>
      if c =? 34 then SEnd t
      else if c =? 92 then
        match t with
        | [] => SErr (py "Unterminated string starting at") start
        | e :: t' =>
            if e =? 117 then
              match hex4 t' with
              | None => SErr (py "Invalid \uXXXX escape") t
              | Some (_, []) => SErr (py "Invalid \uXXXX escape") t
              | Some (v, t'') =>
                  if is_high_surrogate v && (6 <? length t'')%nat then
                    match t'' with
                    | 92 :: 117 :: t3 =>
                        match hex4 t3 with
                        | None => SErr (py "Invalid \uXXXX escape") (117 :: t3)
                        | Some (v2, t4) =>
                            if is_low_surrogate v2 then SChar (join_surrogates v v2) t4
                            else SChar v t''
                        end
                    | _ => SChar v t''
                    end
                  else SChar v t''
              end
            else match simple_escape e with
                 | Some c' => SChar c' t'
                 | None => SErr (py "Invalid \escape") s
                 end
        end
      else if c <=? 31 then SErr (py "Invalid control character at") s
      else SChar c t
  end.

Section Decoder.
  (** The whole document: error positions are counted from its start. *)
  Variable doc : pystr.

Definition pos_of (s : pystr) : nat := (length doc - length s)%nat.

Definition jerr {A} (msg : pystr) (s : pystr) : res exn A :=
    Raise (JSONDecodeError msg doc (pos_of s)).

  (** [scanstring]: [start] is the input at the opening quote. *)
Fixpoint scan_str (fuel : nat) (start acc s : pystr) : res exn (pystr * pystr) :=
    match fuel with
    | O => jerr (py "Unterminated string starting at") start
    | S f =>
        match scan_char start s with
        | SEnd rest => Ok (rev acc, rest)
        | SChar c rest => scan_str f start (c :: acc) rest
        | SErr m at_ => jerr m at_
        end
    end.

Definition scan_string (start : pystr) (s : pystr) : res exn (pystr * pystr) :=
    scan_str (S (length s)) start [] s.

Fixpoint span_digits (s : pystr) : pystr * pystr :=
    match s with
    | c :: t => if (48 <=? c) && (c <=? 57) then let '(d, r) := span_digits t in (c :: d, r) else ([], s)
    | [] => ([], [])
    end.

Definition digits_val (ds : pystr) : Z := fold_left (fun acc c => acc * 10 + (c - 48)) ds 0.

  (** The exponent part, or [None] to backtrack. *)
Definition scan_exp (s : pystr) : option (Z * pystr) :=
    match s with
    | e :: t =>
        if (e =? 101) || (e =? 69) then
          let '(sg, t2) := match t with
                           | c :: t3 => if c =? 45 then (-1, t3) else if c =? 43 then (1, t3) else (1, t)
                           | [] => (1, t)
                           end in
          match span_digits t2 with
          | ([], _) => None
          | (ds, r) => Some (sg * digits_val ds, r)
          end
        else None
    | [] => None
    end.

  (** [_match_number_unicode] *)
Definition scan_number (s : pystr) : res exn (pyval * pystr) :=
    let '(sg, s1) := match s with c :: t => if c =? 45 then (-1, t) else (1, s) | [] => (1, s) end in
    let int_part :=
      match s1 with
      | c :: t =>
          if c =? 48 then Some ([48], t)
          else if (49 <=? c) && (c <=? 57) then Some (span_digits s1) else None
      | [] => None
      end in
    match int_part with
    | None => jerr (py "Expecting value") s
    | Some (ip, r1) =>
        let '(fp, r2) := match r1 with
                         | c :: d :: t =>
                             if (c =? 46) && ((48 <=? d) && (d <=? 57)) then span_digits (d :: t)
                             else ([], r1)
                         | _ => ([], r1)
                         end in
        match fp, scan_exp r2 with
        | [], None =>
            if (max_str_digits <? length ip)%nat then Raise (int_limit_error (length ip))
            else Ok (VInt (sg * digits_val ip), r2)
        | _, None => Ok (VFloat (FNum (sg * digits_val (ip ++ fp)) (- Z.of_nat (length fp))), r2)
        | _, Some (ex, r3) =>
            Ok (VFloat (FNum (sg * digits_val (ip ++ fp)) (ex - Z.of_nat (length fp))), r3)
        end
    end.

  (** [scan_once_unicode], [_parse_object_unicode], [_parse_array_unicode]. *)
Fixpoint scan_once (fuel : nat) (s : pystr) : res exn (pyval * pystr) :=
    match fuel with
    | O => jerr (py "Expecting value") s
    | S f =>
        match s with
        | [] => jerr (py "Expecting value") s
        | c :: t =>
            if c =? 34 then '(str, r) ← scan_string s t; Ok (VStr str, r)
            else if c =? 123 then
              let t := skip_ws t in
              match t with
              | c' :: r => if c' =? 125 then Ok (VDict [], r) else parse_members f [] t
              | [] => parse_members f [] t
              end
            else if c =? 91 then
              let t := skip_ws t in
              match t with
              | c' :: r => if c' =? 93 then Ok (VList [], r) else parse_elements f [] t
              | [] => parse_elements f [] t
              end
            else if startswith s (py "null") then Ok (VNone, drop 4 s)
            else if startswith s (py "true") then Ok (VBool true, drop 4 s)
            else if startswith s (py "false") then Ok (VBool false, drop 5 s)
            else if startswith s (py "NaN") then Ok (VFloat FNaN, drop 3 s)
            else if startswith s (py "Infinity") then Ok (VFloat (FInf false), drop 8 s)
            else if startswith s (py "-Infinity") then Ok (VFloat (FInf true), drop 9 s)
            else scan_number s
        end
    end
  with parse_members (fuel : nat) (acc : list (pystr * pyval)) (s : pystr)
      : res exn (pyval * pystr) :=
    match fuel with
    | O => jerr (py "Expecting value") s
    | S f =>
        match s with
        | 34 :: t =>
            '(key, r1) ← scan_string s t;
            let r1 := skip_ws r1 in
            match r1 with
            | 58 :: r2 =>
                '(v, r3) ← scan_once f (skip_ws r2);
                let acc := dict_set key v acc in
                let r3 := skip_ws r3 in
                match r3 with
                | 125 :: r4 => Ok (VDict acc, r4)
                | 44 :: r4 => parse_members f acc (skip_ws r4)
                | _ => jerr (py "Expecting ',' delimiter") r3
                end
            | _ => jerr (py "Expecting ':' delimiter") r1
            end
        | _ => jerr (py "Expecting property name enclosed in double quotes") s
        end
    end
  with parse_elements (fuel : nat) (acc : list pyval) (s : pystr) : res exn (pyval * pystr) :=
    match fuel with
    | O => jerr (py "Expecting value") s
    | S f =>
        '(v, r1) ← scan_once f s;
        let r1 := skip_ws r1 in
        match r1 with
        | 93 :: r2 => Ok (VList (acc ++ [v]), r2)
        | 44 :: r2 => parse_elements f (acc ++ [v]) (skip_ws r2)
        | _ => jerr (py "Expecting ',' delimiter") r1
        end
    end.
End Decoder.

(** [json.loads(s)] *)
Definition json_loads (s : pystr) : res exn pyval :=
  if startswith s [65279] then
    Raise (JSONDecodeError (py "Unexpected UTF-8 BOM (decode using utf-8-sig)") s 0)
  else
    '(v, r) ← scan_once s (S (length s)) (skip_ws s);
    match skip_ws r with
    | [] => Ok v
    | r' => jerr s (py "Extra data") r'
    end.
