(* ===== verification/JsonRoundtrip.v ===== *)
(** * [json.loads(json.dumps(v)) == v]

    The round trip of the encoder and decoder of [Json] on the values the
    cache stores: no floats, strings of Unicode scalar values (a lone
    surrogate pair written as two code points would come back joined) and
    dicts without duplicate keys. *)

From stdpp Require Import base list decidable sets.
From Stdlib Require Import ZArith Lia.
From S2P Require Import Prelude PyStr PyVal Json.

Open Scope Z_scope.

(** ** Decimal digits *)

Definition is_dig (c : Z) : Prop := 48 <= c <= 57.

Lemma digits_val_snoc (ds : pystr) (d : Z) :
  digits_val (ds ++ [d]) = digits_val ds * 10 + (d - 48).
Proof. unfold digits_val. by rewrite fold_left_app. Qed.

Lemma digits_rev_S (f : nat) (n : Z) :
  digits_rev (S f) n = (48 + n mod 10) :: (if n <? 10 then [] else digits_rev f (n / 10)).
Proof. reflexivity. Qed.

Lemma digits_rev_ok (f : nat) (n : Z) :
  0 <= n < 2 ^ Z.of_nat (S f) ->
  exists d ds, rev (digits_rev (S f) n) = d :: ds /\ Forall is_dig (d :: ds)
    /\ digits_val (d :: ds) = n /\ (0 < n -> d <> 48).
Proof.
  revert n; induction f as [|f IH]; intros n Hn; rewrite digits_rev_S.
  - assert (n < 10) by (simpl in Hn; lia). destruct (Z.ltb_spec n 10); [|lia].
    simpl. rewrite Z.mod_small by lia. exists (48 + n), []. repeat split.
    + constructor; [unfold is_dig; lia | constructor].
    + unfold digits_val; simpl; lia.
    + lia.
  - destruct (Z.ltb_spec n 10).
    + simpl. rewrite Z.mod_small by lia. exists (48 + n), []. repeat split.
      * constructor; [unfold is_dig; lia | constructor].
      * unfold digits_val; simpl; lia.
      * lia.
    + destruct (IH (n / 10)) as (d & ds & Hr & Hd & Hv & Hz).
      { split; [apply Z.div_pos; lia|].
        rewrite Nat2Z.inj_succ, Z.pow_succ_r in * by lia.
        apply Z.div_lt_upper_bound; [lia|]. rewrite Nat2Z.inj_succ, Z.pow_succ_r in Hn by lia. lia. }
      cbv iota. change (rev (?x :: ?l)) with (rev l ++ [x]). rewrite Hr. exists d, (ds ++ [48 + n mod 10]). repeat split.
      * rewrite app_comm_cons. apply Forall_app; split; [done|].
        constructor; [unfold is_dig; pose proof (Z.mod_pos_bound n 10); lia | constructor].
      * rewrite app_comm_cons, digits_val_snoc, Hv. pose proof (Z.div_mod n 10). lia.
      * intros _. apply Hz. apply Z.div_str_pos. lia.
Qed.

(** [str(n)] for [n >= 0]: digits, no leading zero, reading back to [n]. *)
Lemma z_to_dec_nonneg (n : Z) :
  0 <= n -> exists d ds, z_to_dec n = d :: ds /\ Forall is_dig (d :: ds)
    /\ digits_val (d :: ds) = n /\ (0 < n -> d <> 48) /\ (n = 0 -> ds = []).
Proof.
  intros Hn. unfold z_to_dec. destruct (Z.ltb_spec n 0); [lia|].
  rewrite Z.abs_eq by lia.
  destruct (digits_rev_ok (Z.to_nat (Z.log2 n)) n) as (d & ds & Hr & Hd & Hv & Hz).
  { split; [lia|]. destruct (Z.eq_dec n 0) as [->|]; [simpl; lia|].
    rewrite Nat2Z.inj_succ, Z2Nat.id by apply Z.log2_nonneg. apply Z.log2_spec. lia. }
  exists d, ds. rewrite Hr. repeat split; try done.
  intros ->. revert Hr. simpl. intros [= _ <-]. done.
Qed.

(** ** Strings *)


Lemma hex_val_hexdig (n : Z) : 0 <= n < 16 -> hex_val (hexdig n) = Some n.
Proof.
  intros Hn. unfold hexdig, hex_val. destruct (Z.ltb_spec n 10).
  - destruct (Z.leb_spec 48 (48 + n)), (Z.leb_spec (48 + n) 57); try lia. simpl. f_equal; lia.
  - destruct (Z.leb_spec 48 (87 + n)), (Z.leb_spec (87 + n) 57); try lia; simpl;
      destruct (Z.leb_spec 97 (87 + n)), (Z.leb_spec (87 + n) 102); try lia; simpl; f_equal; lia.
Qed.

Lemma hex_digits_value (c : Z) : 0 <= c < 65536 ->
  ((c / 4096 mod 16 * 16 + c / 256 mod 16) * 16 + c / 16 mod 16) * 16 + c mod 16 = c.
Proof.
  intros Hc.
  assert (E1 : c / 256 = c / 16 / 16) by (rewrite Z.div_div by lia; reflexivity).
  assert (E2 : c / 4096 = c / 16 / 16 / 16) by (rewrite !Z.div_div by lia; reflexivity).
  rewrite E1, E2.
  rewrite (Z.mod_small (c / 16 / 16 / 16) 16)
    by (rewrite !Z.div_div by lia; split; [apply Z.div_pos|apply Z.div_lt_upper_bound]; lia).
  pose proof (Z.div_mod c 16). pose proof (Z.div_mod (c / 16) 16).
  pose proof (Z.div_mod (c / 16 / 16) 16). lia.
Qed.

Lemma hex4_u_escape (c : Z) (t : pystr) :
  0 <= c < 65536 -> hex4 (drop 2 (u_escape c) ++ t) = Some (c, t).
Proof.
  intros Hc. unfold u_escape; simpl.
  rewrite !hex_val_hexdig by (apply Z.mod_pos_bound; lia).
  by rewrite hex_digits_value.
Qed.

Lemma u_escape_shape (c : Z) : u_escape c = 92 :: 117 :: drop 2 (u_escape c).
Proof. reflexivity. Qed.

Lemma scan_char_u_escape (start : pystr) (c : Z) (t : pystr) :
  0 <= c < 65536 -> ~ (55296 <= c <= 56319) -> t <> [] ->
  scan_char start (u_escape c ++ t) = SChar c t.
Proof.
  intros Hc Hs Ht. rewrite u_escape_shape.
  change ((92 :: 117 :: ?l) ++ ?t) with (92 :: 117 :: (l ++ t)).
  unfold scan_char. cbn beta iota. rewrite hex4_u_escape by done. cbn [Z.eqb Pos.eqb].
  destruct t as [|x t]; [done|].
  unfold is_high_surrogate. destruct (Z.leb_spec 55296 c), (Z.leb_spec c 56319); try lia; done.
Qed.

Lemma scan_char_pair (start : pystr) (c : Z) (t : pystr) :
  65536 <= c < 1114112 -> t <> [] ->
  scan_char start (u_escape (55296 + (c - 65536) / 1024) ++ u_escape (56320 + (c - 65536) mod 1024) ++ t)
    = SChar c t.
Proof.
  intros Hc Ht.
  set (hi := 55296 + (c - 65536) / 1024). set (lo := 56320 + (c - 65536) mod 1024).
  assert (Hhi : 55296 <= hi <= 56319).
  { unfold hi. split; [pose proof (Z.div_pos (c - 65536) 1024); lia|].
    assert ((c - 65536) / 1024 < 1024) by (apply Z.div_lt_upper_bound; lia). lia. }
  assert (Hlo : 56320 <= lo <= 57343) by (unfold lo; pose proof (Z.mod_pos_bound (c - 65536) 1024); lia).
  rewrite (u_escape_shape hi), (u_escape_shape lo), <- !app_comm_cons.
  unfold scan_char. cbn beta iota. rewrite hex4_u_escape by lia. cbn beta iota.
  replace (is_high_surrogate hi) with true
    by (unfold is_high_surrogate; destruct (Z.leb_spec 55296 hi), (Z.leb_spec hi 56319); done || lia).
  replace (Nat.ltb 6 (length (92 :: 117 :: drop 2 (u_escape lo) ++ t))) with true
    by (symmetry; apply Nat.ltb_lt; destruct t; [done|]; simpl; lia).
  cbn beta iota. rewrite hex4_u_escape by lia.
  replace (is_low_surrogate lo) with true
    by (unfold is_low_surrogate; destruct (Z.leb_spec 56320 lo), (Z.leb_spec lo 57343); done || lia).
  f_equal. unfold join_surrogates, hi, lo. pose proof (Z.div_mod (c - 65536) 1024). lia.
Qed.

Lemma scan_char_escape (start : pystr) (c : Z) (t : pystr) :
  valid_char c -> t <> [] -> scan_char start (escape_char c ++ t) = SChar c t.
Proof.
  intros [Hc Hs] Ht. unfold escape_char.
  destruct (Z.eqb_spec c 92) as [->|H92]; [reflexivity|].
  destruct (Z.eqb_spec c 34) as [->|H34]; [reflexivity|].
  destruct ((32 <=? c) && (c <=? 126)) eqn:Hp.
  - apply andb_true_iff in Hp as [Hp1%Z.leb_le Hp2%Z.leb_le]. simpl.
    apply Z.eqb_neq in H92, H34. rewrite H34, H92.
    destruct (Z.leb_spec c 31); [lia|done].
  - destruct (Z.eqb_spec c 8) as [->|]; [reflexivity|].
    destruct (Z.eqb_spec c 12) as [->|]; [reflexivity|].
    destruct (Z.eqb_spec c 10) as [->|]; [reflexivity|].
    destruct (Z.eqb_spec c 13) as [->|]; [reflexivity|].
    destruct (Z.eqb_spec c 9) as [->|]; [reflexivity|].
    destruct (Z.leb_spec 65536 c).
    + rewrite <- app_assoc. apply scan_char_pair; [lia|done].
    + apply scan_char_u_escape; [lia|lia|done].
Qed.

Lemma escape_char_nonempty (c : Z) : escape_char c <> [].
Proof.
  unfold escape_char.
  repeat match goal with |- context [if ?b then _ else _] => destruct b end; done.
Qed.

(** [scanstring] reads an encoded string back, for any fuel above its length. *)
Lemma scan_str_escaped (doc start : pystr) (s acc r : pystr) (fuel : nat) :
  Forall valid_char s -> (length (mjoin (map escape_char s)) < fuel)%nat ->
  scan_str doc fuel start acc (mjoin (map escape_char s) ++ 34 :: r) = Ok (rev acc ++ s, r).
Proof.
  revert acc fuel; induction s as [|c s IH]; intros acc fuel Hs Hf;
    destruct fuel as [|fuel]; try (simpl in Hf; lia).
  - simpl. by rewrite app_nil_r.
  - inversion Hs as [|? ? Hc Hs']; subst. simpl (mjoin _) in *. rewrite <- app_assoc.
    simpl. rewrite scan_char_escape by (done || by destruct (mjoin (map escape_char s))).
    rewrite IH by (done || (rewrite length_app in Hf; pose proof (escape_char_nonempty c);
                            destruct (escape_char c); [done|simpl in Hf; lia])).
    simpl. by rewrite <- app_assoc.
Qed.

Lemma scan_string_encoded (doc s r : pystr) :
  Forall valid_char s -> scan_string doc (encode_str s ++ r) (mjoin (map escape_char s) ++ 34 :: r) = Ok (s, r).
Proof.
  intros Hs. unfold scan_string. rewrite scan_str_escaped; [done|done|].
  rewrite length_app. simpl. lia.
Qed.

(** ** Values *)

(** The values the round trip covers. *)
Fixpoint json_repr (v : pyval) : Prop :=
  match v with
  | VNone | VBool _ | VInt _ => True
  | VFloat _ => False
  | VStr s => Forall valid_char s
  | VList l =>
      (fix go (l : list pyval) : Prop :=
         match l with [] => True | x :: t => json_repr x /\ go t end) l
  | VDict d =>
      NoDup (map fst d) /\
      (fix go (d : list (pystr * pyval)) : Prop :=
         match d with [] => True | (k, x) :: t => Forall valid_char k /\ json_repr x /\ go t end) d
  end.

Lemma json_repr_VList (l : list pyval) : json_repr (VList l) <-> Forall json_repr l.
Proof.
  induction l as [|x l IH]; simpl; [split; constructor|].
  rewrite Forall_cons_iff. simpl in IH. by rewrite IH.
Qed.

Lemma json_repr_VDict (d : list (pystr * pyval)) :
  json_repr (VDict d) <->
  NoDup (map fst d) /\ Forall (fun kv => Forall valid_char kv.1 /\ json_repr kv.2) d.
Proof.
  simpl. apply and_iff_compat_l. induction d as [|[k x] d IH]; simpl; [split; constructor|].
  rewrite Forall_cons_iff, IH; simpl. tauto.
Qed.

(** What may follow a value in the encoder's output: nothing, a comma, a
    closing bracket or a closing brace. *)
Definition safe_follow (r : pystr) : Prop :=
  match r with [] => True | c :: _ => c = 44 \/ c = 93 \/ c = 125 end.

Fixpoint dumps_list (l : list pyval) : res exn (list pystr) :=
  match l with
  | [] => Ok []
  | x :: t => a ← json_dumps x; r ← dumps_list t; Ok (a :: r)
  end.

Fixpoint dumps_dict (d : list (pystr * pyval)) : res exn (list pystr) :=
  match d with
  | [] => Ok []
  | (k, x) :: t => a ← json_dumps x; r ← dumps_dict t; Ok ((encode_str k ++ [58; 32] ++ a) :: r)
  end.

Lemma json_dumps_VList (l : list pyval) :
  json_dumps (VList l) = (items ← dumps_list l; Ok ([91] ++ join_sep (py ", ") items ++ [93])).
Proof. reflexivity. Qed.

Lemma json_dumps_VDict (d : list (pystr * pyval)) :
  json_dumps (VDict d) = (items ← dumps_dict d; Ok ([123] ++ join_sep (py ", ") items ++ [125])).
Proof. reflexivity. Qed.

Lemma z_to_dec_neg (z : Z) : z < 0 -> z_to_dec z = 45 :: z_to_dec (- z).
Proof.
  intros Hz. unfold z_to_dec. destruct (Z.ltb_spec z 0); [|lia].
  destruct (Z.ltb_spec (- z) 0); [lia|]. by rewrite Z.abs_neq, Z.abs_eq by lia.
Qed.

(** The encoding of a value starts with a printable ASCII character that
    is not white space. *)
Definition printable_head (t : pystr) : Prop :=
  exists c t', t = c :: t' /\ 34 <= c <= 123 /\ c <> 93.

Lemma printable_head_lit (c : Z) (t : pystr) :
  (34 <=? c) && (c <=? 123) && negb (c =? 93) = true -> printable_head (c :: t).
Proof.
  intros [[H1%Z.leb_le H2%Z.leb_le]%andb_true_iff H3%negb_true_iff]%andb_true_iff.
  apply Z.eqb_neq in H3. exists c, t. split; [done|lia].
Qed.

Lemma int_repr_head (z : Z) (t : pystr) : int_repr z = Ok t -> printable_head t.
Proof.
  unfold int_repr. destruct (_ <? _)%nat; [discriminate|]. intros [= <-].
  destruct (Z.ltb_spec z 0).
  - rewrite z_to_dec_neg by done. by apply printable_head_lit.
  - destruct (z_to_dec_nonneg z) as (d & ds & -> & Hd & _); [lia|].
    inversion Hd; subst. exists d, ds. unfold is_dig in *. split; [done|lia].
Qed.

Lemma json_dumps_head (v : pyval) (t : pystr) :
  json_repr v -> json_dumps v = Ok t -> printable_head t.
Proof.
  intros Hv. destruct v as [|[]|z|f|s|l|d]; try contradiction.
  4: apply int_repr_head.
  6: rewrite json_dumps_VDict; destruct (dumps_dict d); [|discriminate].
  5: rewrite json_dumps_VList; destruct (dumps_list l); [|discriminate].
  all: simpl; intros [= <-]; by apply printable_head_lit.
Qed.

Lemma skip_ws_printable (t : pystr) : printable_head t -> skip_ws t = t.
Proof.
  intros (c & t' & -> & Hc & _). simpl. unfold is_ws.
  destruct (Z.eqb_spec c 32), (Z.eqb_spec c 9), (Z.eqb_spec c 10), (Z.eqb_spec c 13); try lia.
  done.
Qed.

Lemma startswith_head_ne (c p0 : Z) (s p : pystr) : c <> p0 -> startswith (c :: s) (p0 :: p) = false.
Proof. intros H. simpl. destruct (Z.eqb_spec p0 c); [congruence|done]. Qed.

Lemma startswith_cons_same (c : Z) (s p : pystr) : startswith (c :: s) (c :: p) = startswith s p.
Proof. simpl. by rewrite Z.eqb_refl. Qed.

Lemma span_digits_app (ds r : pystr) :
  Forall is_dig ds -> safe_follow r -> span_digits (ds ++ r) = (ds, r).
Proof.
  intros Hds Hr. induction Hds as [|d ds Hd _ IH]; simpl.
  - destruct r as [|c r]; [done|]. simpl. simpl in Hr.
    destruct (Z.leb_spec 48 c), (Z.leb_spec c 57); try lia; done.
  - rewrite IH. unfold is_dig in Hd. destruct (Z.leb_spec 48 d), (Z.leb_spec d 57); try lia. done.
Qed.

Lemma scan_exp_follow (r : pystr) : safe_follow r -> scan_exp r = None.
Proof.
  destruct r as [|c r]; [done|]. simpl. intros Hc.
  destruct (Z.eqb_spec c 101), (Z.eqb_spec c 69); try lia. done.
Qed.

Lemma frac_follow (r : pystr) :
  safe_follow r ->
  match r with
  | c :: d :: t => if (c =? 46) && ((48 <=? d) && (d <=? 57)) then span_digits (d :: t) else ([], r)
  | _ => ([], r)
  end = ([], r).
Proof.
  destruct r as [|c [|d t]]; [done|done|]. simpl. intros Hc.
  destruct (Z.eqb_spec c 46); [lia|]. done.
Qed.

Lemma scan_once_numeric (doc : pystr) (f : nat) (c : Z) (t : pystr) :
  is_dig c \/ (c = 45 /\ exists d t', t = d :: t' /\ is_dig d) ->
  scan_once doc (S f) (c :: t) = scan_number doc (c :: t).
Proof.
  intros Hc. assert (Hc' : 45 <= c <= 57) by (unfold is_dig in *; lia).
  cbn [scan_once].
  destruct (Z.eqb_spec c 34), (Z.eqb_spec c 123), (Z.eqb_spec c 91); try lia.
  change (py "null") with [110; 117; 108; 108]. change (py "true") with [116; 114; 117; 101].
  change (py "false") with [102; 97; 108; 115; 101]. change (py "NaN") with [78; 97; 78].
  change (py "Infinity") with [73; 110; 102; 105; 110; 105; 116; 121].
  change (py "-Infinity") with [45; 73; 110; 102; 105; 110; 105; 116; 121].
  rewrite !startswith_head_ne by lia.
  destruct Hc as [Hd | (-> & d & t' & -> & Hd)];
    [rewrite startswith_head_ne by (unfold is_dig in Hd; lia); done|].
  rewrite startswith_cons_same, startswith_head_ne by (unfold is_dig in Hd; lia). done.
Qed.

Lemma scan_number_digits (doc : pystr) (sg n : Z) (pre r : pystr) :
  0 <= n -> (pre = [] /\ sg = 1 \/ pre = [45] /\ sg = -1) ->
  (length (z_to_dec n) <= max_str_digits)%nat -> safe_follow r ->
  scan_number doc (pre ++ z_to_dec n ++ r) = Ok (VInt (sg * n), r).
Proof.
  intros Hn Hpre Hlen Hr.
  destruct (z_to_dec_nonneg n Hn) as (d & ds & Hdec & Hds & Hv & H0 & Hnil).
  rewrite Hdec in *. inversion Hds as [|? ? Hd Hds']; subst. unfold is_dig in Hd.
  unfold scan_number.
  assert (Hs : match pre ++ (d :: ds) ++ r with
               | c :: t => if c =? 45 then (-1, t) else (1, pre ++ (d :: ds) ++ r)
               | [] => (1, pre ++ (d :: ds) ++ r) end = (sg, d :: ds ++ r)).
  { destruct Hpre as [[-> ->] | [-> ->]]; [simpl; destruct (Z.eqb_spec d 45); [lia|done] | done]. }
  rewrite Hs. clear Hs. cbv beta iota.
  destruct (Z.eqb_spec d 48) as [->|Hd48].
  - assert (ds = []) as -> by (apply Hnil; destruct (Z.ltb_spec 0 (digits_val (48 :: ds))) as [Hp|Hp]; [by destruct (H0 Hp)|lia]).
    simpl app. rewrite frac_follow, scan_exp_follow by done. reflexivity.
  - destruct (Z.leb_spec 49 d), (Z.leb_spec d 57); try lia. simpl andb. cbv iota.
    change (d :: ds ++ r) with ((d :: ds) ++ r). rewrite (span_digits_app (d :: ds)) by done.
    rewrite frac_follow, scan_exp_follow by done. cbv iota beta.
    destruct (Nat.ltb_spec max_str_digits (length (d :: ds))); [lia|]. done.
Qed.

Lemma scan_number_int (doc : pystr) (z : Z) (t r : pystr) :
  int_repr z = Ok t -> safe_follow r -> scan_number doc (t ++ r) = Ok (VInt z, r).
Proof.
  unfold int_repr. destruct (Nat.ltb_spec max_str_digits (length (z_to_dec (Z.abs z))));
    [discriminate|]. intros [= <-] Hr.
  destruct (Z.ltb_spec z 0).
  - rewrite z_to_dec_neg by done. rewrite Z.abs_neq in * by lia.
    replace z with (-1 * - z) at 2 by lia.
    apply (scan_number_digits doc (-1) (- z) [45] r); [lia|by right|done|done].
  - rewrite Z.abs_eq in * by lia. replace z with (1 * z) at 2 by lia.
    apply (scan_number_digits doc 1 z [] r); [lia|by left|done|done].
Qed.

Lemma int_repr_numeric (z : Z) (t : pystr) :
  int_repr z = Ok t -> exists c t', t = c :: t' /\
    (is_dig c \/ (c = 45 /\ exists d t'', t' = d :: t'' /\ is_dig d)).
Proof.
  unfold int_repr. destruct (_ <? _)%nat; [discriminate|]. intros [= <-].
  destruct (Z.ltb_spec z 0).
  - rewrite z_to_dec_neg by done.
    destruct (z_to_dec_nonneg (- z)) as (d & ds & -> & Hd & _); [lia|].
    inversion Hd; subst. eexists _, _. split; [reflexivity|]. right. eauto.
  - destruct (z_to_dec_nonneg z) as (d & ds & -> & Hd & _); [lia|].
    inversion Hd; subst. eexists _, _. split; [reflexivity|]. by left.
Qed.

Lemma dict_set_fresh (k : pystr) (v : pyval) (acc : list (pystr * pyval)) :
  k ∉ map fst acc -> dict_set k v acc = acc ++ [(k, v)].
Proof.
  induction acc as [|[k' v'] acc IH]; simpl; [done|].
  intros Hk. rewrite str_eqb_neq by set_solver. f_equal. apply IH. set_solver.
Qed.

Lemma dumps_list_Forall2 (l : list pyval) (items : list pystr) :
  dumps_list l = Ok items -> Forall2 (fun x a => json_dumps x = Ok a) l items.
Proof.
  revert items; induction l as [|x l IH]; intros items; simpl.
  - intros [= <-]. constructor.
  - destruct (json_dumps x) eqn:Ex; [|discriminate]. simpl.
    destruct (dumps_list l) eqn:El; [|discriminate]. intros [= <-]. constructor; auto.
Qed.

Lemma printable_head_app (t r : pystr) : printable_head t -> printable_head (t ++ r).
Proof. intros (c & t' & -> & H). exists c, (t' ++ r). done. Qed.

Definition RT (doc : pystr) (v : pyval) : Prop :=
  forall t, json_dumps v = Ok t -> forall n r, (length t < n)%nat -> safe_follow r ->
  scan_once doc n (t ++ r) = Ok (v, r).

Lemma join_sep_cons2 (sep a b : pystr) (l : list pystr) :
  join_sep sep (a :: b :: l) = a ++ sep ++ join_sep sep (b :: l).
Proof. reflexivity. Qed.

Lemma printable_head_join (sep b : pystr) (l : list pystr) (r : pystr) :
  printable_head b -> printable_head (join_sep sep (b :: l) ++ r).
Proof.
  intros Hb. destruct l as [|c l]; [by apply printable_head_app|].
  rewrite join_sep_cons2, <- app_assoc. by apply printable_head_app.
Qed.

Lemma parse_elements_dumps (doc : pystr) (l : list pyval) (items : list pystr)
    (acc : list pyval) (f : nat) (r : pystr) :
  Forall (fun x => json_repr x /\ RT doc x) l ->
  Forall2 (fun x a => json_dumps x = Ok a) l items -> l <> [] ->
  (length (join_sep (py ", ") items ++ [93%Z]) < f)%nat ->
  parse_elements doc f acc (join_sep (py ", ") items ++ 93 :: r) = Ok (VList (acc ++ l), r).
Proof.
  intros Hl Hitems. revert acc f. induction Hitems as [|x a l items Hxa Hrest IH];
    intros acc f Hne Hf; [done|].
  destruct f as [|f]; [simpl in Hf; lia|].
  inversion Hl as [|? ? [Hx RTx] Hl']; subst.
  destruct Hrest as [|y b l' items' Hyb Hrest'].
  - simpl join_sep in *. cbn [parse_elements].
    rewrite RTx by (done || (rewrite length_app in Hf; simpl in Hf; lia) || (simpl; lia)).
    reflexivity.
  - assert (Hb : printable_head b) by (inversion Hl' as [|? ? [Hy _] _]; by eapply json_dumps_head).
    rewrite join_sep_cons2 in Hf |- *.
    remember (join_sep (py ", ") (b :: items')) as J eqn:HJ.
    assert (HJp : printable_head (J ++ 93 :: r)) by (subst J; by apply printable_head_join).
    change (py ", ") with [44; 32] in *. cbn [parse_elements]. rewrite <- !app_assoc.
    rewrite !length_app in Hf. simpl in Hf.
    rewrite RTx by (done || lia || (simpl; by left)).
    simpl. rewrite skip_ws_printable by done.
    replace (acc ++ x :: y :: l') with ((acc ++ [x]) ++ y :: l') by (by rewrite <- app_assoc).
    apply IH; [done|done|]. rewrite length_app. simpl length. lia.
Qed.

Lemma scan_string_lit (doc s r : pystr) :
  Forall valid_char s ->
  scan_string doc (34 :: mjoin (map escape_char s) ++ 34 :: r) (mjoin (map escape_char s) ++ 34 :: r)
  = Ok (s, r).
Proof.
  intros Hs. unfold scan_string. rewrite scan_str_escaped; [done|done|].
  rewrite length_app. simpl. lia.
Qed.

Lemma parse_members_step (doc : pystr) (f : nat) (acc : list (pystr * pyval)) (k : pystr)
    (x : pyval) (a rest : pystr) :
  Forall valid_char k -> RT doc x -> json_dumps x = Ok a -> json_repr x ->
  (length a < f)%nat -> safe_follow rest ->
  parse_members doc (S f) acc (encode_str k ++ [58; 32] ++ a ++ rest) =
    match skip_ws rest with
    | 125 :: r4 => Ok (VDict (dict_set k x acc), r4)
    | 44 :: r4 => parse_members doc f (dict_set k x acc) (skip_ws r4)
    | _ => jerr doc (py "Expecting ',' delimiter") (skip_ws rest)
    end.
Proof.
  intros Hk RTx Ha Hx Hf Hr. unfold encode_str.
  rewrite <- !app_assoc. cbn [parse_members app].
  rewrite scan_string_lit by done. simpl.
  rewrite skip_ws_printable by (apply printable_head_app; by eapply json_dumps_head).
  rewrite RTx by done. reflexivity.
Qed.

Lemma join_sep_length (sep x : pystr) (l : list pystr) :
  (length x <= length (join_sep sep (x :: l)))%nat.
Proof. destruct l; [done|]. rewrite join_sep_cons2, length_app. lia. Qed.

Lemma dumps_dict_Forall2 (d : list (pystr * pyval)) (items : list pystr) :
  dumps_dict d = Ok items ->
  Forall2 (fun kv it => exists a, json_dumps kv.2 = Ok a /\ it = encode_str kv.1 ++ [58; 32] ++ a)
    d items.
Proof.
  revert items; induction d as [|[k x] d IH]; intros items; simpl.
  - intros [= <-]. constructor.
  - destruct (json_dumps x) eqn:Ex; [|discriminate]. simpl.
    destruct (dumps_dict d) eqn:Ed; [|discriminate]. intros [= <-]. constructor; eauto.
Qed.

Lemma parse_members_dumps (doc : pystr) (d : list (pystr * pyval)) (items : list pystr)
    (acc : list (pystr * pyval)) (f : nat) (r : pystr) :
  Forall (fun kv => Forall valid_char kv.1 /\ json_repr kv.2 /\ RT doc kv.2) d ->
  NoDup (map fst acc ++ map fst d) ->
  Forall2 (fun kv it => exists a, json_dumps kv.2 = Ok a /\ it = encode_str kv.1 ++ [58; 32] ++ a)
    d items ->
  d <> [] ->
  Nat.lt (length (join_sep [44; 32] items ++ [125])) f ->
  parse_members doc f acc (join_sep [44; 32] items ++ 125 :: r) = Ok (VDict (acc ++ d), r).
Proof.
  intros Hd Hnd Hitems. revert acc f Hnd. induction Hitems as [|[k x] it d items Hit Hrest IH];
    intros acc f Hnd Hne Hf; [done|].
  destruct f as [|f]; [simpl in Hf; lia|].
  inversion Hd as [|? ? (Hk & Hx & RTx) Hd']; subst. destruct Hit as (a & Ha & ->).
  simpl in Hnd. apply NoDup_app in Hnd as (Hnd1 & Hfresh & Hnd2).
  assert (Hk' : k ∉ map fst acc) by (intros Hin; apply (Hfresh k Hin); left).
  assert (Hlen : (length a < f)%nat).
  { pose proof (join_sep_length [44; 32] (encode_str k ++ [58; 32] ++ a) items).
    rewrite !length_app in *. simpl length in *. lia. }
  destruct Hrest as [|[k' y] b d' items' Hyb Hrest'].
  - cbn [join_sep]. rewrite <- !app_assoc.
    rewrite (parse_members_step doc f acc k x a) by (done || (simpl; by right; right)).
    simpl. by rewrite dict_set_fresh.
  - rewrite join_sep_cons2 in Hf |- *.
    remember (join_sep [44; 32] (b :: items')) as J eqn:HJ.
    assert (HJp : printable_head (J ++ 125 :: r)).
    { subst J. apply printable_head_join. destruct Hyb as (a' & _ & ->).
      unfold encode_str. by apply printable_head_lit. }
    rewrite <- !app_assoc.
    rewrite (parse_members_step doc f acc k x a) by (done || (simpl; by left)).
    simpl. rewrite skip_ws_printable, dict_set_fresh by done.
    replace (acc ++ (k, x) :: (k', y) :: d') with ((acc ++ [(k, x)]) ++ (k', y) :: d')
      by (by rewrite <- app_assoc).
    apply IH; [done| |done|].
    + rewrite map_app, <- app_assoc. simpl. apply NoDup_app. split; [done|]. split; [|done].
      intros z Hz [-> | Hz']%elem_of_cons; [done|]. by apply (Hfresh z Hz); right.
    + rewrite !length_app in *. simpl length in *. lia.
Qed.

Lemma encode_str_app (s r : pystr) :
  encode_str s ++ r = 34 :: mjoin (map escape_char s) ++ 34 :: r.
Proof. unfold encode_str. rewrite <- (app_assoc [34]), <- app_assoc. reflexivity. Qed.

Theorem scan_once_dumps (doc : pystr) (v : pyval) : json_repr v -> RT doc v.
Proof.
  induction v as [| b | z | fl | s | l IH | d IH] using pyval_ind';
    intros Hv t Ht n r Hn Hr; destruct n as [|n]; try (simpl in Hn; lia).
  - injection Ht as <-. vm_compute. reflexivity.
  - destruct b; injection Ht as <-; vm_compute; reflexivity.
  - destruct (int_repr_numeric z t Ht) as (c & t' & -> & Hc).
    simpl app. rewrite scan_once_numeric.
    + rewrite app_comm_cons. by apply scan_number_int.
    + destruct Hc as [Hc | (-> & d & t'' & -> & Hd)]; [by left | right; eauto].
  - contradiction.
  - injection Ht as <-. rewrite encode_str_app.
    cbn [scan_once]. cbn [Z.eqb Pos.eqb]. cbv iota.
    rewrite scan_string_lit by done. reflexivity.
  - apply json_repr_VList in Hv. rewrite json_dumps_VList in Ht.
    destruct (dumps_list l) as [items|] eqn:El; [|discriminate]. injection Ht as <-.
    apply dumps_list_Forall2 in El. rewrite <- app_comm_cons, <- app_assoc.
    cbn [app scan_once]. cbn [Z.eqb Pos.eqb]. cbv iota.
    destruct El as [|x a l' items' Hxa Hrest].
    + reflexivity.
    + change (py ", ") with [44; 32] in *.
      remember (join_sep [44; 32] (a :: items')) as J eqn:HJ.
      assert (HJp : printable_head (J ++ 93 :: r)).
      { subst J. apply printable_head_join. inversion Hv. by eapply json_dumps_head. }
      rewrite skip_ws_printable by done. destruct HJp as (c & t' & Heq & Hc1 & Hc2).
      rewrite Heq. destruct (Z.eqb_spec c 93); [done|]. rewrite <- Heq, HJ.
      apply (parse_elements_dumps doc (x :: l') (a :: items') [] n r); [|by constructor|done|].
      * apply Forall_forall. intros y Hy. rewrite Forall_forall in Hv, IH. auto.
      * change (py ", ") with [44; 32]. try rewrite <- HJ.
        simpl length in *. rewrite !length_app in *. simpl length in *. lia.
  - apply json_repr_VDict in Hv as [Hnd Hv]. rewrite json_dumps_VDict in Ht.
    destruct (dumps_dict d) as [items|] eqn:Ed; [|discriminate]. injection Ht as <-.
    apply dumps_dict_Forall2 in Ed. rewrite <- app_comm_cons, <- app_assoc.
    cbn [app scan_once]. cbn [Z.eqb Pos.eqb]. cbv iota.
    destruct Ed as [|kv it d' items' Hit Hrest].
    + reflexivity.
    + change (py ", ") with [44; 32] in *.
      remember (join_sep [44; 32] (it :: items')) as J eqn:HJ.
      assert (HJp : printable_head (J ++ 125 :: r)).
      { subst J. apply printable_head_join. destruct Hit as (a & _ & ->).
        unfold encode_str. by apply printable_head_lit. }
      rewrite skip_ws_printable by done. destruct HJp as (c & t' & Heq & Hc1 & Hc2).
      rewrite Heq. destruct (Z.eqb_spec c 125); [lia|]. rewrite <- Heq, HJ.
      apply (parse_members_dumps doc (kv :: d') (it :: items') [] n r); [| done | by constructor | done |].
      * apply Forall_forall. intros y Hy. rewrite Forall_forall in Hv, IH.
        destruct (Hv y Hy) as [? ?]. auto.
      * change (py ", ") with [44; 32]. try rewrite <- HJ.
        simpl length in *. rewrite !length_app in *. simpl length in *. lia.
Qed.

(** [json.loads(json.dumps(v)) == v] for the values the cache stores. *)
Theorem json_loads_dumps (v : pyval) (t : pystr) :
  json_repr v -> json_dumps v = Ok t -> json_loads t = Ok v.
Proof.
  intros Hv Ht. destruct (json_dumps_head v t Hv Ht) as (c & t' & Htc & Hc1 & Hc2).
  pose proof (scan_once_dumps t v Hv t Ht (S (length t)) [] ltac:(lia) I) as Hs.
  rewrite app_nil_r in Hs. unfold json_loads.
  rewrite Htc, startswith_head_ne by lia. rewrite <- Htc.
  rewrite skip_ws_printable by (exists c, t'; done). rewrite Hs. reflexivity.
Qed.

(** ** The encoder is total below the integer limit *)

(** Every integer of the value has at most [max_str_digits] digits. *)
Fixpoint ints_printable (v : pyval) : Prop :=
  match v with
  | VInt z => (length (z_to_dec (Z.abs z)) <= max_str_digits)%nat
  | VList l =>
      (fix go (l : list pyval) : Prop :=
         match l with [] => True | x :: t => ints_printable x /\ go t end) l
  | VDict d =>
      (fix go (d : list (pystr * pyval)) : Prop :=
         match d with [] => True | (_, x) :: t => ints_printable x /\ go t end) d
  | _ => True
  end.

Lemma json_dumps_total (v : pyval) : ints_printable v -> exists t, json_dumps v = Ok t.
Proof.
  induction v as [| b | z | | | l IH | d IH] using pyval_ind'; intros Hv.
  - eexists; reflexivity.
  - destruct b; eexists; reflexivity.
  - cbn [json_dumps ints_printable] in *. unfold int_repr.
    destruct (Nat.ltb_spec max_str_digits (length (z_to_dec (Z.abs z)))); [lia|eauto].
  - eexists; reflexivity.
  - eexists; reflexivity.
  - rewrite json_dumps_VList. cut (exists items, dumps_list l = Ok items); [intros [? ->]; simpl; eauto|].
    induction IH as [|x l Hx _ IHl]; [eauto|]. destruct Hv as [Hvx Hvl].
    destruct (Hx Hvx) as [a Ha], (IHl Hvl) as [r Hr]. exists (a :: r). simpl. by rewrite Ha, Hr.
  - rewrite json_dumps_VDict. cut (exists items, dumps_dict d = Ok items); [intros [? ->]; simpl; eauto|].
    induction IH as [|[k x] d Hx _ IHd]; [eauto|]. destruct Hv as [Hvx Hvd]. cbn [snd] in Hx.
    destruct (Hx Hvx) as [a Ha], (IHd Hvd) as [r Hr]. eexists. simpl. by rewrite Ha, Hr.
Qed.
