(* ===== verification/Identity.v ===== *)
(** * Content identity: the cache key of [app/data/database.py]

    [Database._generate_hash(content)] is
    [hashlib.sha256(content.encode()).hexdigest()], and both [get_match]
    and [cache_match] call it on [cv_content + job_content]. *)

From stdpp Require Import base list.
From Stdlib Require Import ZArith Lia.
From S2P Require Import Prelude PyStr PyVal Utf8 Sha256 Json JsonRoundtrip.

Open Scope Z_scope.

(** [bytes.hex()] / [hexdigest()]: two lower-case hex digits per byte. *)
Definition hex_byte (b : Z) : pystr := [hexdig (b / 16); hexdig (b mod 16)].

Definition hexdigest (d : list Z) : pystr := mjoin (map hex_byte d).

(** [Database._generate_hash] *)
Definition generate_hash (content : pystr) : res exn pystr :=
  b ← utf8_encode content; Ok (hexdigest (sha256 b)).

(** The key [get_match] and [cache_match] compute:
    [self._generate_hash(cv_content + job_content)]. *)
Definition match_hash (cv_content job_content : pystr) : res exn pystr :=
  generate_hash (cv_content ++ job_content).

(** Reading hex digits back, the inverse of [hexdigest]. *)
Fixpoint unhex (s : pystr) : option (list Z) :=
  match s with
  | [] => Some []
  | a :: b :: t =>
      match hex_val a, hex_val b, unhex t with
      | Some x, Some y, Some r => Some (x * 16 + y :: r)
      | _, _, _ => None
      end
  | [_] => None
  end.

Definition is_hex_lower (c : Z) : Prop := (48 <= c <= 57) \/ (97 <= c <= 102).

(** ** Lemmas *)

Lemma hexdigest_cons (b : Z) (d : list Z) : hexdigest (b :: d) = hex_byte b ++ hexdigest d.
Proof. reflexivity. Qed.

Lemma length_hexdigest (d : list Z) : length (hexdigest d) = (2 * length d)%nat.
Proof. induction d as [|b d IH]; [done|]. rewrite hexdigest_cons, length_app, IH. simpl. lia. Qed.

Lemma hexdig_lower (n : Z) : 0 <= n < 16 -> is_hex_lower (hexdig n).
Proof. intros Hn. unfold hexdig, is_hex_lower. destruct (Z.ltb_spec n 10); lia. Qed.

Definition is_byte (b : Z) : Prop := 0 <= b < 256.

Lemma hexdigest_lower (d : list Z) : Forall is_byte d -> Forall is_hex_lower (hexdigest d).
Proof.
  induction 1 as [|b d Hb _ IH]; [constructor|]. rewrite hexdigest_cons.
  unfold is_byte in Hb. apply Forall_app; split; [|done].
  constructor; [|constructor; [|constructor]]; apply hexdig_lower.
  - split; [apply Z.div_pos|apply Z.div_lt_upper_bound]; lia.
  - apply Z.mod_pos_bound; lia.
Qed.

Lemma unhex_hexdigest (d : list Z) : Forall is_byte d -> unhex (hexdigest d) = Some d.
Proof.
  induction 1 as [|b d Hb _ IH]; [done|]. unfold is_byte in Hb.
  rewrite hexdigest_cons. simpl. rewrite !hex_val_hexdig, IH.
  - f_equal. f_equal. pose proof (Z.div_mod b 16). lia.
  - apply Z.mod_pos_bound; lia.
  - split; [apply Z.div_pos|apply Z.div_lt_upper_bound]; lia.
Qed.

(** [hexdigest] is injective on byte strings. *)
Lemma hexdigest_inj (d1 d2 : list Z) :
  Forall is_byte d1 -> Forall is_byte d2 -> hexdigest d1 = hexdigest d2 -> d1 = d2.
Proof.
  intros H1 H2 E. apply (f_equal unhex) in E.
  rewrite !unhex_hexdigest in E by done. congruence.
Qed.

(** C15: A key is 64 lower-case hexadecimal digits. *)
Lemma generate_hash_shape (content k : pystr) :
  generate_hash content = Ok k -> length k = 64%nat /\ Forall is_hex_lower k.
Proof.
  unfold generate_hash. destruct (utf8_encode content) as [b|e]; simpl; [|discriminate].
  intros [= <-]. split.
  - by rewrite length_hexdigest, length_sha256.
  - apply hexdigest_lower, sha256_bytes.
Qed.

(** The key depends on the two texts only through their concatenation. *)
Lemma match_hash_concat (cv job cv' job' : pystr) :
  cv ++ job = cv' ++ job' -> match_hash cv job = match_hash cv' job'.
Proof. unfold match_hash. by intros ->. Qed.

(** [hashlib.sha256(...).hexdigest()] on the FIPS 180-2 test vectors. *)
Example generate_hash_vectors :
  generate_hash [] = Ok (py "e3b0c44298fc1c149afbf4c8996fb92427ae41e4649b934ca495991b7852b855")
  /\ generate_hash (py "abc") = Ok (py "ba7816bf8f01cfea414140de5dae2223b00361a396177a9cb410ff61f20015ad").
Proof. split; vm_compute; reflexivity. Qed.

(** Swapping two different texts need not change the key: ["x"] then
    ["xx"] and ["xx"] then ["x"] are both the string ["xxx"]. *)
Example match_hash_swap_collision :
  py "x" <> py "xx" /\
  match_hash (py "x") (py "xx") = match_hash (py "xx") (py "x").
Proof. split; [discriminate | by apply match_hash_concat]. Qed.

Lemma generate_hash_shape_witness :
  length (py "ba7816bf8f01cfea414140de5dae2223b00361a396177a9cb410ff61f20015ad") = 64%nat /\
  Forall is_hex_lower (py "ba7816bf8f01cfea414140de5dae2223b00361a396177a9cb410ff61f20015ad").
Proof. apply (generate_hash_shape (py "abc")). vm_compute. reflexivity. Defined.
