(* ===== verification/Models.v ===== *)
(** * The pydantic models of [app/core/models.py]

    [CriteriaScores] and [MatchResult] as records, the validation pydantic
    runs when they are built from keyword arguments (lax mode: the input
    coercions pydantic v2 applies to Python objects, then the [ge]/[le]
    constraints), and [model_dump]. *)

From stdpp Require Import base list decidable.
From Stdlib Require Import ZArith Lia.
From S2P Require Import Prelude PyStr PyVal.

Open Scope Z_scope.

Record CriteriaScores : Type := mkCriteriaScores {
  skills : Z;
  experience : Z;
  location : Z;
  education : Z;
  certifications : Z
}.

Record MatchResult : Type := mkMatchResult {
  match_ : bool;
  overall_score : Z;
  criteria_scores : CriteriaScores;
  explanation : pystr;
  cached : bool;
  processing_time_ms : option Z;
  error : bool
}.

(** ** Field validators (pydantic v2, lax mode, Python input)

    A validator returns the field value or the pydantic error type. *)

Definition is_digit (c : Z) : bool := (48 <=? c) && (c <=? 57).

Fixpoint digits_value (acc : Z) (s : pystr) : option Z :=
  match s with
  | [] => Some acc
  | c :: t => if is_digit c then digits_value (acc * 10 + (c - 48)) t else None
  end.

Fixpoint split_at_dot (s : pystr) : pystr * option pystr :=
  match s with
  | [] => ([], None)
  | c :: t => if c =? 46 then ([], Some t) else let '(a, b) := split_at_dot t in (c :: a, b)
  end.

(** [int] from a [str]: surrounding white space, an optional sign, decimal
    digits, and an optional fractional part made of zeros. *)
Definition str_as_int (s : pystr) : option Z :=
  let s := strip s in
  let '(sign, body) := match s with 45 :: t => (-1, t) | 43 :: t => (1, t) | _ => (1, s) end in
  let '(ip, fp) := split_at_dot body in
  match ip with
  | [] => None
  | _ :: _ =>
      match fp with
      | Some f => if forallb (fun c => c =? 48) f then Z.mul sign <$> digits_value 0 ip else None
      | None => Z.mul sign <$> digits_value 0 ip
      end
  end.

(** The exact value of a finite float, when it is an integer. *)
Definition float_as_int (m e : Z) : option Z :=
  if 0 <=? e then Some (m * 10 ^ e)
  else if m mod 10 ^ (- e) =? 0 then Some (m / 10 ^ (- e)) else None.

(** Field type [int]. *)
Definition validate_int (v : pyval) : pystr + Z :=
  match v with
  | VInt z => inr z
  | VBool b => inr (if b then 1 else 0)
  | VFloat (FNum m e) =>
      match float_as_int m e with Some z => inr z | None => inl (py "int_from_float") end
  | VFloat _ => inl (py "finite_number")
  | VStr s => match str_as_int s with Some z => inr z | None => inl (py "int_parsing") end
  | _ => inl (py "int_type")
  end.

(** Field type [int] with [Field(ge=0, le=100)]. *)
Definition validate_score (v : pyval) : pystr + Z :=
  match validate_int v with
  | inr z =>
      if z <? 0 then inl (py "greater_than_equal")
      else if 100 <? z then inl (py "less_than_equal") else inr z
  | inl t => inl t
  end.

Definition bool_true_strs : list pystr := [py "1"; py "on"; py "t"; py "true"; py "y"; py "yes"].
Definition bool_false_strs : list pystr := [py "0"; py "off"; py "f"; py "false"; py "n"; py "no"].

(** Field type [bool]. *)
Definition validate_bool (v : pyval) : pystr + bool :=
  match v with
  | VBool b => inr b
  | VInt 0 => inr false
  | VInt 1 => inr true
  | VFloat (FNum m e) =>
      match float_as_int m e with
      | Some 0 => inr false | Some 1 => inr true | _ => inl (py "bool_parsing")
      end
  | VInt _ | VFloat _ => inl (py "bool_parsing")
  | VStr s =>
      if bool_decide (lower s ∈ bool_true_strs) then inr true
      else if bool_decide (lower s ∈ bool_false_strs) then inr false
      else inl (py "bool_parsing")
  | _ => inl (py "bool_type")
  end.

(** Field type [str]. *)
Definition validate_str (v : pyval) : pystr + pystr :=
  match v with VStr s => inr s | _ => inl (py "string_type") end.

(** Field type [Optional[int]]. *)
Definition validate_opt_int (v : pyval) : pystr + option Z :=
  match v with
  | VNone => inr None
  | _ => match validate_int v with inr z => inr (Some z) | inl t => inl t end
  end.

(** ** Building a model: every field is validated and all errors reported *)

Abbreviation verrs := (list (pystr * pystr)).

Definition field {A} (loc : pystr) (r : pystr + A) : verrs + A :=
  match r with inl t => inl [(loc, t)] | inr a => inr a end.

(** A required field read from the keyword arguments. *)
Definition required {A} (kw : list (pystr * pyval)) (name : pystr)
    (f : pyval -> pystr + A) : verrs + A :=
  match dict_get name kw with
  | None => inl [(name, py "missing")]
  | Some v => field name (f v)
  end.

(** A field with a default value. *)
Definition with_default {A} (kw : list (pystr * pyval)) (name : pystr) (dflt : A)
    (f : pyval -> pystr + A) : verrs + A :=
  match dict_get name kw with None => inr dflt | Some v => field name (f v) end.

Definition vpair {A B} (ra : verrs + A) (rb : verrs + B) : verrs + (A * B) :=
  match ra, rb with
  | inr a, inr b => inr (a, b)
  | inl e1, inl e2 => inl (e1 ++ e2)
  | inl e, inr _ | inr _, inl e => inl e
  end.

Definition CriteriaScores_fields (kw : list (pystr * pyval)) : verrs + CriteriaScores :=
  match vpair (required kw (py "skills") validate_score)
          (vpair (required kw (py "experience") validate_score)
            (vpair (required kw (py "location") validate_score)
              (vpair (required kw (py "education") validate_score)
                (required kw (py "certifications") validate_score)))) with
  | inr (s, (x, (l, (e, c)))) => inr (mkCriteriaScores s x l e c)
  | inl errs => inl errs
  end.

(** [CriteriaScores] called as [CriteriaScores( **kw)] *)
Definition CriteriaScores_new (kw : list (pystr * pyval)) : res exn CriteriaScores :=
  match CriteriaScores_fields kw with
  | inr c => Ok c
  | inl errs => Raise (ValidationError (py "CriteriaScores") errs)
  end.

Definition prefix_loc (p : pystr) (errs : verrs) : verrs :=
  map (fun '(l, t) => (p ++ py "." ++ l, t)) errs.

(** A field of type [CriteriaScores] given a Python object. *)
Definition nested_criteria (kw : list (pystr * pyval)) : verrs + CriteriaScores :=
  match dict_get (py "criteria_scores") kw with
  | None => inl [(py "criteria_scores", py "missing")]
  | Some (VDict d) =>
      match CriteriaScores_fields d with
      | inr c => inr c
      | inl errs => inl (prefix_loc (py "criteria_scores") errs)
      end
  | Some _ => inl [(py "criteria_scores", py "model_type")]
  end.

Definition MatchResult_fields (kw : list (pystr * pyval)) (cs : verrs + CriteriaScores)
    : verrs + MatchResult :=
  match vpair (required kw (py "match") validate_bool)
          (vpair (required kw (py "overall_score") validate_score)
            (vpair cs
              (vpair (required kw (py "explanation") validate_str)
                (vpair (with_default kw (py "cached") false validate_bool)
                  (vpair (with_default kw (py "processing_time_ms") None validate_opt_int)
                    (with_default kw (py "error") false validate_bool)))))) with
  | inr (m, (o, (c, (x, (ca, (p, er)))))) => inr (mkMatchResult m o c x ca p er)
  | inl errs => inl errs
  end.

Definition to_validation {A} (title : pystr) (r : verrs + A) : res exn A :=
  match r with inr a => Ok a | inl errs => Raise (ValidationError title errs) end.

(** [MatchResult( **kw)] where every field is a plain Python object, as in
    [Database.get_match]. *)
Definition MatchResult_of_dict (kw : list (pystr * pyval)) : res exn MatchResult :=
  to_validation (py "MatchResult") (MatchResult_fields kw (nested_criteria kw)).

(** [MatchResult(match=m, overall_score=o, criteria_scores=cs, explanation=x)]
    with [cs] an already built [CriteriaScores], as in [LLMService.match_cv_job];
    the other fields take their defaults. *)
Definition MatchResult_new (m o : pyval) (cs : CriteriaScores) (x : pyval) : res exn MatchResult :=
  to_validation (py "MatchResult")
    (MatchResult_fields [(py "match", m); (py "overall_score", o); (py "explanation", x)] (inr cs)).

(** ** [model_dump()] *)
Definition CriteriaScores_dump (c : CriteriaScores) : pyval :=
  VDict [(py "skills", VInt (skills c)); (py "experience", VInt (experience c));
         (py "location", VInt (location c)); (py "education", VInt (education c));
         (py "certifications", VInt (certifications c))].

Definition MatchResult_dump (r : MatchResult) : list (pystr * pyval) :=
  [(py "match", VBool (match_ r)); (py "overall_score", VInt (overall_score r));
         (py "criteria_scores", CriteriaScores_dump (criteria_scores r));
         (py "explanation", VStr (explanation r)); (py "cached", VBool (cached r));
         (py "processing_time_ms",
            match processing_time_ms r with Some z => VInt z | None => VNone end);
   (py "error", VBool (error r))].

(** ** Well-formedness: the constraints the models declare *)
Definition score_ok (z : Z) : Prop := 0 <= z <= 100.

Definition criteria_ok (c : CriteriaScores) : Prop :=
  score_ok (skills c) /\ score_ok (experience c) /\ score_ok (location c)
  /\ score_ok (education c) /\ score_ok (certifications c).

Definition result_ok (r : MatchResult) : Prop :=
  score_ok (overall_score r) /\ criteria_ok (criteria_scores r).

(** The result of the end-to-end scenario of the specification, as the
    examples use it. *)
Definition ex_result : MatchResult :=
  mkMatchResult true 85 (mkCriteriaScores 90 80 70 70 60) (py "Strong match") false (Some 1200) false.

(** ** Lemmas *)

Lemma validate_score_ok (v : pyval) (z : Z) : validate_score v = inr z -> score_ok z.
Proof.
  unfold validate_score, score_ok. destruct (validate_int v); [discriminate|].
  destruct (Z.ltb_spec z0 0); [discriminate|]. destruct (Z.ltb_spec 100 z0); [discriminate|].
  intros [= <-]. lia.
Qed.

Lemma validate_score_VInt (z : Z) : score_ok z -> validate_score (VInt z) = inr z.
Proof.
  unfold score_ok, validate_score; simpl. intros Hz.
  destruct (Z.ltb_spec z 0); [lia|]. destruct (Z.ltb_spec 100 z); [lia|]. reflexivity.
Qed.

Lemma vpair_inr {A B} (ra : verrs + A) (rb : verrs + B) a b :
  vpair ra rb = inr (a, b) <-> ra = inr a /\ rb = inr b.
Proof.
  destruct ra, rb; simpl; split; try discriminate; try (intros [? ?]; discriminate).
  - intros [= -> ->]; done.
  - intros [[= ->] [= ->]]; done.
Qed.

(** Split every successful [vpair] hypothesis into its two fields. *)
Ltac vpair_inv :=
  repeat match goal with H : vpair _ _ = inr (_, _) |- _ => apply vpair_inr in H as [? ?] end.

Lemma required_inr {A} kw name (f : pyval -> pystr + A) a :
  required kw name f = inr a -> exists v, dict_get name kw = Some v /\ f v = inr a.
Proof.
  unfold required, field. destruct (dict_get name kw); [|discriminate].
  destruct (f p) eqn:E; [discriminate|]. intros [= ->]; eauto.
Qed.

Lemma required_hit {A} kw name (f : pyval -> pystr + A) v :
  dict_get name kw = Some v -> required kw name f = field name (f v).
Proof. unfold required. by intros ->. Qed.

Lemma with_default_miss {A} kw name (d : A) f :
  dict_get name kw = None -> with_default kw name d f = inr d.
Proof. unfold with_default. by intros ->. Qed.

Lemma with_default_hit {A} kw name (d : A) f v :
  dict_get name kw = Some v -> with_default kw name d f = field name (f v).
Proof. unfold with_default. by intros ->. Qed.

(** Resolve the field lookups of a validator on a literal keyword list. *)
Ltac resolve_fields :=
  repeat first [ erewrite required_hit by reflexivity
               | erewrite with_default_hit by reflexivity
               | rewrite with_default_miss by reflexivity ].

Lemma CriteriaScores_fields_ok kw c : CriteriaScores_fields kw = inr c -> criteria_ok c.
Proof.
  unfold CriteriaScores_fields.
  destruct (vpair _ _) as [|[s [x [l [e c']]]]] eqn:E; [discriminate|]. intros [= <-].
  vpair_inv.
  repeat match goal with H : required _ _ _ = inr _ |- _ =>
    apply required_inr in H as (? & _ & ?%validate_score_ok) end.
  unfold criteria_ok; simpl; tauto.
Qed.

Lemma MatchResult_fields_ok kw cs r :
  (forall c, cs = inr c -> criteria_ok c) ->
  MatchResult_fields kw cs = inr r -> result_ok r.
Proof.
  intros Hcs. unfold MatchResult_fields.
  destruct (vpair _ _) as [|[m [o [c [x [ca [p er]]]]]]] eqn:E; [discriminate|]. intros [= <-].
  vpair_inv.
  match goal with H : required _ (py "overall_score") _ = inr _ |- _ =>
    apply required_inr in H as (? & _ & ?%validate_score_ok) end.
  split; [assumption | by apply Hcs].
Qed.

Lemma nested_criteria_ok kw c : nested_criteria kw = inr c -> criteria_ok c.
Proof.
  unfold nested_criteria. destruct (dict_get _ kw) as [[| | | | | | d]|]; try discriminate.
  destruct (CriteriaScores_fields d) eqn:E; [discriminate|]. intros [= <-].
  by eapply CriteriaScores_fields_ok.
Qed.

Lemma to_validation_Ok {A} t (r : verrs + A) a : to_validation t r = Ok a <-> r = inr a.
Proof. destruct r; simpl; split; congruence. Qed.

Lemma CriteriaScores_dump_fields (c : CriteriaScores) :
  criteria_ok c -> exists d, CriteriaScores_dump c = VDict d /\ CriteriaScores_fields d = inr c.
Proof.
  destruct c as [s x l e c]; intros (Hs & Hx & Hl & He & Hc); simpl in *.
  eexists; split; [reflexivity|]. unfold CriteriaScores_fields. resolve_fields.
  by rewrite !validate_score_VInt.
Qed.

Lemma nested_criteria_hit kw c :
  criteria_ok c -> dict_get (py "criteria_scores") kw = Some (CriteriaScores_dump c) ->
  nested_criteria kw = inr c.
Proof.
  intros Hc Hget. unfold nested_criteria. rewrite Hget.
  destruct (CriteriaScores_dump_fields c Hc) as (d & Hd & Hf). by rewrite Hd, Hf.
Qed.

(** C11: A validated [MatchResult] satisfies the field constraints. *)
Lemma MatchResult_of_dict_ok kw r : MatchResult_of_dict kw = Ok r -> result_ok r.
Proof.
  unfold MatchResult_of_dict. rewrite to_validation_Ok.
  apply MatchResult_fields_ok, nested_criteria_ok.
Qed.

Lemma MatchResult_new_ok m o cs x r :
  criteria_ok cs -> MatchResult_new m o cs x = Ok r -> result_ok r.
Proof.
  intros Hcs. unfold MatchResult_new. rewrite to_validation_Ok.
  apply MatchResult_fields_ok. by intros c [= <-].
Qed.

Lemma CriteriaScores_new_ok kw c : CriteriaScores_new kw = Ok c -> criteria_ok c.
Proof.
  unfold CriteriaScores_new. destruct (CriteriaScores_fields kw) eqn:E; [discriminate|].
  intros [= <-]. by eapply CriteriaScores_fields_ok.
Qed.

(** A result built by [MatchResult(match=..., ...)] has the declared defaults. *)
Lemma MatchResult_new_defaults m o cs x r :
  MatchResult_new m o cs x = Ok r ->
  cached r = false /\ error r = false /\ processing_time_ms r = None /\ criteria_scores r = cs.
Proof.
  unfold MatchResult_new, MatchResult_fields. resolve_fields. rewrite to_validation_Ok.
  destruct (vpair _ _) as [|[? [? [? [? [? [? ?]]]]]]] eqn:E; [discriminate|].
  intros [= <-]. vpair_inv. simplify_eq. simpl. done.
Qed.

(** [MatchResult( **r.model_dump())] gives back [r]. *)
Lemma MatchResult_dump_roundtrip r : result_ok r -> MatchResult_of_dict (MatchResult_dump r) = Ok r.
Proof.
  destruct r as [m o c x ca p er]; intros [Ho Hc]; simpl in *.
  unfold MatchResult_of_dict, MatchResult_fields.
  rewrite (nested_criteria_hit _ c) by (done || reflexivity).
  resolve_fields. rewrite validate_score_VInt by done. by destruct p.
Qed.

Lemma MatchResult_of_dict_ok_witness :
  result_ok (mkMatchResult true 85 (mkCriteriaScores 90 80 70 70 60) (py "Strong match") false None false).
Proof.
  apply (MatchResult_of_dict_ok
    [(py "match", VStr (py "true")); (py "overall_score", VInt 85);
     (py "criteria_scores", VDict [(py "skills", VInt 90); (py "experience", VFloat (FNum 80 0));
                                   (py "location", VStr (py "70")); (py "education", VInt 70);
                                   (py "certifications", VInt 60)]);
     (py "explanation", VStr (py "Strong match"))]).
  vm_compute. reflexivity.
Defined.
