(* ===== verification/ModelsJson.v ===== *)
(** * The JSON image of the models

    [MatchResult.model_dump()] serialised by [json.dumps], as
    [Database.cache_match] stores it and as the scoring backend is asked to
    reply: when it is a JSON document, and the shape of its text. *)

From stdpp Require Import base list decidable.
From Stdlib Require Import ZArith Lia.
From S2P Require Import Prelude PyStr PyVal Json JsonRoundtrip Models.

Open Scope Z_scope.

(** What [cache_match] can store so that [get_match] reads it back: a
    well-formed result whose explanation holds Unicode scalar values. *)
Definition storable (r : MatchResult) : Prop :=
  result_ok r /\ Forall valid_char (explanation r).

Definition valid_charb (c : Z) : bool :=
  (0 <=? c) && (c <? 1114112) && negb ((55296 <=? c) && (c <=? 57343)).

Lemma valid_lit (s : pystr) : forallb valid_charb s = true -> Forall valid_char s.
Proof.
  intros H. apply Forall_forall. intros c Hc. eapply forallb_forall in H; [|exact Hc].
  unfold valid_charb, valid_char in *.
  destruct (Z.leb_spec 0 c), (Z.ltb_spec c 1114112), (Z.leb_spec 55296 c), (Z.leb_spec c 57343);
    simpl in H; try discriminate; lia.
Qed.

(** The entries of a literal dict: keys are checked by computation. *)
Ltac dict_entries :=
  repeat (constructor; [split; [apply valid_lit; reflexivity|]|]); try apply Forall_nil.

Lemma dump_json_repr (r : MatchResult) :
  Forall valid_char (explanation r) -> json_repr (VDict (MatchResult_dump r)).
Proof.
  intros Hx. apply json_repr_VDict. split.
  - apply (bool_decide_unpack _). vm_compute. reflexivity.
  - unfold MatchResult_dump. dict_entries; simpl; try done.
    + split; [apply (bool_decide_unpack _); vm_compute; reflexivity|].
      repeat split; apply valid_lit; reflexivity.
    + destruct (processing_time_ms r); done.
Qed.

Lemma ex_result_storable : storable ex_result.
Proof.
  split; [vm_compute; repeat split; discriminate|].
  apply (bool_decide_unpack _). vm_compute. reflexivity.
Qed.

(** The text of a dumped dict is an object: braces at both ends. *)
Lemma json_dumps_dict_shape (d : list (pystr * pyval)) (s : pystr) :
  json_dumps (VDict d) = Ok s -> exists m, s = 123 :: m ++ [125].
Proof.
  rewrite json_dumps_VDict. destruct (dumps_dict d); [|discriminate]. simpl.
  intros [= <-]. eauto.
Qed.
