(* ===== verification/Settings.v ===== *)
(** * The settings of [app/core/config.py]

    [Settings] is a pydantic-settings [BaseSettings]: each field takes its
    value from the process environment, else from the [.env] file, else
    its default.  With [case_sensitive = False] the variable names of both
    sources are lower-cased, a later variable replacing an earlier one of
    the same lower-cased name.  Values are strings, validated by the
    field's type as pydantic does in lax mode ([Models.validate_int],
    [Models.validate_str]).  [BaseSettings] forbids extra inputs: a
    variable of the [.env] file that names no field, and is not empty,
    is passed on and rejected; one of the environment is ignored.
    The [.env] file is given as the variables python-dotenv reads from it. *)

From stdpp Require Import base list decidable sets.
From Stdlib Require Import ZArith Lia.
From S2P Require Import Prelude PyStr PyVal Models.

Open Scope Z_scope.

Record Settings : Type := mkSettings {
  openai_api_key : pystr;
  openai_model : pystr;
  database_path : pystr;
  cache_ttl_hours : Z;
  match_threshold : Z;
  log_level : pystr
}.

(** The class body's defaults. *)
Definition default_settings : Settings :=
  mkSettings (py "") (py "gpt-3.5-turbo") (py "/app/data/cv_filtering.db") 168 70 (py "INFO").

Definition settings_fields : list pystr :=
  [py "openai_api_key"; py "openai_model"; py "database_path"; py "cache_ttl_hours";
   py "match_threshold"; py "log_level"].

(** The variables of a source as pydantic-settings reads them when names
    are not case-sensitive: [{k.lower(): v for k, v in vars.items()}]. *)
Definition env_vars (vars : list (pystr * pystr)) : list (pystr * pyval) :=
  foldl (fun d '(k, v) => dict_set (lower k) (VStr v) d) [] vars.

(** The value a field gets: the environment's, else the [.env] file's. *)
Definition field_value (env dotenv : list (pystr * pyval)) (f : pystr) : option pyval :=
  match dict_get f env with Some v => Some v | None => dict_get f dotenv end.

(** [if not env_value: continue] *)
Definition nonempty_value (v : pyval) : bool := match v with VStr [] => false | _ => true end.

(** [DotEnvSettingsSource]: the variables of the file that name no field
    and are not empty are passed to the model as they are. *)
Definition dotenv_extras (dotenv : list (pystr * pyval)) : list (pystr * pyval) :=
  filter (fun '(k, v) => negb (bool_decide (k ∈ settings_fields)) && nonempty_value v) dotenv.

(** The keyword arguments the model is validated from. *)
Definition settings_kw (env dotenv : list (pystr * pyval)) : list (pystr * pyval) :=
  omap (fun f => (fun v => (f, v)) <$> field_value env dotenv f) settings_fields.

Definition Settings_fields (kw : list (pystr * pyval)) : verrs + Settings :=
  let d := default_settings in
  match vpair (with_default kw (py "openai_api_key") (openai_api_key d) validate_str)
          (vpair (with_default kw (py "openai_model") (openai_model d) validate_str)
            (vpair (with_default kw (py "database_path") (database_path d) validate_str)
              (vpair (with_default kw (py "cache_ttl_hours") (cache_ttl_hours d) validate_int)
                (vpair (with_default kw (py "match_threshold") (match_threshold d) validate_int)
                  (with_default kw (py "log_level") (log_level d) validate_str))))) with
  | inr (k, (m, (p, (t, (th, l))))) => inr (mkSettings k m p t th l)
  | inl errs => inl errs
  end.

(** [extra='forbid']: each extra input is an error, after the fields'. *)
Definition extra_errors (extras : list (pystr * pyval)) : verrs :=
  map (fun '(k, _) => (k, py "extra_forbidden")) extras.

(** [Settings()] *)
Definition load_settings (env dotenv : list (pystr * pystr)) : res exn Settings :=
  let envd := env_vars env in
  let dot := env_vars dotenv in
  to_validation (py "Settings")
    (match Settings_fields (settings_kw envd dot), extra_errors (dotenv_extras dot) with
     | inr s, [] => inr s
     | inr _, errs => inl errs
     | inl errs, errs' => inl (errs ++ errs')
     end).

(** The last variable of a source whose lower-cased name is [k]. *)
Definition env_get (k : pystr) (vars : list (pystr * pystr)) : option pystr :=
  foldl (fun acc '(k', v) => if str_eqb (lower k') k then Some v else acc) None vars.

(** The string a field is read from: the environment's, else the file's. *)
Definition source_value (env dotenv : list (pystr * pystr)) (f : pystr) : option pystr :=
  match env_get f env with Some v => Some v | None => env_get f dotenv end.

(** A field read from [src], validated by [f], or its default. *)
Definition setting_ok {A} (src : option pystr) (f : pyval -> pystr + A) (dflt a : A) : Prop :=
  match src with None => a = dflt | Some s => f (VStr s) = inr a end.

(** ** Lemmas on dictionaries *)

Lemma dict_get_set_eq k v d : dict_get k (dict_set k v d) = Some v.
Proof.
  induction d as [|[k' v'] d IH]; cbn; [by rewrite str_eqb_refl|].
  destruct (str_eqb k k') eqn:E; cbn; [by rewrite str_eqb_refl|by rewrite E].
Qed.

Lemma dict_get_set_ne k k' v d : k <> k' -> dict_get k (dict_set k' v d) = dict_get k d.
Proof.
  intros Hne. induction d as [|[k'' v'] d IH]; cbn; [by rewrite str_eqb_neq|].
  destruct (str_eqb k' k'') eqn:E; cbn.
  - apply str_eqb_eq in E as <-. by rewrite !str_eqb_neq.
  - by destruct (str_eqb k k'').
Qed.

#[export] Hint Rewrite dict_get_set_eq : omogen_rw.

Lemma dict_get_In k v d : dict_get k d = Some v -> (k, v) ∈ d.
Proof.
  induction d as [|[k' v'] d IH]; cbn; [discriminate|].
  destruct (str_eqb k k') eqn:E; [apply str_eqb_eq in E as <-; intros [= <-]; left|].
  intros H. right. by apply IH.
Qed.

(** Reading a lower-cased source: the last variable of that name. *)
Lemma dict_get_env_vars k vars : dict_get k (env_vars vars) = VStr <$> env_get k vars.
Proof.
  unfold env_vars, env_get.
  cut (forall d acc, dict_get k d = VStr <$> acc ->
         dict_get k (foldl (fun d '(k', v) => dict_set (lower k') (VStr v) d) d vars) =
         VStr <$> foldl (fun acc '(k', v) => if str_eqb (lower k') k then Some v else acc) acc vars).
  { intros H. by apply H. }
  induction vars as [|[k' v] vars IH]; intros d acc Hd; cbn; [done|].
  apply IH. destruct (str_eqb (lower k') k) eqn:E.
  - apply str_eqb_eq in E as <-. by rewrite dict_get_set_eq.
  - rewrite dict_get_set_ne; [done|]. intros ->. by rewrite str_eqb_refl in E.
Qed.

Lemma field_value_source env dotenv f :
  field_value (env_vars env) (env_vars dotenv) f = VStr <$> source_value env dotenv f.
Proof.
  unfold field_value, source_value. rewrite !dict_get_env_vars. by destruct (env_get f env).
Qed.

(** Looking a name up in keyword arguments built from distinct names. *)
Lemma dict_get_omap (g : pystr -> option pyval) fs f :
  NoDup fs -> f ∈ fs -> dict_get f (omap (fun f => (fun v => (f, v)) <$> g f) fs) = g f.
Proof.
  induction fs as [|f' fs IH]; intros Hnd Hin; [by apply not_elem_of_nil in Hin|].
  inversion_clear Hnd as [|? ? Hf' Hnd']. cbn.
  destruct (decide (f = f')) as [<-|Hne].
  - destruct (g f) as [v|] eqn:Hg; cbn; [by rewrite str_eqb_refl|].
    clear IH Hin. induction fs as [|f'' fs IH']; [done|]. cbn.
    apply not_elem_of_cons in Hf' as [Hne Hf']. inversion_clear Hnd' as [|? ? _ Hnd''].
    destruct (g f''); cbn; [rewrite str_eqb_neq by done|]; auto.
  - apply elem_of_cons in Hin as [->|Hin]; [done|].
    destruct (g f'); cbn; [rewrite str_eqb_neq by done|]; auto.
Qed.

Lemma list_omap_ext_in {A B} (g h : A -> option B) (l : list A) :
  (forall a, a ∈ l -> g a = h a) -> omap g l = omap h l.
Proof.
  induction l as [|a l IH]; intros Hgh; [done|]. cbn.
  rewrite (Hgh a) by set_solver. rewrite IH by (intros; apply Hgh; set_solver). done.
Qed.

Lemma settings_fields_NoDup : NoDup settings_fields.
Proof. apply NoDup_ListNoDup. repeat constructor; cbn; intuition discriminate. Qed.

Lemma settings_kw_get env dotenv f :
  f ∈ settings_fields ->
  dict_get f (settings_kw (env_vars env) (env_vars dotenv)) = VStr <$> source_value env dotenv f.
Proof.
  intros Hf. unfold settings_kw. rewrite dict_get_omap; [|apply settings_fields_NoDup|done].
  apply field_value_source.
Qed.

(** ** Lemmas on validation *)

Lemma with_default_inr {A} kw name (d a : A) f src :
  dict_get name kw = VStr <$> src -> with_default kw name d f = inr a -> setting_ok src f d a.
Proof.
  unfold with_default, setting_ok, field. intros ->.
  destruct src as [s|]; cbn; [|congruence]. by destruct (f (VStr s)) as [t|b]; [|intros [= ->]].
Qed.



Lemma load_settings_Ok env dotenv cfg :
  load_settings env dotenv = Ok cfg ->
  Settings_fields (settings_kw (env_vars env) (env_vars dotenv)) = inr cfg /\
  dotenv_extras (env_vars dotenv) = [].
Proof.
  unfold load_settings. intros ?%to_validation_Ok.
  destruct (Settings_fields _), (extra_errors _) as [|? ?] eqn:E; try discriminate.
  - injection H as ->. split; [done|]. by destruct (dotenv_extras _).
Qed.

(** Every error of the fields or of the extra inputs is reported. *)
Lemma load_settings_error env dotenv x :
  (exists e, Settings_fields (settings_kw (env_vars env) (env_vars dotenv)) = inl e /\ x ∈ e) \/
  x ∈ extra_errors (dotenv_extras (env_vars dotenv)) ->
  exists errs, load_settings env dotenv = Raise (ValidationError (py "Settings") errs) /\ x ∈ errs.
Proof.
  unfold load_settings. intros [(e & -> & Hx) | Hx].
  - eexists. split; [reflexivity|]. set_solver.
  - destruct (Settings_fields _); destruct (extra_errors _) eqn:E;
      try (by apply not_elem_of_nil in Hx); eexists; (split; [reflexivity|]); set_solver.
Qed.

Lemma Settings_fields_inr kw cfg :
  Settings_fields kw = inr cfg ->
  let d := default_settings in
  with_default kw (py "openai_api_key") (openai_api_key d) validate_str = inr (openai_api_key cfg) /\
  with_default kw (py "openai_model") (openai_model d) validate_str = inr (openai_model cfg) /\
  with_default kw (py "database_path") (database_path d) validate_str = inr (database_path cfg) /\
  with_default kw (py "cache_ttl_hours") (cache_ttl_hours d) validate_int = inr (cache_ttl_hours cfg) /\
  with_default kw (py "match_threshold") (match_threshold d) validate_int = inr (match_threshold cfg) /\
  with_default kw (py "log_level") (log_level d) validate_str = inr (log_level cfg).
Proof.
  unfold Settings_fields.
  destruct (vpair _ _) as [errs|(k & m & p & t & th & l)] eqn:E; [discriminate|].
  intros [= <-]. cbn zeta.
  apply vpair_inr in E as [? E]. apply vpair_inr in E as [? E]. apply vpair_inr in E as [? E].
  apply vpair_inr in E as [? E]. apply vpair_inr in E as [? E]. done.
Qed.

(** ** Theorems *)

(** C30: Every setting comes from the last environment variable of its
    name in any case, else from the last such variable of the [.env]
    file, validated by the field's type; a setting named nowhere keeps the
    class default. *)
Theorem load_settings_sources (env dotenv : list (pystr * pystr)) (cfg : Settings) :
  load_settings env dotenv = Ok cfg ->
  let src := source_value env dotenv in
  let d := default_settings in
  setting_ok (src (py "openai_api_key")) validate_str (openai_api_key d) (openai_api_key cfg) /\
  setting_ok (src (py "openai_model")) validate_str (openai_model d) (openai_model cfg) /\
  setting_ok (src (py "database_path")) validate_str (database_path d) (database_path cfg) /\
  setting_ok (src (py "cache_ttl_hours")) validate_int (cache_ttl_hours d) (cache_ttl_hours cfg) /\
  setting_ok (src (py "match_threshold")) validate_int (match_threshold d) (match_threshold cfg) /\
  setting_ok (src (py "log_level")) validate_str (log_level d) (log_level cfg).
Proof.
  intros [Hf _]%load_settings_Ok. cbn zeta.
  apply Settings_fields_inr in Hf as (H1 & H2 & H3 & H4 & H5 & H6).
  split_and!; (eapply with_default_inr; [apply settings_kw_get; cbn; set_solver|]); eassumption.
Qed.

(** C31: A non-empty variable of the [.env] file that names no setting
    makes [Settings()] raise a validation error naming it as an extra
    input. *)
Theorem load_settings_dotenv_extra (env dotenv : list (pystr * pystr)) (k v : pystr) :
  env_get k dotenv = Some v -> k ∉ settings_fields -> v <> [] ->
  exists errs, load_settings env dotenv = Raise (ValidationError (py "Settings") errs) /\
    (k, py "extra_forbidden") ∈ errs.
Proof.
  intros Hk Hnf Hv. apply load_settings_error. right.
  assert (Hin : (k, VStr v) ∈ env_vars dotenv) by (apply dict_get_In; by rewrite dict_get_env_vars, Hk).
  apply list_elem_of_fmap. exists (k, VStr v). split; [done|].
  apply list_elem_of_filter. split; [|done].
  rewrite bool_decide_eq_false_2 by done. by destruct v.
Qed.

(** C34: A variable of the environment that names no setting, in any
    case, is ignored: [Settings()] gives the same result, settings or
    error, with it as without it (in the [.env] file the same variable is
    an error, [load_settings_dotenv_extra]). *)
Theorem load_settings_env_extra env dotenv k v :
  lower k ∉ settings_fields -> load_settings (env ++ [(k, v)]) dotenv = load_settings env dotenv.
Proof.
  intros Hk. unfold load_settings. f_equal.
  assert (Henv : env_vars (env ++ [(k, v)]) = dict_set (lower k) (VStr v) (env_vars env))
    by (unfold env_vars; by rewrite foldl_app).
  assert (Hkw : settings_kw (env_vars (env ++ [(k, v)])) (env_vars dotenv) =
                settings_kw (env_vars env) (env_vars dotenv)).
  { unfold settings_kw. apply list_omap_ext_in. intros f Hf. rewrite Henv. unfold field_value.
    rewrite dict_get_set_ne; [done|]. intros ->. apply Hk, Hf. }
  by rewrite Hkw.
Qed.


(** ** Witnesses *)

Definition ex_env : list (pystr * pystr) := [(py "CACHE_TTL_HOURS", py "24")].
Definition ex_dotenv : list (pystr * pystr) := [(py "cache_ttl_hours", py "48"); (py "LOG_LEVEL", py "DEBUG")].
Definition ex_cfg : Settings :=
  mkSettings (py "") (py "gpt-3.5-turbo") (py "/app/data/cv_filtering.db") 24 70 (py "DEBUG").

Lemma load_settings_sources_witness :
  setting_ok (source_value ex_env ex_dotenv (py "cache_ttl_hours")) validate_int 168 24 /\
  setting_ok (source_value ex_env ex_dotenv (py "log_level")) validate_str (py "INFO") (py "DEBUG").
Proof.
  destruct (load_settings_sources ex_env ex_dotenv ex_cfg ltac:(vm_compute; reflexivity))
    as (_ & _ & _ & H4 & _ & H6).
  split; [exact H4 | exact H6].
Defined.

Lemma load_settings_dotenv_extra_witness :
  exists errs, load_settings [] [(py "OPENAI_ORG", py "org-1")] = Raise (ValidationError (py "Settings") errs) /\
    (py "openai_org", py "extra_forbidden") ∈ errs.
Proof.
  apply (load_settings_dotenv_extra [] [(py "OPENAI_ORG", py "org-1")] (py "openai_org") (py "org-1"));
    [vm_compute; reflexivity | apply (bool_decide_unpack _); vm_compute; reflexivity | discriminate].
Defined.

Lemma load_settings_env_extra_witness :
  load_settings ([(py "LOG_LEVEL", py "DEBUG")] ++ [(py "PATH", py "/usr/bin")]) [] =
  load_settings [(py "LOG_LEVEL", py "DEBUG")] [].
Proof. apply load_settings_env_extra. apply (bool_decide_unpack _). vm_compute. reflexivity. Defined.

