(* ===== verification/Cache.v ===== *)
(** * What the orchestrator needs of the result cache

    [MatchingService.match_cv_job] calls [db.get_match] and
    [db.cache_match] and nothing else of the store.  [MatchCache] is that
    interface, [MatchCacheLaws] the two laws the orchestrator's theorems
    use; [Database] provides the instance and proves the laws.  The
    reference cache [PairCache], keyed by the pair of texts as the
    specification describes the cache, is a second instance. *)

From stdpp Require Import base list gmap.
From Stdlib Require Import ZArith.
From S2P Require Import Prelude PyStr PyVal Models ModelsJson.

Class MatchCache (C : Type) := {
  cache_get : C -> pystr -> pystr -> res exn (option MatchResult);
  (** [cache_put c now cv job r]: [now] is the wall clock in microseconds *)
  cache_put : C -> Z -> pystr -> pystr -> MatchResult -> res exn C
}.

Class MatchCacheLaws (C : Type) `{!MatchCache C} := {
  (** what is stored under a pair is read back under it *)
  cache_get_put c now cv job r c' :
    storable r -> cache_put c now cv job r = Ok c' -> cache_get c' cv job = Ok (Some r);
  (** a store changes what a pair reads only to the stored result *)
  cache_get_after_put c now cv job r c' cv' job' r' :
    storable r -> cache_put c now cv job r = Ok c' ->
    cache_get c' cv' job' = Ok (Some r') -> r' = r \/ cache_get c cv' job' = Ok (Some r')
}.

Section Served.
  Context {C : Type} `{!MatchCache C}.

  (** Every result the cache can serve satisfies [P]. *)
Definition serves_only (P : MatchResult -> Prop) (c : C) : Prop :=
    forall cv job r, cache_get c cv job = Ok (Some r) -> P r.

  Context `{!MatchCacheLaws C}.

  (** Storing a result that satisfies [P] keeps [serves_only P]. *)
Lemma serves_only_put (P : MatchResult -> Prop) c now cv job r c' :
    serves_only P c -> storable r -> P r -> cache_put c now cv job r = Ok c' -> serves_only P c'.
  Proof.
    intros Hc Hs Hr Hput cv' job' r' Hget.
    destruct (cache_get_after_put _ _ _ _ _ _ _ _ _ Hs Hput Hget) as [-> | Hold]; [done|].
    by eapply Hc.
  Qed.
End Served.

(** ** The reference cache: results keyed by the pair of texts *)

Abbreviation PairCache := (gmap (pystr * pystr) MatchResult).

#[export] Instance pair_cache : MatchCache PairCache := {
  cache_get c cv job := Ok (c !! (cv, job));
  cache_put c _ cv job r := Ok (<[(cv, job) := r]> c)
}.

#[export] Instance pair_cache_laws : MatchCacheLaws PairCache.
Proof.
  split.
  - intros c now cv job r c' _ [= <-]. cbn [cache_get pair_cache]. by rewrite lookup_insert_eq.
  - intros c now cv job r c' cv' job' r' _ [= <-]. cbn [cache_get pair_cache].
    destruct (decide ((cv, job) = (cv', job'))) as [<-|Hne].
    + rewrite lookup_insert_eq. intros [= <-]. by left.
    + rewrite lookup_insert_ne by done. by right.
Qed.
