(* ===== verification/Database.v ===== *)
(** * The result cache of [app/data/database.py]

    The [match_cache] table as a finite map from the [hash] primary key to
    its row; [get_match], [cache_match] and [cleanup_old_cache] as
    functions on it.  A storage fault (the database file cannot be opened)
    is part of the state: while it is set every operation raises it, as
    [sqlite3.connect] or [execute] would.  [created_at] is SQLite's
    [CURRENT_TIMESTAMP]: UTC, whole seconds. *)

From stdpp Require Import base list gmap.
From Stdlib Require Import ZArith Lia.
From S2P Require Import Prelude PyStr PyVal Json JsonRoundtrip Models ModelsJson Identity Cache.

Open Scope Z_scope.

(** A row of [match_cache]. *)
Record Row : Type := mkRow {
  row_cv_content : pystr;
  row_job_content : pystr;
  row_result : pystr;
  row_created_at : Z   (** seconds since the epoch, UTC *)
}.

Record Db : Type := mkDb {
  db_rows : gmap pystr Row;
  db_fault : option exn
}.

(** [sqlite3.connect(self.db_path)] *)
Definition connect (db : Db) : res exn unit :=
  match db_fault db with Some e => Raise e | None => Ok tt end.

(** [Database.__init__] and [_init_database]: [CREATE TABLE IF NOT EXISTS]
    leaves an existing table and its rows as they are. *)
Definition init_database (db : Db) : res exn Db :=
  _ ← connect db; Ok db.

(** [MatchResult( **data)] with [data] an arbitrary object from [json.loads]. *)
Definition MatchResult_of_pyval (data : pyval) : res exn MatchResult :=
  match data with
  | VDict d => MatchResult_of_dict d
  | v => Raise (TypeError (py "app.core.models.MatchResult() argument after ** must be a mapping, not "
                           ++ type_name v))
  end.

(** [Database.get_match] *)
Definition get_match (db : Db) (cv_content job_content : pystr) : res exn (option MatchResult) :=
  _ ← connect db;
  match_hash ← match_hash cv_content job_content;
  match db_rows db !! match_hash with
  | None => Ok None
  | Some row => data ← json_loads (row_result row); r ← MatchResult_of_pyval data; Ok (Some r)
  end.

(** [CURRENT_TIMESTAMP] from the wall clock in microseconds. *)
Definition current_timestamp (now_us : Z) : Z := now_us / 1000000.

(** [Database.cache_match]: [INSERT OR REPLACE], so the row, its
    [created_at] included, is replaced. *)
Definition cache_match (db : Db) (now_us : Z) (cv_content job_content : pystr)
    (match_result : MatchResult) : res exn Db :=
  _ ← connect db;
  match_hash ← match_hash cv_content job_content;
  text ← json_dumps (VDict (MatchResult_dump match_result));
  Ok (mkDb (<[match_hash := mkRow cv_content job_content text (current_timestamp now_us)]> (db_rows db))
           (db_fault db)).

(** [datetime.now() - timedelta(hours=ttl)] in microseconds; [local_now_us]
    is the local wall clock. *)
Definition cutoff (local_now_us ttl_hours : Z) : Z := local_now_us - ttl_hours * 3600 * 1000000.

(** [created_at < ?]: the stored text and the adapted [datetime] compare
    as their instants do (both ISO, same width). *)
Definition expired (c : Z) (row : Row) : bool := row_created_at row * 1000000 <? c.

(** [Database.cleanup_old_cache] *)
Definition cleanup_old_cache (db : Db) (local_now_us ttl_hours : Z) : res exn Db :=
  _ ← connect db;
  let c := cutoff local_now_us ttl_hours in
  Ok (mkDb (filter (fun kv => expired c kv.2 = false) (db_rows db)) (db_fault db)).

(** ** Lemmas *)

Lemma connect_Ok (db : Db) : connect db = Ok tt <-> db_fault db = None.
Proof. unfold connect. destruct (db_fault db); split; congruence. Qed.

Lemma cache_match_Ok db now cv job r db' :
  cache_match db now cv job r = Ok db' ->
  exists h text, db_fault db = None /\ match_hash cv job = Ok h /\
    json_dumps (VDict (MatchResult_dump r)) = Ok text /\
    db' = mkDb (<[h := mkRow cv job text (current_timestamp now)]> (db_rows db)) (db_fault db).
Proof.
  unfold cache_match. intros H.
  apply bind_eq_Ok in H as ([] & Hc%connect_Ok & H).
  apply bind_eq_Ok in H as (h & Hh & H).
  apply bind_eq_Ok in H as (text & Ht & [= <-]). eauto 7.
Qed.

(** A row written from a storable result reads back as that result. *)
Lemma get_match_row db cv job h row r :
  db_fault db = None -> match_hash cv job = Ok h -> db_rows db !! h = Some row ->
  storable r -> json_dumps (VDict (MatchResult_dump r)) = Ok (row_result row) ->
  get_match db cv job = Ok (Some r).
Proof.
  intros Hf Hh Hrow [Hr Hx] Ht. unfold get_match, connect. rewrite Hf. simpl. rewrite Hh. simpl.
  rewrite Hrow. rewrite (json_loads_dumps _ _ (dump_json_repr r Hx) Ht). simpl.
  by rewrite MatchResult_dump_roundtrip.
Qed.

(** C7: Cache round trip: what [cache_match] stores, [get_match] returns. *)
Theorem get_match_cache_match db now cv job r db' :
  storable r -> cache_match db now cv job r = Ok db' -> get_match db' cv job = Ok (Some r).
Proof.
  intros Hs (h & text & Hf & Hh & Ht & ->)%cache_match_Ok.
  eapply get_match_row; [exact Hf | exact Hh | apply lookup_insert_eq | exact Hs | exact Ht].
Qed.

(** After [cache_match], a pair reads either what was just stored (same
    key) or what it read before. *)
Lemma get_match_after_cache_match db now cv job r db' cv' job' r' :
  storable r -> cache_match db now cv job r = Ok db' ->
  get_match db' cv' job' = Ok (Some r') -> r' = r \/ get_match db cv' job' = Ok (Some r').
Proof.
  intros Hs Hput Hget. pose proof Hput as (h & text & Hf & Hh & Ht & ->)%cache_match_Ok.
  destruct (match_hash cv' job') as [h'|e] eqn:Hh';
    [|revert Hget; unfold get_match, connect; simpl; rewrite Hf; simpl; rewrite Hh'; discriminate].
  destruct (decide (h = h')) as [<-|Hne].
  - left. erewrite get_match_row in Hget; [by injection Hget | exact Hf | exact Hh' | apply lookup_insert_eq | exact Hs | exact Ht].
  - right. revert Hget. unfold get_match, connect. simpl. rewrite Hf. simpl. rewrite Hh'. simpl.
    by rewrite lookup_insert_ne by done.
Qed.

(** C16: The key is the hash of the concatenation: a pair with the same
    concatenation, the two texts swapped for instance, reads the result
    stored for another pair. *)
Theorem get_match_collision db now cv job r db' cv' job' :
  storable r -> cache_match db now cv job r = Ok db' -> cv' ++ job' = cv ++ job ->
  get_match db' cv' job' = Ok (Some r).
Proof.
  intros Hs (h & text & Hf & Hh & Ht & ->)%cache_match_Ok Hcat.
  eapply get_match_row; [exact Hf | | apply lookup_insert_eq | exact Hs | exact Ht].
  by rewrite (match_hash_concat _ _ _ _ Hcat).
Qed.

(** C13: [INSERT OR REPLACE]: the key's row is replaced, [created_at] refreshed,
    other rows untouched. *)
Lemma cache_match_rows db now cv job r db' h :
  cache_match db now cv job r = Ok db' -> match_hash cv job = Ok h ->
  (exists text, db_rows db' !! h = Some (mkRow cv job text (current_timestamp now))) /\
  (forall h', h' <> h -> db_rows db' !! h' = db_rows db !! h').
Proof.
  intros (h0 & text & _ & Hh & _ & ->)%cache_match_Ok Hh'. rewrite Hh in Hh'. injection Hh' as <-.
  simpl. split; [eexists; apply lookup_insert_eq|]. intros h' Hne. by apply lookup_insert_ne.
Qed.

(** [cleanup_old_cache] keeps exactly the rows not older than the cutoff. *)
Lemma cleanup_old_cache_rows db local ttl db' :
  cleanup_old_cache db local ttl = Ok db' ->
  forall h row, db_rows db' !! h = Some row <->
    db_rows db !! h = Some row /\ cutoff local ttl <= row_created_at row * 1000000.
Proof.
  unfold cleanup_old_cache, connect. destruct (db_fault db); [discriminate|]. simpl.
  intros [= <-] h row. simpl. rewrite map_lookup_filter_Some. unfold expired. simpl.
  rewrite Z.ltb_ge. tauto.
Qed.

(** ** The SQLite store as the orchestrator's cache *)

#[export] Instance db_cache : MatchCache Db := {
  cache_get := get_match;
  cache_put := cache_match
}.

#[export] Instance db_cache_laws : MatchCacheLaws Db.
Proof.
  split.
  - intros c now cv job r c' Hs (h & text & Hf & Hh & Ht & ->)%cache_match_Ok.
    eapply get_match_row; [exact Hf | exact Hh | apply lookup_insert_eq | exact Hs | exact Ht].
  - intros. by eapply get_match_after_cache_match.
Qed.

(** ** Witnesses *)

Definition ex_db : Db := mkDb ∅ None.

Lemma get_match_cache_match_witness :
  exists db', cache_match ex_db 1700000000000000 (py "5 years Python, AWS")
                (py "Looking for Python engineer, AWS required") ex_result = Ok db' /\
  get_match db' (py "5 years Python, AWS") (py "Looking for Python engineer, AWS required")
  = Ok (Some ex_result).
Proof.
  destruct (cache_match ex_db 1700000000000000 (py "5 years Python, AWS")
              (py "Looking for Python engineer, AWS required") ex_result) as [db'|e] eqn:E;
    [|vm_compute in E; discriminate].
  exists db'. split; [done|]. exact (get_match_cache_match _ _ _ _ _ _ ex_result_storable E).
Defined.

Lemma get_match_collision_witness :
  exists db', cache_match ex_db 0 (py "x") (py "xx") ex_result = Ok db' /\
  get_match db' (py "xx") (py "x") = Ok (Some ex_result).
Proof.
  destruct (cache_match ex_db 0 (py "x") (py "xx") ex_result) as [db'|e] eqn:E;
    [|vm_compute in E; discriminate].
  exists db'. split; [done|].
  exact (get_match_collision _ _ _ _ _ _ _ _ ex_result_storable E eq_refl).
Defined.

Lemma cache_match_rows_witness :
  exists db', cache_match ex_db 1700000000500000 (py "cv") (py "job") ex_result = Ok db' /\
  (exists text, db_rows db' !! py "69887a379675f20c41d93b6710855e45e5495cefff257df7c413f7d9dd980be9"
                = Some (mkRow (py "cv") (py "job") text 1700000000)) /\
  (forall h', h' <> py "69887a379675f20c41d93b6710855e45e5495cefff257df7c413f7d9dd980be9" ->
              db_rows db' !! h' = db_rows ex_db !! h').
Proof.
  destruct (cache_match ex_db 1700000000500000 (py "cv") (py "job") ex_result) as [db'|e] eqn:E;
    [|vm_compute in E; discriminate].
  exists db'. split; [done|]. apply (cache_match_rows _ _ _ _ _ _ _ E). vm_compute. reflexivity.
Defined.
