(* ===== verification/LLMService.v ===== *)
(** * The scoring backend adapter of [app/services/llm_service.py]

    [LLMService.match_cv_job]: load the prompt template, format it, call
    the chat-completions endpoint, strip a Markdown code fence from the
    reply, [json.loads] it and build a [MatchResult]; any exception raised
    inside the [try] becomes an error result.  The endpoint is an oracle
    of the state: the n-th call gets the n-th reply, and the prompts sent
    are recorded, so that "the backend was not called" is a statement
    about the state. *)

From stdpp Require Import base list.
From Stdlib Require Import ZArith Lia.
From S2P Require Import Prelude PyStr PyVal Json JsonRoundtrip Models ModelsJson.

Open Scope Z_scope.

(** What [self.client.chat.completions.create(...)] gives: the message
    content, which may be [None], or the exception it raises. *)
Inductive completion : Type :=
| Reply (content : option pystr)
| CallFails (e : exn).

Record Backend : Type := mkBackend {
  prompt_file : res exn pystr;       (** [load_prompt("match_prompt.txt")] *)
  replies : nat -> completion;       (** the reply to the n-th call *)
  models_list : res exn unit;        (** [self.client.models.list()] *)
  sent : list pystr                  (** the prompts sent, oldest first *)
}.

(** ** [str.format] with keyword arguments [cv_text] and [job_text]

    Literal text, doubled braces and replacement fields.  A field is
    looked up by the name before any [!] or [:]; an empty or numeric name
    is a positional index (there are none), another name a missing key.
    Conversions, format specifications and attribute or index access
    inside a field are not modelled: the value is substituted as is. *)

Definition is_digit_cp (c : Z) : bool := (48 <=? c) && (c <=? 57).

(** The field text up to its closing brace, nested braces counted. *)
Fixpoint field_text (depth : nat) (s : pystr) : option (pystr * pystr) :=
  match s with
  | [] => None
  | c :: t =>
      if c =? 125 then
        match depth with
        | O => Some ([], t)
        | S d => '(f, r) ← field_text d t; Some (c :: f, r)
        end
      else if c =? 123 then '(f, r) ← field_text (S depth) t; Some (c :: f, r)
      else '(f, r) ← field_text depth t; Some (c :: f, r)
  end.

Fixpoint take_name (s : pystr) : pystr :=
  match s with
  | [] => []
  | c :: t => if (c =? 33) || (c =? 58) || (c =? 46) || (c =? 91) then [] else c :: take_name t
  end.

Definition lookup_field (cv_text job_text field : pystr) : res exn pystr :=
  let name := take_name field in
  if str_eqb name (py "cv_text") then Ok cv_text
  else if str_eqb name (py "job_text") then Ok job_text
  else if forallb is_digit_cp name then
    Raise (IndexError (py "Replacement index " ++ (if bool_decide (name = []) then py "0" else name)
                       ++ py " out of range for positional args tuple"))
  else Raise (KeyError name).

Fixpoint format_go (fuel : nat) (s : pystr) (cv_text job_text : pystr) : res exn pystr :=
  match fuel with
  | O => Ok []
  | S f =>
      match s with
      | [] => Ok []
      | c :: t =>
          if c =? 123 then
            match t with
            | [] => Raise (ValueError (py "Single '{' encountered in format string"))
            | c' :: t' =>
                if c' =? 123 then r ← format_go f t' cv_text job_text; Ok (123 :: r)
                else
                  match field_text 0 t with
                  | None => Raise (ValueError (py "expected '}' before end of string"))
                  | Some (fld, rest) =>
                      v ← lookup_field cv_text job_text fld;
                      r ← format_go f rest cv_text job_text; Ok (v ++ r)
                  end
            end
          else if c =? 125 then
            match t with
            | c' :: t' =>
                if c' =? 125 then r ← format_go f t' cv_text job_text; Ok (125 :: r)
                else Raise (ValueError (py "Single '}' encountered in format string"))
            | [] => Raise (ValueError (py "Single '}' encountered in format string"))
            end
          else r ← format_go f t cv_text job_text; Ok (c :: r)
      end
  end.

(** [prompt_template.format(cv_text=cv_text, job_text=job_text)] *)
Definition format_prompt (template cv_text job_text : pystr) : res exn pystr :=
  format_go (S (length template)) template cv_text job_text.

(** ** The call and the reply *)

(** [LLMService._call_openai]: the prompt is sent (recorded) and the
    reply's content returned, or the client's exception re-raised. *)
Definition record_prompt (b : Backend) (prompt : pystr) : Backend :=
  mkBackend (prompt_file b) (replies b) (models_list b) (sent b ++ [prompt]).

Definition call_openai (prompt : pystr) : st Backend exn (option pystr) :=
  fun b =>
    match replies b (length (sent b)) with
    | Reply c => (Ok c, record_prompt b prompt)
    | CallFails e => (Raise e, record_prompt b prompt)
    end.

(** The fence stripping of [match_cv_job], lines 53 to 60. *)
Definition clean_response (response : pystr) : pystr :=
  let r := strip response in
  let r := if startswith r (py "```json") then slice_from 7 r else r in
  let r := if startswith r (py "```") then slice_from 3 r else r in
  let r := if endswith r (py "```") then slice_drop_last 3 r else r in
  strip r.

(** [v[k]] with a [str] key, on whatever [json.loads] returned. *)
Definition subscript (v : pyval) (k : pystr) : res exn pyval :=
  match v with
  | VDict d => res_of_option (KeyError k) (dict_get k d)
  | VList _ => Raise (TypeError (py "list indices must be integers or slices, not str"))
  | VStr _ => Raise (TypeError (py "string indices must be integers, not 'str'"))
  | v => Raise (TypeError ([39] ++ type_name v ++ py "' object is not subscriptable"))
  end.

(** [CriteriaScores( **x)] *)
Definition CriteriaScores_of_pyval (x : pyval) : res exn CriteriaScores :=
  match x with
  | VDict d => CriteriaScores_new d
  | v => Raise (TypeError (py "app.core.models.CriteriaScores() argument after ** must be a mapping, not "
                           ++ type_name v))
  end.

(** Lines 65 to 71: the arguments are evaluated left to right. *)
Definition build_result (data : pyval) : res exn MatchResult :=
  x ← subscript data (py "criteria_scores");
  criteria_scores ← CriteriaScores_of_pyval x;
  m ← subscript data (py "match");
  o ← subscript data (py "overall_score");
  e ← subscript data (py "explanation");
  MatchResult_new m o criteria_scores e.

(** The body of the [try] after the call: [response.strip()] fails on a
    [None] content. *)
Definition parse_reply (content : option pystr) : res exn MatchResult :=
  match content with
  | None => Raise (AttributeError (py "'NoneType' object has no attribute 'strip'"))
  | Some response => data ← json_loads (clean_response response); build_result data
  end.

(** The [except Exception as e] branch. *)
Definition error_result (e : exn) : MatchResult :=
  mkMatchResult false 0 (mkCriteriaScores 0 0 0 0 0)
    (py "Error processing match: " ++ exn_str e) false None true.

(** [LLMService.match_cv_job]: loading and formatting the prompt happen
    before the [try]; their exceptions propagate. *)
Definition llm_match_cv_job (cv_text job_text : pystr) : st Backend exn MatchResult :=
  (b <- st_get ;;
   prompt_template <- st_lift (prompt_file b) ;;
   prompt <- st_lift (format_prompt prompt_template cv_text job_text) ;;
   st_catch (response <- call_openai prompt ;; st_lift (parse_reply response))
            (fun e => st_ret (error_result e)))%st.

(** [LLMService.health_check] *)
Definition health_check (b : Backend) : bool :=
  match models_list b with Ok _ => true | Raise _ => false end.

(** ** Lemmas *)

(** What the [try] block evaluates to for the n-th reply. *)
Definition try_body (c : completion) : res exn MatchResult :=
  match c with Reply content => parse_reply content | CallFails e => Raise e end.

Definition outcome (r : res exn MatchResult) : MatchResult :=
  match r with Ok m => m | Raise e => error_result e end.

Lemma CriteriaScores_of_pyval_ok x c : CriteriaScores_of_pyval x = Ok c -> criteria_ok c.
Proof. destruct x; try discriminate. apply CriteriaScores_new_ok. Qed.

Lemma build_result_ok data r :
  build_result data = Ok r ->
  result_ok r /\ error r = false /\ cached r = false /\ processing_time_ms r = None.
Proof.
  unfold build_result. intros H.
  apply bind_eq_Ok in H as (x & _ & H). apply bind_eq_Ok in H as (cs & Hcs & H).
  apply bind_eq_Ok in H as (m & _ & H). apply bind_eq_Ok in H as (o & _ & H).
  apply bind_eq_Ok in H as (e & _ & H).
  pose proof (MatchResult_new_defaults _ _ _ _ _ H) as (? & ? & ? & _).
  apply MatchResult_new_ok in H; [done|]. by eapply CriteriaScores_of_pyval_ok.
Qed.

Lemma parse_reply_ok c r :
  parse_reply c = Ok r ->
  result_ok r /\ error r = false /\ cached r = false /\ processing_time_ms r = None.
Proof.
  destruct c as [s|]; [|discriminate]. simpl. intros (d & _ & H)%bind_eq_Ok.
  by apply build_result_ok in H.
Qed.

Lemma error_result_ok e : result_ok (error_result e) /\ error (error_result e) = true.
Proof. unfold result_ok, criteria_ok, score_ok. simpl. lia. Qed.

(** Once the prompt is built, [match_cv_job] returns: the prompt is sent
    once, and the result is the parsed reply or the error result. *)
Lemma llm_match_cv_job_call b cv job t p :
  prompt_file b = Ok t -> format_prompt t cv job = Ok p ->
  llm_match_cv_job cv job b =
    (Ok (outcome (try_body (replies b (length (sent b))))), record_prompt b p).
Proof.
  intros Ht Hp. unfold llm_match_cv_job, st_bind, st_get, st_lift, st_catch, st_ret.
  rewrite Ht, Hp. unfold call_openai, try_body, outcome.
  destruct (replies b (length (sent b))) as [c|e]; [|done].
  destruct (parse_reply c); done.
Qed.

(** The template is read and formatted outside the [try]: a failure there
    escapes, and nothing is sent. *)
Lemma llm_match_cv_job_prompt_error b cv job e :
  (prompt_file b = Raise e \/
   exists t, prompt_file b = Ok t /\ format_prompt t cv job = Raise e) ->
  llm_match_cv_job cv job b = (Raise e, b).
Proof.
  intros [Ht | (t & Ht & Hp)]; unfold llm_match_cv_job, st_bind, st_get, st_lift; rewrite Ht;
    [done|]. by rewrite Hp.
Qed.

Lemma outcome_try_body c :
  let r := outcome (try_body c) in
  result_ok r /\ cached r = false /\
  ((error r = false /\ processing_time_ms r = None) \/ exists e, r = error_result e).
Proof.
  unfold outcome, try_body. destruct c as [content|e].
  - destruct (parse_reply content) as [r|e] eqn:E.
    + apply parse_reply_ok in E as (? & ? & ? & ?). auto.
    + pose proof (error_result_ok e) as [? _]. eauto.
  - pose proof (error_result_ok e) as [? _]. eauto.
Qed.

(** C8: Once the prompt is built, [match_cv_job] never raises: it sends the
    prompt once and returns a well-formed result that is either a fresh
    validated one or the error result. *)
Theorem llm_match_cv_job_sound b cv job t p :
  prompt_file b = Ok t -> format_prompt t cv job = Ok p ->
  exists r, llm_match_cv_job cv job b = (Ok r, record_prompt b p) /\
    result_ok r /\ cached r = false /\
    ((error r = false /\ processing_time_ms r = None) \/ exists e, r = error_result e).
Proof.
  intros Ht Hp. rewrite (llm_match_cv_job_call _ _ _ _ _ Ht Hp). eexists; split; [done|].
  apply outcome_try_body.
Qed.

(** Whatever [match_cv_job] returns is well formed and fresh. *)
Lemma llm_match_cv_job_Ok cv job b r b' :
  llm_match_cv_job cv job b = (Ok r, b') -> result_ok r /\ cached r = false.
Proof.
  destruct (prompt_file b) as [t|e] eqn:Ht;
    [|rewrite (llm_match_cv_job_prompt_error b cv job e) by auto; discriminate].
  destruct (format_prompt t cv job) as [p|e] eqn:Hp;
    [|rewrite (llm_match_cv_job_prompt_error b cv job e) by eauto; discriminate].
  rewrite (llm_match_cv_job_call _ _ _ _ _ Ht Hp). intros [= <- _].
  pose proof (outcome_try_body (replies b (length (sent b)))) as (? & ? & _). done.
Qed.

(** *** The fence stripping *)

Lemma startswith_fence_false (b : pystr) :
  b <> [] -> head b <> Some 96 -> startswith (b ++ [96; 96; 96]) [96; 96; 96] = false.
Proof.
  destruct b as [|c b]; [done|]. intros _ Hc. cbn [app startswith].
  destruct (Z.eqb_spec 96 c) as [<-|]; [done|done].
Qed.

(** A reply wrapped in a [json] fence, with white space around it, is
    reduced to its stripped body. *)
Lemma clean_response_fenced (w1 body w2 : pystr) :
  all_space w1 -> all_space w2 -> head body <> Some 96 ->
  clean_response (w1 ++ py "```json" ++ body ++ py "```" ++ w2) = strip body.
Proof.
  intros H1 H2 Hb. unfold clean_response.
  change (py "```json") with ([96; 96; 96; 106; 115; 111; 110]).
  change (py "```") with ([96; 96; 96]).
  remember [96; 96; 96] as F eqn:HF.
  replace (w1 ++ _ ++ body ++ F ++ w2) with (w1 ++ ([96; 96; 96; 106; 115; 111; 110] ++ body ++ F) ++ w2)
    by (by rewrite <- !app_assoc).
  rewrite strip_spaces by done.
  assert (strip ([96; 96; 96; 106; 115; 111; 110] ++ body ++ F) =
          [96; 96; 96; 106; 115; 111; 110] ++ body ++ F) as ->.
  { destruct (@exists_last _ (body ++ F)) as (m & d & Hm); [subst; by destruct body|].
    rewrite Hm, app_assoc.
    change ([96; 96; 96; 106; 115; 111; 110] ++ m) with (96 :: ([96; 96; 106; 115; 111; 110] ++ m)).
    rewrite <- app_comm_cons, strip_trimmed; [done..|].
    subst F. change [96; 96; 96] with ([96; 96] ++ [96]) in Hm.
    rewrite app_assoc in Hm. apply app_inj_tail in Hm as [_ <-]. done. }
  rewrite startswith_app. change 7%nat with (length [96; 96; 96; 106; 115; 111; 110]).
  rewrite slice_from_app.
  destruct (decide (body = [])) as [->|Hne].
  - subst F. done.
  - subst F. rewrite startswith_fence_false by done.
    rewrite endswith_app. change 3%nat with (length [96; 96; 96]). by rewrite slice_drop_last_app.
Qed.

(** A bare JSON object, with white space around it, is left as it is. *)
Lemma clean_response_plain (w1 m w2 : pystr) :
  all_space w1 -> all_space w2 ->
  clean_response (w1 ++ (123 :: m ++ [125]) ++ w2) = 123 :: m ++ [125].
Proof.
  intros H1 H2. unfold clean_response. rewrite strip_spaces, strip_trimmed by done.
  change (py "```json") with ([96; 96; 96; 106; 115; 111; 110]).
  change (py "```") with ([96; 96; 96]).
  replace (startswith (123 :: m ++ [125]) [96; 96; 96; 106; 115; 111; 110]) with false
    by reflexivity.
  replace (startswith (123 :: m ++ [125]) [96; 96; 96]) with false by reflexivity.
  replace (endswith (123 :: m ++ [125]) [96; 96; 96]) with false.
  - cbv beta iota. by rewrite strip_trimmed.
  - unfold endswith. rewrite app_comm_cons, rev_app_distr. done.
Qed.

(** An upper-case [JSON] fence is stripped of its backticks only: the tag
    stays in front of the payload. *)
Lemma clean_response_upper_fence (w1 body w2 : pystr) :
  all_space w1 -> all_space w2 ->
  clean_response (w1 ++ py "```JSON" ++ body ++ py "```" ++ w2) = strip (py "JSON" ++ body).
Proof.
  intros H1 H2. unfold clean_response.
  change (py "```JSON") with ([96; 96; 96; 74; 83; 79; 78]).
  change (py "```json") with ([96; 96; 96; 106; 115; 111; 110]).
  change (py "```") with ([96; 96; 96]).
  remember [96; 96; 96] as F eqn:HF.
  replace (w1 ++ _ ++ body ++ F ++ w2) with (w1 ++ ([96; 96; 96; 74; 83; 79; 78] ++ body ++ F) ++ w2)
    by (by rewrite <- !app_assoc).
  rewrite strip_spaces by done.
  assert (strip ([96; 96; 96; 74; 83; 79; 78] ++ body ++ F) =
          [96; 96; 96; 74; 83; 79; 78] ++ body ++ F) as ->.
  { destruct (@exists_last _ (body ++ F)) as (m & d & Hm); [subst; by destruct body|].
    rewrite Hm, app_assoc.
    change ([96; 96; 96; 74; 83; 79; 78] ++ m) with (96 :: ([96; 96; 74; 83; 79; 78] ++ m)).
    rewrite <- app_comm_cons, strip_trimmed; [done..|].
    subst F. change [96; 96; 96] with ([96; 96] ++ [96]) in Hm.
    rewrite app_assoc in Hm. apply app_inj_tail in Hm as [_ <-]. done. }
  subst F.
  replace (startswith ([96; 96; 96; 74; 83; 79; 78] ++ body ++ [96; 96; 96]) [96; 96; 96; 106; 115; 111; 110])
    with false by reflexivity.
  replace (startswith ([96; 96; 96; 74; 83; 79; 78] ++ body ++ [96; 96; 96]) [96; 96; 96])
    with true by reflexivity.
  cbv beta iota.
  replace (slice_from 3 ([96; 96; 96; 74; 83; 79; 78] ++ body ++ [96; 96; 96]))
    with (([74; 83; 79; 78] ++ body) ++ [96; 96; 96]) by (by rewrite <- app_assoc).
  rewrite endswith_app. change 3%nat with (length [96; 96; 96]). by rewrite slice_drop_last_app.
Qed.

(** [json.loads] of a text that starts with [J]: no JSON value does. *)
Lemma json_loads_J (t : pystr) :
  json_loads (74 :: t) = Raise (JSONDecodeError (py "Expecting value") (74 :: t) 0).
Proof.
  unfold json_loads.
  replace (startswith (74 :: t) [65279]) with false by reflexivity.
  replace (skip_ws (74 :: t)) with (74 :: t) by reflexivity.
  replace (scan_once (74 :: t) (S (length (74 :: t))) (74 :: t))
    with (jerr (A := pyval * pystr) (74 :: t) (py "Expecting value") (74 :: t)) by reflexivity.
  unfold jerr, pos_of. by rewrite Nat.sub_diag.
Qed.

(** C9: Fence stripping: a JSON object in a [json] code fence, with any
    white space around the fence and inside it, cleans to what the bare
    object cleans to, which is the object itself. *)
Theorem clean_response_fence_equiv (w1 w2 w3 w4 m : pystr) :
  all_space w1 -> all_space w2 -> all_space w3 -> all_space w4 ->
  clean_response (w1 ++ py "```json" ++ (w3 ++ (123 :: m ++ [125]) ++ w4) ++ py "```" ++ w2)
  = clean_response (123 :: m ++ [125]) /\
  clean_response (123 :: m ++ [125]) = 123 :: m ++ [125].
Proof.
  intros H1 H2 H3 H4.
  pose proof (clean_response_plain [] m [] ltac:(constructor) ltac:(constructor)) as Hplain.
  rewrite app_nil_r in Hplain. cbn [app] in Hplain. rewrite Hplain.
  rewrite clean_response_fenced by
    (done || (destruct H3 as [|c w3' Hc]; [done|]; cbn; intros [= ->]; discriminate Hc)).
  by rewrite strip_spaces, strip_trimmed.
Qed.

(** *** Decoding a well-formed reply *)

(** The result [match_cv_job] builds from the four fields it reads. *)
Definition fresh_result (r : MatchResult) : MatchResult :=
  mkMatchResult (match_ r) (overall_score r) (criteria_scores r) (explanation r) false None false.

Lemma build_result_dump (r : MatchResult) :
  result_ok r -> build_result (VDict (MatchResult_dump r)) = Ok (fresh_result r).
Proof.
  destruct r as [m o c x ca p er]. intros [Ho Hc]. simpl in *.
  destruct (CriteriaScores_dump_fields c Hc) as (d & Hd & Hf).
  unfold build_result.
  replace (subscript _ (py "criteria_scores")) with (Ok (E:=exn) (CriteriaScores_dump c)) by reflexivity.
  replace (subscript _ (py "match")) with (Ok (E:=exn) (VBool m)) by reflexivity.
  replace (subscript _ (py "overall_score")) with (Ok (E:=exn) (VInt o)) by reflexivity.
  replace (subscript _ (py "explanation")) with (Ok (E:=exn) (VStr x)) by reflexivity.
  rewrite Hd. cbn [mbind res_bind CriteriaScores_of_pyval]. unfold CriteriaScores_new. rewrite Hf.
  cbn [mbind res_bind]. unfold MatchResult_new, MatchResult_fields. resolve_fields.
  by rewrite validate_score_VInt.
Qed.

(** C10: A reply that is the JSON text of a well-formed result in a [json]
    code fence is decoded to that result's four scored fields. *)
Theorem llm_match_cv_job_reply b cv job t p r s w1 w2 :
  prompt_file b = Ok t -> format_prompt t cv job = Ok p ->
  result_ok r -> Forall valid_char (explanation r) ->
  json_dumps (VDict (MatchResult_dump r)) = Ok s -> all_space w1 -> all_space w2 ->
  replies b (length (sent b)) = Reply (Some (w1 ++ py "```json" ++ s ++ py "```" ++ w2)) ->
  llm_match_cv_job cv job b = (Ok (fresh_result r), record_prompt b p).
Proof.
  intros Ht Hp Hr Hx Hs H1 H2 Hrep. rewrite (llm_match_cv_job_call _ _ _ _ _ Ht Hp), Hrep.
  destruct (json_dumps_dict_shape _ _ Hs) as (m & ->).
  unfold try_body, parse_reply. rewrite clean_response_fenced by done.
  rewrite strip_trimmed by done.
  rewrite (json_loads_dumps _ _ (dump_json_repr r Hx) Hs). simpl.
  by rewrite build_result_dump.
Qed.

(** *** Formatting the prompt *)

(** Text with no brace is copied by [str.format]. *)
Definition no_braces (t : pystr) : Prop := Forall (fun c => c <> 123 /\ c <> 125) t.

Lemma format_go_nil f cv job : format_go f [] cv job = Ok [].
Proof. by destruct f. Qed.

Lemma format_go_text t rest f cv job :
  no_braces t -> (length t < f)%nat ->
  format_go f (t ++ rest) cv job = (r ← format_go (f - length t) rest cv job; Ok (t ++ r)).
Proof.
  revert f; induction t as [|c t IH]; intros f Ht Hf.
  - rewrite Nat.sub_0_r. simpl. by destruct (format_go f rest cv job).
  - destruct f as [|f]; [simpl in Hf; lia|]. apply Forall_cons_iff in Ht as [[H1 H2] Ht].
    cbn [app format_go]. rewrite (proj2 (Z.eqb_neq _ _) H1), (proj2 (Z.eqb_neq _ _) H2).
    rewrite IH by (done || (simpl in Hf; lia)). simpl. by destruct (format_go (f - length t) rest cv job).
Qed.

Lemma format_go_text_all t f cv job :
  no_braces t -> (length t < f)%nat -> format_go f t cv job = Ok t.
Proof.
  intros Ht Hf. rewrite <- (app_nil_r t) at 1. rewrite format_go_text by done.
  rewrite format_go_nil. cbn [mbind res_bind]. by rewrite app_nil_r.
Qed.

Lemma format_go_cv_text f rest cv job :
  format_go (S f) (py "{cv_text}" ++ rest) cv job = (r ← format_go f rest cv job; Ok (cv ++ r)).
Proof. reflexivity. Qed.

Lemma format_go_job_text f rest cv job :
  format_go (S f) (py "{job_text}" ++ rest) cv job = (r ← format_go f rest cv job; Ok (job ++ r)).
Proof. reflexivity. Qed.

(** C18: A template whose only braces are the two fields is filled with the
    CV and job texts verbatim: braces inside them are not interpreted. *)
Theorem format_prompt_fields t1 t2 t3 cv job :
  no_braces t1 -> no_braces t2 -> no_braces t3 ->
  format_prompt (t1 ++ py "{cv_text}" ++ t2 ++ py "{job_text}" ++ t3) cv job
  = Ok (t1 ++ cv ++ t2 ++ job ++ t3).
Proof.
  intros H1 H2 H3. unfold format_prompt.
  assert (length (py "{cv_text}") = 9%nat) as LA by reflexivity.
  assert (length (py "{job_text}") = 10%nat) as LB by reflexivity.
  rewrite !length_app, LA, LB.
  rewrite format_go_text by (done || lia).
  replace (_ - length t1)%nat with (S (9 + length t2 + (10 + length t3)))%nat by lia.
  rewrite format_go_cv_text, format_go_text by (done || lia).
  replace (_ - length t2)%nat with (S (18 + length t3))%nat by lia.
  by rewrite format_go_job_text, format_go_text_all by (done || lia).
Qed.

(** *** Concrete replies *)

(** JSON text written with single quotes for double quotes. *)
Definition jtext (s : String.string) : pystr := map (fun c => if c =? 39 then 34 else c) (py s).
Arguments jtext s%_string_scope.

Definition backend_replying (reply : pystr) : Backend :=
  mkBackend (Ok (py "CV: {cv_text} JOB: {job_text}")) (fun _ => Reply (Some reply)) (Ok tt) [].

(** C19: The fence stripper knows only the lower-case [json] tag: whatever
    a reply holds in a [JSON] fence (with any white space around it), the
    tag stays in front, [json.loads] fails at its first character, and
    the call returns the error result of that [JSONDecodeError]. *)
Theorem llm_upper_fence_rejected (b : Backend) (cv job t p w1 body w2 : pystr) :
  prompt_file b = Ok t -> format_prompt t cv job = Ok p -> all_space w1 -> all_space w2 ->
  replies b (length (sent b)) = Reply (Some (w1 ++ py "```JSON" ++ body ++ py "```" ++ w2)) ->
  llm_match_cv_job cv job b =
    (Ok (error_result (JSONDecodeError (py "Expecting value") (strip (py "JSON" ++ body)) 0)),
     record_prompt b p).
Proof.
  intros Ht Hp H1 H2 Hr. rewrite (llm_match_cv_job_call b cv job t p Ht Hp), Hr.
  cbn [try_body parse_reply]. rewrite clean_response_upper_fence by done.
  change (py "JSON" ++ body) with (74 :: py "SON" ++ body).
  destruct (strip_cons_nonspace 74 (py "SON" ++ body) eq_refl) as [u Hu].
  rewrite Hu, json_loads_J. reflexivity.
Qed.

(** Lax validation: a string [match], a string [overall_score], a float and
    a boolean score are all accepted as a successful result. *)
Example llm_lax_reply_accepted :
  fst (llm_match_cv_job (py "cv") (py "job") (backend_replying (jtext
    "{'match': 'yes', 'overall_score': '85', 'criteria_scores': {'skills': 90.0, 'experience': true, 'location': 100, 'education': 70, 'certifications': 50}, 'explanation': 'Good fit'}")))
  = Ok (mkMatchResult true 85 (mkCriteriaScores 90 1 100 70 50) (py "Good fit") false None false).
Proof. vm_compute. reflexivity. Qed.

(** A sub-score of 150 fails validation: the reply becomes the error
    result. *)
Example llm_score_150_rejected :
  match fst (llm_match_cv_job (py "cv") (py "job") (backend_replying (jtext
    "{'match': true, 'overall_score': 85, 'criteria_scores': {'skills': 150, 'experience': 80, 'location': 70, 'education': 70, 'certifications': 60}, 'explanation': 'Strong match'}"))) with
  | Ok r => error r = true /\ match_ r = false /\ overall_score r = 0
  | Raise _ => False
  end.
Proof. vm_compute. repeat split. Qed.

(** ** Witnesses *)

Lemma llm_upper_fence_rejected_witness :
  llm_match_cv_job (py "cv") (py "job") (backend_replying (py "```JSON {} ```")) =
    (Ok (error_result (JSONDecodeError (py "Expecting value") (strip (py "JSON" ++ py " {} ")) 0)),
     record_prompt (backend_replying (py "```JSON {} ```")) (py "CV: cv JOB: job")).
Proof.
  apply (llm_upper_fence_rejected _ _ _ (py "CV: {cv_text} JOB: {job_text}") _ [] (py " {} ") []);
    try constructor; vm_compute; reflexivity.
Defined.

Definition ex_backend : Backend := backend_replying (py "{}").

Lemma llm_match_cv_job_sound_witness :
  exists r, llm_match_cv_job (py "a") (py "b") ex_backend = (Ok r, record_prompt ex_backend (py "CV: a JOB: b")) /\
    result_ok r /\ cached r = false /\
    ((error r = false /\ processing_time_ms r = None) \/ exists e, r = error_result e).
Proof.
  apply (llm_match_cv_job_sound ex_backend (py "a") (py "b") (py "CV: {cv_text} JOB: {job_text}")); reflexivity.
Defined.

Lemma clean_response_fence_equiv_witness :
  clean_response (py " " ++ py "```json" ++ ([10] ++ (123 :: py "'a': 1" ++ [125]) ++ [10]) ++ py "```" ++ [10])
  = clean_response (123 :: py "'a': 1" ++ [125]) /\
  clean_response (123 :: py "'a': 1" ++ [125]) = 123 :: py "'a': 1" ++ [125].
Proof.
  apply clean_response_fence_equiv; apply (bool_decide_unpack _); vm_compute; reflexivity.
Defined.

(** The JSON text of the example result. *)
Definition ex_result_text : pystr :=
  match json_dumps (VDict (MatchResult_dump ex_result)) with Ok s => s | Raise _ => [] end.

Definition ex_fenced_backend : Backend :=
  backend_replying ([10] ++ py "```json" ++ ex_result_text ++ py "```" ++ [10]).

Lemma llm_match_cv_job_reply_witness :
  llm_match_cv_job (py "a") (py "b") ex_fenced_backend
  = (Ok (fresh_result ex_result), record_prompt ex_fenced_backend (py "CV: a JOB: b")).
Proof.
  apply (llm_match_cv_job_reply ex_fenced_backend (py "a") (py "b") (py "CV: {cv_text} JOB: {job_text}")
           (py "CV: a JOB: b") ex_result ex_result_text [10] [10]);
    try reflexivity; apply (bool_decide_unpack _); vm_compute; reflexivity.
Defined.

Lemma format_prompt_fields_witness :
  format_prompt (py "CV: " ++ py "{cv_text}" ++ py " JOB: " ++ py "{job_text}" ++ py ".") (py "{x}") (py "}")
  = Ok (py "CV: " ++ py "{x}" ++ py " JOB: " ++ py "}" ++ py ".").
Proof.
  apply format_prompt_fields; unfold no_braces; apply (bool_decide_unpack _); vm_compute; reflexivity.
Defined.
