(* ===== verification/CvParser.v ===== *)
(** * Text extraction of [app/services/cv_parser.py]

    [parse_file] chooses an extractor from the declared file type and runs
    it.  The PDF and DOCX libraries are oracles of an [Extractors] record:
    what PyMuPDF gives as the text of each page and what python-docx gives
    as the text of each paragraph, or the exception they raise.  Plain
    text is [bytes.decode('utf-8')], modelled in [Utf8]. *)

From stdpp Require Import base list decidable.
From Stdlib Require Import ZArith Lia.
From S2P Require Import Prelude PyStr PyVal Utf8.

Open Scope Z_scope.

Record Extractors : Type := mkExtractors {
  pdf_pages : list Z -> res exn (list pystr);        (** [page.get_text()] of each page *)
  docx_paragraphs : list Z -> res exn (list pystr)   (** [paragraph.text] of each paragraph *)
}.

Section Extract.
  Context (x : Extractors).

  (** [extract_text_from_pdf]: the pages' texts appended in order. *)
Definition extract_text_from_pdf (file_content : list Z) : res exn pystr :=
    pages ← pdf_pages x file_content;
    Ok (foldl (fun text page => text ++ page) [] pages).

  (** [extract_text_from_docx]: the paragraphs joined by newlines. *)
Definition extract_text_from_docx (file_content : list Z) : res exn pystr :=
    paragraphs ← docx_paragraphs x file_content;
    Ok (join_sep [10] paragraphs).

  (** [extract_text_from_text] *)
Definition extract_text_from_text (file_content : list Z) : res exn pystr :=
    utf8_decode file_content.

Definition docx_types : list pystr :=
    [py "application/vnd.openxmlformats-officedocument.wordprocessingml.document";
     py "application/msword"].
Definition text_types : list pystr := [py "text/plain"; py "text/markdown"].

  (** [file_type.endswith((a, b))] *)
Definition endswith_any (s : pystr) (ps : list pystr) : bool := existsb (endswith s) ps.

  (** [parse_file]: the MIME type is compared in lower case, the extension
      as written. *)
Definition parse_file (file_content : list Z) (file_type : pystr) : res exn pystr :=
    let file_type_lower := lower file_type in
    if str_eqb file_type_lower (py "application/pdf") || endswith file_type (py ".pdf") then
      extract_text_from_pdf file_content
    else if bool_decide (file_type_lower ∈ docx_types)
            || endswith_any file_type [py ".docx"; py ".doc"] then
      extract_text_from_docx file_content
    else if bool_decide (file_type_lower ∈ text_types)
            || endswith_any file_type [py ".txt"; py ".md"] then
      extract_text_from_text file_content
    else Raise (ValueError (py "Unsupported file type: " ++ file_type)).
End Extract.

(** ** Lemmas *)

Lemma endswith_lower (s p : pystr) : endswith s p = true -> endswith (lower s) (lower p) = true.
Proof.
  intros (t & ->)%endswith_spec. apply endswith_spec. exists (lower t). apply map_app.
Qed.

Lemma endswith_any_lower (s : pystr) (ps : list pystr) :
  endswith_any s ps = true -> endswith_any (lower s) (map lower ps) = true.
Proof.
  unfold endswith_any. rewrite !existsb_exists. intros (p & Hp & Hs).
  exists (lower p). split; [by apply in_map|]. by apply endswith_lower.
Qed.

(** C20: A file declared with a text MIME type, in any case, is decoded as
    UTF-8: its text is what was encoded. *)
Theorem parse_file_text x (s : pystr) (b : list Z) (file_type : pystr) :
  lower file_type ∈ text_types ->
  Forall (fun c => 0 <= c < 1114112) s -> utf8_encode s = Ok b ->
  parse_file x b file_type = Ok s.
Proof.
  intros Ht Hs Hb. unfold parse_file.
  destruct (endswith file_type (py ".pdf")) eqn:E1.
  { apply endswith_lower in E1. apply elem_of_cons in Ht as [Ht|Ht%list_elem_of_singleton];
      rewrite Ht in E1; discriminate. }
  destruct (endswith_any file_type [py ".docx"; py ".doc"]) eqn:E2.
  { apply endswith_any_lower in E2. apply elem_of_cons in Ht as [Ht|Ht%list_elem_of_singleton];
      rewrite Ht in E2; discriminate. }
  rewrite (bool_decide_eq_true_2 _ Ht).
  apply elem_of_cons in Ht as [Ht|Ht%list_elem_of_singleton]; rewrite Ht; simpl;
    by apply utf8_decode_encode.
Qed.

Lemma utf8_decode_from_error f pos b e : utf8_decode_from f pos b = Raise e -> is_value_error e = true.
Proof.
  revert pos b; induction f as [|f IH]; intros pos [|c b]; cbn [utf8_decode_from]; try discriminate.
  - by intros [= <-].
  - destruct (decode_one (c :: b)) as [[d t]|]; [|by intros [= <-]].
    intros [? | (s & Hs & ?)]%bind_eq_Raise; [by eapply IH | discriminate].
Qed.

(** [parse_file] raises only a [ValueError] (an unsupported type or bytes
    that are not UTF-8) or what a document library raised. *)
Lemma parse_file_error x b file_type e :
  parse_file x b file_type = Raise e ->
  is_value_error e = true \/ pdf_pages x b = Raise e \/ docx_paragraphs x b = Raise e.
Proof.
  unfold parse_file, extract_text_from_pdf, extract_text_from_docx, extract_text_from_text.
  destruct (_ || _); [intros [? | (? & ? & ?)]%bind_eq_Raise; [auto | discriminate]|].
  destruct (_ || _); [intros [? | (? & ? & ?)]%bind_eq_Raise; [auto | discriminate]|].
  destruct (_ || _); [intros ?%utf8_decode_from_error; auto|].
  intros [= <-]. by left.
Qed.

(** A name with a suffix no entry of a list has is not in it. *)
Lemma endswith_not_elem_of (u p : pystr) (l : list pystr) :
  endswith u p = true -> forallb (fun v => negb (endswith v p)) l = true -> bool_decide (u ∈ l) = false.
Proof.
  intros Hu Hl. apply bool_decide_eq_false_2. intros Hin.
  apply forallb_forall with (x := u) in Hl; [|by apply list_elem_of_In].
  rewrite Hu in Hl. discriminate.
Qed.

(** C21: The extension test is case-sensitive: any file name ending in a
    supported extension written in capitals ([CV.PDF], [notes.MD], ...),
    sent without a MIME type, is refused as an unsupported type, whatever
    its contents. *)
Theorem parse_file_upper_extension x (b : list Z) (stem ext : pystr) :
  ext ∈ [py ".PDF"; py ".DOCX"; py ".DOC"; py ".TXT"; py ".MD"] ->
  parse_file x b (stem ++ ext) = Raise (ValueError (py "Unsupported file type: " ++ stem ++ ext)).
Proof.
  intros Hext. unfold parse_file, endswith_any.
  assert (Hu : endswith (lower (stem ++ ext)) (lower ext) = true) by (unfold lower; rewrite map_app; apply endswith_app).
  repeat (apply elem_of_cons in Hext as [-> | Hext];
    [ rewrite (endswith_str_eqb_false _ _ _ Hu) by (vm_compute; reflexivity);
      rewrite !(endswith_not_elem_of _ _ _ Hu) by (vm_compute; reflexivity);
      cbn [existsb]; rewrite !endswith_last_neq by (vm_compute; congruence); reflexivity |]).
  by apply not_elem_of_nil in Hext.
Qed.

(** ** Witnesses *)

Definition ex_extractors : Extractors := mkExtractors (fun _ => Ok []) (fun _ => Ok []).

Lemma parse_file_upper_extension_witness :
  parse_file ex_extractors [37; 80; 68; 70] (py "CV.PDF") = Raise (ValueError (py "Unsupported file type: CV.PDF")).
Proof.
  change (py "CV.PDF") with (py "CV" ++ py ".PDF").
  apply parse_file_upper_extension. apply elem_of_cons. by left.
Defined.

Lemma parse_file_text_witness :
  parse_file ex_extractors [104; 195; 169; 108; 108; 111] (py "Text/Plain") = Ok [104; 233; 108; 108; 111].
Proof.
  apply parse_file_text; try (apply (bool_decide_unpack _)); vm_compute; reflexivity.
Defined.
