(* ===== verification/MatchingService.v ===== *)
(** * The match orchestrator of [app/services/matching_service.py]

    [MatchingService.match_cv_job] as a computation in the state monad
    over a [World]: the result cache (any [MatchCache], the SQLite store in
    production), the scoring backend of [LLMService], and the wall clock
    that [time.time()] and SQLite's [CURRENT_TIMESTAMP] read.  The clock is
    the sequence of its readings, in microseconds. *)

From stdpp Require Import base list gmap.
From Stdlib Require Import ZArith Lia.
From S2P Require Import Prelude PyStr PyVal Models ModelsJson Cache LLMService CvParser.

Open Scope Z_scope.

Record World (C : Type) : Type := mkWorld {
  w_cache : C;
  w_backend : Backend;
  w_clock : nat -> Z;   (** the wall clock at its n-th reading, in microseconds *)
  w_reads : nat         (** the readings taken so far *)
}.
Arguments mkWorld {C}.
Arguments w_cache {C}.
Arguments w_backend {C}.
Arguments w_clock {C}.
Arguments w_reads {C}.

Definition set_cache {C} (w : World C) (c : C) : World C :=
  mkWorld c (w_backend w) (w_clock w) (w_reads w).
Definition set_backend {C} (w : World C) (b : Backend) : World C :=
  mkWorld (w_cache w) b (w_clock w) (w_reads w).

(** [time.time()] *)
Definition time_time {C} : st (World C) exn Z :=
  fun w => (Ok (w_clock w (w_reads w)), mkWorld (w_cache w) (w_backend w) (w_clock w) (S (w_reads w))).

(** A computation of the backend adapter, run on the world's backend. *)
Definition on_backend {C A} (m : st Backend exn A) : st (World C) exn A :=
  fun w => let '(r, b) := m (w_backend w) in (r, set_backend w b).

(** [int((time.time() - start_time) * 1000)]: [int] truncates toward zero. *)
Definition elapsed_ms (start_time now : Z) : Z := Z.quot (now - start_time) 1000.

(** [m.processing_time_ms = ms] *)
Definition set_processing_time (m : MatchResult) (ms : Z) : MatchResult :=
  mkMatchResult (match_ m) (overall_score m) (criteria_scores m) (explanation m)
    (cached m) (Some ms) (error m).

(** [m.cached = True] then [m.processing_time_ms = ms] *)
Definition mark_cached (m : MatchResult) (ms : Z) : MatchResult :=
  mkMatchResult (match_ m) (overall_score m) (criteria_scores m) (explanation m)
    true (Some ms) (error m).

Section Orchestrator.
  Context {C : Type} `{!MatchCache C} (x : Extractors).

  (** [db.cache_match(cv_text, job_text, match_result)]: SQLite reads the
      clock for [CURRENT_TIMESTAMP]. *)
Definition store (cv_text job_text : pystr) (match_result : MatchResult) : st (World C) exn unit :=
    (now <- time_time ;;
     w <- st_get ;;
     c <- st_lift (cache_put (w_cache w) now cv_text job_text match_result) ;;
     st_put (set_cache w c))%st.

  (** [MatchingService.match_cv_job] *)
Definition match_cv_job (cv_file_content : list Z) (cv_file_type : pystr)
      (job_file_content : list Z) (job_file_type : pystr) : st (World C) exn MatchResult :=
    (start_time <- time_time ;;
     cv_text <- st_lift (parse_file x cv_file_content cv_file_type) ;;
     job_text <- st_lift (parse_file x job_file_content job_file_type) ;;
     w <- st_get ;;
     cached_match <- st_lift (cache_get (w_cache w) cv_text job_text) ;;
     match cached_match with
     | Some m =>
         t <- time_time ;;
         st_ret (mark_cached m (elapsed_ms start_time t))
     | None =>
         match_result <- on_backend (llm_match_cv_job cv_text job_text) ;;
         t <- time_time ;;
         let match_result := set_processing_time match_result (elapsed_ms start_time t) in
         (if negb (error match_result) then store cv_text job_text match_result
          else st_ret tt) ;;
         st_ret match_result
     end)%st.
End Orchestrator.

(** ** How a call runs *)

(** The world after [k] more clock readings. *)
Definition advance {C} (w : World C) (k : nat) : World C :=
  mkWorld (w_cache w) (w_backend w) (w_clock w) (w_reads w + k).

(** The clock reading [k] readings from now. *)
Definition reading {C} (w : World C) (k : nat) : Z := w_clock w (w_reads w + k).

Section Run.
  Context {C : Type} `{!MatchCache C} (x : Extractors).
  Context (cvb jb : list Z) (cvt jt cv job : pystr) (w : World C).
  Hypothesis Hcv : parse_file x cvb cvt = Ok cv.
  Hypothesis Hjob : parse_file x jb jt = Ok job.

  (** A hit: the stored result marked as cached; two clock readings, and
      neither the backend nor the cache is touched. *)
Lemma match_cv_job_run_hit m :
    cache_get (w_cache w) cv job = Ok (Some m) ->
    match_cv_job x cvb cvt jb jt w =
      (Ok (mark_cached m (elapsed_ms (reading w 0) (reading w 1))), advance w 2).
  Proof.
    intros Hget. unfold match_cv_job, st_bind, st_lift, st_get, st_ret, time_time.
    cbn [w_cache w_backend w_clock w_reads]. rewrite Hcv, Hjob, Hget.
    unfold reading, advance. by rewrite ?Nat.add_succ_r, ?Nat.add_0_r.
  Qed.

  (** A miss: the adapter runs on the backend; its result, timed, is
      stored when it is not an error. *)
Lemma match_cv_job_run_miss r b' :
    cache_get (w_cache w) cv job = Ok None ->
    llm_match_cv_job cv job (w_backend w) = (Ok r, b') ->
    let r' := set_processing_time r (elapsed_ms (reading w 0) (reading w 1)) in
    let w' := set_backend (advance w 2) b' in
    match_cv_job x cvb cvt jb jt w =
      if error r then (Ok r', w')
      else match cache_put (w_cache w) (reading w 2) cv job r' with
           | Ok c' => (Ok r', set_cache (advance w' 1) c')
           | Raise e => (Raise e, advance w' 1)
           end.
  Proof.
    intros Hget Hllm. unfold match_cv_job, st_bind, st_lift, st_get, st_ret, time_time, on_backend.
    cbn [w_cache w_backend w_clock w_reads]. rewrite Hcv, Hjob, Hget.
    cbn [w_cache w_backend w_clock w_reads]. rewrite Hllm.
    unfold set_processing_time at 1. cbn [error].
    unfold reading, advance, set_backend, set_cache, store, st_bind, time_time, st_get, st_lift, st_put.
    cbn. rewrite ?Nat.add_succ_r, ?Nat.add_0_r.
    destruct (error r); cbn; [done|]. by destruct (cache_put _ _ _ _ _).
  Qed.
End Run.

Section Faults.
  Context {C : Type} `{!MatchCache C} (x : Extractors).
  Context (cvb jb : list Z) (cvt jt cv job : pystr) (w : World C).
  Hypothesis Hcv : parse_file x cvb cvt = Ok cv.
  Hypothesis Hjob : parse_file x jb jt = Ok job.

  (** A storage fault on the read escapes the orchestrator. *)
Lemma match_cv_job_run_cache_fault e :
    cache_get (w_cache w) cv job = Raise e -> match_cv_job x cvb cvt jb jt w = (Raise e, advance w 1).
  Proof.
    intros Hget. unfold match_cv_job, st_bind, st_lift, st_get, time_time.
    cbn [w_cache w_backend w_clock w_reads]. rewrite Hcv, Hjob, Hget.
    unfold advance. by rewrite Nat.add_1_r.
  Qed.

  (** An exception of the adapter (its prompt) escapes the orchestrator. *)
Lemma match_cv_job_run_backend_raise e b' :
    cache_get (w_cache w) cv job = Ok None ->
    llm_match_cv_job cv job (w_backend w) = (Raise e, b') ->
    match_cv_job x cvb cvt jb jt w = (Raise e, set_backend (advance w 1) b').
  Proof.
    intros Hget Hllm. unfold match_cv_job, st_bind, st_lift, st_get, time_time, on_backend.
    cbn [w_cache w_backend w_clock w_reads]. rewrite Hcv, Hjob, Hget.
    cbn [w_cache w_backend w_clock w_reads]. rewrite Hllm.
    unfold advance, set_backend. by rewrite Nat.add_1_r.
  Qed.
End Faults.

(** A file that cannot be parsed is rejected before the cache or the
    backend is used. *)
Lemma match_cv_job_run_parse_error {C} `{!MatchCache C} x cvb cvt jb jt (w : World C) e :
  (parse_file x cvb cvt = Raise e \/
   exists cv, parse_file x cvb cvt = Ok cv /\ parse_file x jb jt = Raise e) ->
  match_cv_job x cvb cvt jb jt w = (Raise e, advance w 1).
Proof.
  unfold match_cv_job, st_bind, st_lift, st_get, time_time, advance. rewrite Nat.add_1_r.
  intros [He | (cv & Hcv & He)]; cbn [w_cache w_backend w_clock w_reads]; [by rewrite He|].
  by rewrite Hcv, He.
Qed.

(** Every call leaves the cache as it was, or stores one well-formed
    result that is not an error, under the key of its texts, and returns
    it. *)
Lemma match_cv_job_cases {C} `{!MatchCache C} x cvb cvt jb jt (w : World C) res w' :
  match_cv_job x cvb cvt jb jt w = (res, w') ->
  w_cache w' = w_cache w \/
  exists cv job r c, error r = false /\ result_ok r /\ res = Ok r /\ w_cache w' = c /\
    cache_put (w_cache w) (reading w 2) cv job r = Ok c.
Proof.
  destruct (parse_file x cvb cvt) as [cv|e] eqn:Hcv;
    [|rewrite (match_cv_job_run_parse_error x cvb cvt jb jt w e) by eauto; intros [= _ <-]; by left].
  destruct (parse_file x jb jt) as [job|e] eqn:Hjob;
    [|rewrite (match_cv_job_run_parse_error x cvb cvt jb jt w e) by eauto; intros [= _ <-]; by left].
  destruct (cache_get (w_cache w) cv job) as [[m|]|e] eqn:Hget.
  - rewrite (match_cv_job_run_hit x cvb jb cvt jt cv job w Hcv Hjob m Hget). intros [= _ <-]. by left.
  - destruct (llm_match_cv_job cv job (w_backend w)) as [[r|e] b'] eqn:Hllm.
    + rewrite (match_cv_job_run_miss x cvb jb cvt jt cv job w Hcv Hjob r b' Hget Hllm).
      apply llm_match_cv_job_Ok in Hllm as [Hr _].
      destruct (error r) eqn:Herr; [intros [= _ <-]; by left|].
      destruct (cache_put _ _ _ _ _) as [c|e] eqn:Hput; intros [= <- <-]; [|by left].
      right. exists cv, job, (set_processing_time r (elapsed_ms (reading w 0) (reading w 1))), c.
      split_and!; [exact Herr | exact Hr | done | done | exact Hput].
    + rewrite (match_cv_job_run_backend_raise x cvb jb cvt jt cv job w Hcv Hjob e b' Hget Hllm).
      intros [= _ <-]. by left.
  - rewrite (match_cv_job_run_cache_fault x cvb jb cvt jt cv job w Hcv Hjob e Hget).
    intros [= _ <-]. by left.
Qed.

(** What a call that returns gives: the result served from the cache for
    its texts and marked as cached, or a fresh one; in both cases timed
    between the first two clock readings. *)
Lemma match_cv_job_Ok {C} `{!MatchCache C} x cvb cvt jb jt (w : World C) r w' :
  match_cv_job x cvb cvt jb jt w = (Ok r, w') ->
  processing_time_ms r = Some (elapsed_ms (reading w 0) (reading w 1)) /\
  exists cv job, parse_file x cvb cvt = Ok cv /\ parse_file x jb jt = Ok job /\
    ((exists m, cache_get (w_cache w) cv job = Ok (Some m) /\
                r = mark_cached m (elapsed_ms (reading w 0) (reading w 1)) /\ w' = advance w 2)
     \/ (cache_get (w_cache w) cv job = Ok None /\ cached r = false /\ result_ok r)).
Proof.
  destruct (parse_file x cvb cvt) as [cv|e] eqn:Hcv;
    [|by rewrite (match_cv_job_run_parse_error x cvb cvt jb jt w e) by eauto].
  destruct (parse_file x jb jt) as [job|e] eqn:Hjob;
    [|by rewrite (match_cv_job_run_parse_error x cvb cvt jb jt w e) by eauto].
  destruct (cache_get (w_cache w) cv job) as [[m|]|e] eqn:Hget.
  - rewrite (match_cv_job_run_hit x cvb jb cvt jt cv job w Hcv Hjob m Hget).
    intros [= <- <-]. split; [done|]. eauto 10.
  - destruct (llm_match_cv_job cv job (w_backend w)) as [[r0|e] b'] eqn:Hllm.
    + rewrite (match_cv_job_run_miss x cvb jb cvt jt cv job w Hcv Hjob r0 b' Hget Hllm).
      apply llm_match_cv_job_Ok in Hllm as [Hr Hc].
      destruct (error r0); [|destruct (cache_put _ _ _ _ _); [|discriminate]].
      all: intros [= <- _]; split; [done|]; exists cv, job; split; [done|]; split; [done|].
      all: right; split; [done|]; split; [exact Hc | exact Hr].
    + by rewrite (match_cv_job_run_backend_raise x cvb jb cvt jt cv job w Hcv Hjob e b' Hget Hllm).
  - by rewrite (match_cv_job_run_cache_fault x cvb jb cvt jt cv job w Hcv Hjob e Hget).
Qed.

(** ** The orchestrator's properties *)

(** C1: A cache hit is served from the cache, marked as cached, without a
    call to the backend or a write to the cache. *)
Theorem match_cv_job_cache_hit {C} `{!MatchCache C} x cvb cvt jb jt cv job (w : World C) m :
  parse_file x cvb cvt = Ok cv -> parse_file x jb jt = Ok job ->
  cache_get (w_cache w) cv job = Ok (Some m) ->
  exists r w', match_cv_job x cvb cvt jb jt w = (Ok r, w') /\
    cached r = true /\ w_backend w' = w_backend w /\ w_cache w' = w_cache w /\
    (match_ r, overall_score r, criteria_scores r, explanation r, error r)
    = (match_ m, overall_score m, criteria_scores m, explanation m, error m).
Proof.
  intros Hcv Hjob Hget. rewrite (match_cv_job_run_hit x cvb jb cvt jt cv job w Hcv Hjob m Hget).
  by do 2 eexists.
Qed.

(** The cache with the list of every result written to it. *)
#[export] Instance logged_cache {C} `{!MatchCache C} : MatchCache (C * list MatchResult) := {
  cache_get c cv job := cache_get c.1 cv job;
  cache_put c now cv job r := c' ← cache_put c.1 now cv job r; Ok (c', c.2 ++ [r])
}.

(** C2: The orchestrator never writes an error result to the cache. *)
Theorem match_cv_job_never_stores_error {C} `{!MatchCache C} x cvb cvt jb jt
    (w : World (C * list MatchResult)) res w' :
  match_cv_job x cvb cvt jb jt w = (res, w') ->
  exists stored, (w_cache w').2 = (w_cache w).2 ++ stored /\ Forall (fun r => error r = false) stored.
Proof.
  intros [-> | (cv & job & r & c & Herr & _ & _ & -> & Hput)]%match_cv_job_cases.
  - exists []. by rewrite app_nil_r.
  - cbn in Hput. apply bind_eq_Ok in Hput as (c1 & _ & [= <-]). cbn.
    exists [r]. split; [done|]. by constructor.
Qed.

Section WithLaws.
  Context {C : Type} `{!MatchCache C} `{!MatchCacheLaws C} (x : Extractors).

  (** C5: No call makes the cache serve an error result, provided a result it
      stores has an explanation of Unicode scalar values. *)
Theorem match_cv_job_serves_no_error cvb cvt jb jt (w : World C) res w' :
    serves_only (fun r => error r = false) (w_cache w) ->
    match_cv_job x cvb cvt jb jt w = (res, w') ->
    (forall r, res = Ok r -> error r = false -> Forall valid_char (explanation r)) ->
    serves_only (fun r => error r = false) (w_cache w').
  Proof.
    intros Hinv Hrun Hx. apply match_cv_job_cases in Hrun as [-> | (cv & job & r & c & He & Hr & -> & -> & Hput)];
      [done|].
    eapply serves_only_put; [exact Hinv | split; [exact Hr | by apply Hx] | exact He | exact Hput].
  Qed.

  (** C6: A result marked as cached is never an error result, while the cache
      serves none. *)
Theorem match_cv_job_cached_not_error cvb cvt jb jt (w : World C) r w' :
    serves_only (fun r => error r = false) (w_cache w) ->
    match_cv_job x cvb cvt jb jt w = (Ok r, w') -> cached r = true -> error r = false.
  Proof.
    intros Hinv (_ & cv & job & _ & _ & [(m & Hget & -> & _) | (_ & Hc & _)])%match_cv_job_Ok Hcached.
    - exact (Hinv _ _ _ Hget).
    - congruence.
  Qed.

  (** After a call that returns a result that is not an error, the cache
      serves, for the call's texts, a result equal to it up to the
      [cached] flag and the processing time. *)
Lemma match_cv_job_cached cvb cvt jb jt (w w1 : World C) r1 :
    match_cv_job x cvb cvt jb jt w = (Ok r1, w1) -> error r1 = false ->
    Forall valid_char (explanation r1) ->
    exists cv job m, parse_file x cvb cvt = Ok cv /\ parse_file x jb jt = Ok job /\
      cache_get (w_cache w1) cv job = Ok (Some m) /\ forall ms, mark_cached m ms = mark_cached r1 ms.
  Proof.
    intros Hrun Herr Hx. pose proof Hrun as (_ & cv & job & Hcv & Hjob & Hpath)%match_cv_job_Ok.
    exists cv, job. destruct Hpath as [(m & Hget & -> & ->) | (Hget & _ & Hr)].
    - exists m. by split_and!.
    - destruct (llm_match_cv_job cv job (w_backend w)) as [[r0|e] b'] eqn:Hllm;
        [|by rewrite (match_cv_job_run_backend_raise x cvb jb cvt jt cv job w Hcv Hjob e b' Hget Hllm)
            in Hrun].
      rewrite (match_cv_job_run_miss x cvb jb cvt jt cv job w Hcv Hjob r0 b' Hget Hllm) in Hrun.
      apply llm_match_cv_job_Ok in Hllm as [Hr0 _].
      destruct (error r0) eqn:E0; [injection Hrun as <- _; cbn in Herr; congruence|].
      destruct (cache_put _ _ _ _ _) as [c|e] eqn:Hput; [|discriminate].
      injection Hrun as <- <-. eexists. split_and!; [done | done | | done].
      eapply cache_get_put; [split; [exact Hr0 | exact Hx] | exact Hput].
  Qed.

  (** C3: The same files matched twice: the second call is served from the
      cache with the first call's result, and the backend is not called
      again. *)
Theorem match_cv_job_twice cvb cvt jb jt (w w1 : World C) r1 :
    match_cv_job x cvb cvt jb jt w = (Ok r1, w1) -> error r1 = false ->
    Forall valid_char (explanation r1) ->
    exists ms, match_cv_job x cvb cvt jb jt w1 = (Ok (mark_cached r1 ms), advance w1 2).
  Proof.
    intros Hrun Herr Hx.
    destruct (match_cv_job_cached _ _ _ _ _ _ _ Hrun Herr Hx) as (cv & job & m & Hcv & Hjob & Hget & Hm).
    eexists. rewrite (match_cv_job_run_hit x cvb jb cvt jt cv job w1 Hcv Hjob m Hget), Hm. reflexivity.
  Qed.
End WithLaws.

(** C4: A backend fault or an unusable reply is contained: the call returns
    the error result, timed, and the cache is not written. *)
Theorem match_cv_job_backend_fault {C} `{!MatchCache C} x cvb cvt jb jt cv job (w : World C) t p e :
  parse_file x cvb cvt = Ok cv -> parse_file x jb jt = Ok job ->
  cache_get (w_cache w) cv job = Ok None ->
  prompt_file (w_backend w) = Ok t -> format_prompt t cv job = Ok p ->
  try_body (replies (w_backend w) (length (sent (w_backend w)))) = Raise e ->
  exists w', match_cv_job x cvb cvt jb jt w =
    (Ok (set_processing_time (error_result e) (elapsed_ms (reading w 0) (reading w 1))), w') /\
    w_cache w' = w_cache w.
Proof.
  intros Hcv Hjob Hget Ht Hp He.
  pose proof (llm_match_cv_job_call (w_backend w) cv job t p Ht Hp) as Hllm.
  rewrite He in Hllm. cbn [outcome] in Hllm.
  rewrite (match_cv_job_run_miss x cvb jb cvt jt cv job w Hcv Hjob _ _ Hget Hllm). by eexists.
Qed.

Lemma elapsed_ms_nonneg (s t : Z) : s <= t -> 0 <= elapsed_ms s t.
Proof. intros H. unfold elapsed_ms. apply Z.quot_pos; lia. Qed.

(** C22: With a clock that never goes back, the processing time is never
    negative. *)
Theorem match_cv_job_time_nonneg {C} `{!MatchCache C} x cvb cvt jb jt (w : World C) r w' :
  (forall n, w_clock w n <= w_clock w (S n)) ->
  match_cv_job x cvb cvt jb jt w = (Ok r, w') ->
  exists ms, processing_time_ms r = Some ms /\ 0 <= ms.
Proof.
  intros Hmono [Ht _]%match_cv_job_Ok. eexists; split; [exact Ht|].
  apply elapsed_ms_nonneg. unfold reading. rewrite Nat.add_0_r, Nat.add_1_r. apply Hmono.
Qed.

(** ** Witnesses: the scenario of the specification on the reference cache *)

Definition ex_cv_text : pystr := py "5 years Python, AWS".
Definition ex_job_text : pystr := py "Looking for Python engineer, AWS required".

(** The stub backend: every call gets the same reply. *)
Definition ex_stub : Backend := backend_replying (jtext
  "{'match': true, 'overall_score': 85, 'criteria_scores': {'skills': 90, 'experience': 80, 'location': 70, 'education': 70, 'certifications': 60}, 'explanation': 'Strong match'}").

(** A clock that advances 1.5 ms per reading. *)
Definition ex_clock (n : nat) : Z := 1700000000000000 + Z.of_nat n * 1500.

Definition ex_world (c : PairCache) (b : Backend) : World PairCache := mkWorld c b ex_clock 0.

(** The call of the scenario: both files are plain text (ASCII, so their
    bytes are their code points). *)
Definition ex_call {C} `{!MatchCache C} : st (World C) exn MatchResult :=
  match_cv_job ex_extractors ex_cv_text (py "text/plain") ex_job_text (py "text/plain").

Lemma match_cv_job_cache_hit_witness :
  exists r w', ex_call (ex_world {[(ex_cv_text, ex_job_text) := ex_result]} ex_stub) = (Ok r, w') /\
    cached r = true /\ w_backend w' = ex_stub /\ w_cache w' = {[(ex_cv_text, ex_job_text) := ex_result]} /\
    (match_ r, overall_score r, criteria_scores r, explanation r, error r)
    = (match_ ex_result, overall_score ex_result, criteria_scores ex_result, explanation ex_result,
       error ex_result).
Proof.
  exact (match_cv_job_cache_hit ex_extractors ex_cv_text (py "text/plain") ex_job_text (py "text/plain")
           ex_cv_text ex_job_text (ex_world {[(ex_cv_text, ex_job_text) := ex_result]} ex_stub) ex_result
           ltac:(vm_compute; reflexivity) ltac:(vm_compute; reflexivity) ltac:(vm_compute; reflexivity)).
Defined.

Lemma match_cv_job_never_stores_error_witness :
  let w := mkWorld ((∅ : PairCache), []) ex_stub ex_clock 0 in
  let '(res, w') := ex_call w in
  exists stored, (w_cache w').2 = (w_cache w).2 ++ stored /\ Forall (fun r => error r = false) stored.
Proof.
  cbv zeta. destruct (ex_call _) as [res w'] eqn:E.
  exact (match_cv_job_never_stores_error _ _ _ _ _ _ _ _ E).
Defined.

(** The first call of the scenario returns the stub's scores, fresh. *)
Definition ex_first : MatchResult :=
  mkMatchResult true 85 (mkCriteriaScores 90 80 70 70 60) (py "Strong match") false (Some 1) false.

Lemma ex_first_fst : fst (ex_call (ex_world ∅ ex_stub)) = Ok ex_first.
Proof. vm_compute. reflexivity. Qed.

Lemma ex_first_run : exists w1, ex_call (ex_world ∅ ex_stub) = (Ok ex_first, w1).
Proof.
  pose proof ex_first_fst as H. destruct (ex_call (ex_world ∅ ex_stub)) as [r w1].
  cbn in H. subst. eauto.
Qed.

Lemma ex_hit_fst :
  fst (ex_call (ex_world {[(ex_cv_text, ex_job_text) := ex_result]} ex_stub)) = Ok (mark_cached ex_result 1).
Proof. vm_compute. reflexivity. Qed.

Lemma match_cv_job_twice_witness :
  exists w1 ms, ex_call (ex_world ∅ ex_stub) = (Ok ex_first, w1) /\
    ex_call w1 = (Ok (mark_cached ex_first ms), advance w1 2).
Proof.
  destruct ex_first_run as [w1 E]. exists w1.
  destruct (match_cv_job_twice ex_extractors ex_cv_text (py "text/plain") ex_job_text (py "text/plain")
              (ex_world ∅ ex_stub) w1 ex_first E eq_refl ltac:(apply (bool_decide_unpack _); vm_compute; reflexivity)) as [ms H].
  exists ms. split; [exact E | exact H].
Defined.

(** A backend whose calls all fail. *)
Definition ex_down : Backend :=
  mkBackend (Ok (py "CV: {cv_text} JOB: {job_text}")) (fun _ => CallFails (APIError (py "Connection error."))) (Ok tt) [].

Lemma match_cv_job_backend_fault_witness :
  exists w', ex_call (ex_world ∅ ex_down) =
    (Ok (set_processing_time (error_result (APIError (py "Connection error.")))
           (elapsed_ms (reading (ex_world ∅ ex_down) 0) (reading (ex_world ∅ ex_down) 1))), w') /\
    w_cache w' = w_cache (ex_world ∅ ex_down).
Proof.
  exact (match_cv_job_backend_fault ex_extractors ex_cv_text (py "text/plain") ex_job_text (py "text/plain")
           ex_cv_text ex_job_text (ex_world ∅ ex_down) (py "CV: {cv_text} JOB: {job_text}")
           (py "CV: 5 years Python, AWS JOB: Looking for Python engineer, AWS required")
           (APIError (py "Connection error."))
           ltac:(vm_compute; reflexivity) ltac:(vm_compute; reflexivity) ltac:(vm_compute; reflexivity)
           ltac:(vm_compute; reflexivity) ltac:(vm_compute; reflexivity) ltac:(vm_compute; reflexivity)).
Defined.

Lemma serves_only_empty (P : MatchResult -> Prop) : serves_only P (∅ : PairCache).
Proof. intros cv job r. cbn [cache_get pair_cache]. by rewrite lookup_empty. Qed.

Lemma match_cv_job_serves_no_error_witness :
  exists w1, ex_call (ex_world ∅ ex_stub) = (Ok ex_first, w1) /\
    serves_only (fun r => error r = false) (w_cache w1).
Proof.
  destruct ex_first_run as [w1 E]. exists w1. split; [exact E|].
  apply (match_cv_job_serves_no_error ex_extractors ex_cv_text (py "text/plain") ex_job_text (py "text/plain")
           (ex_world ∅ ex_stub) (Ok ex_first) w1 (serves_only_empty _) E).
  intros r [= <-] _. apply (bool_decide_unpack _). vm_compute. reflexivity.
Defined.

Lemma serves_only_singleton (P : MatchResult -> Prop) k r : P r -> serves_only P ({[k := r]} : PairCache).
Proof.
  intros Hr cv job r'. cbn [cache_get pair_cache]. intros [= H].
  by apply lookup_singleton_Some in H as [_ <-].
Qed.

Lemma match_cv_job_cached_not_error_witness :
  exists r w', ex_call (ex_world {[(ex_cv_text, ex_job_text) := ex_result]} ex_stub) = (Ok r, w') /\
    cached r = true /\ error r = false.
Proof.
  pose proof ex_hit_fst as H.
  destruct (ex_call (ex_world {[(ex_cv_text, ex_job_text) := ex_result]} ex_stub)) as [res w'] eqn:E.
  cbn in H. subst res. exists (mark_cached ex_result 1), w'. split_and!; [done | done |].
  exact (match_cv_job_cached_not_error ex_extractors ex_cv_text (py "text/plain") ex_job_text (py "text/plain")
           (ex_world {[(ex_cv_text, ex_job_text) := ex_result]} ex_stub) (mark_cached ex_result 1) w'
           (serves_only_singleton _ _ _ eq_refl) E eq_refl).
Defined.

Lemma match_cv_job_time_nonneg_witness :
  exists ms, processing_time_ms ex_first = Some ms /\ 0 <= ms.
Proof.
  destruct ex_first_run as [w1 E].
  exact (match_cv_job_time_nonneg ex_extractors ex_cv_text (py "text/plain") ex_job_text (py "text/plain")
           (ex_world ∅ ex_stub) ex_first w1 ltac:(intros n; cbn; unfold ex_clock; lia) E).
Defined.
