(* ===== verification/Endpoints.v ===== *)
(** * The handlers of [app/api/endpoints.py]

    The [/match] handler with its exception mapping and the [/health]
    handler, over the production world: the SQLite store of [Database] as
    the orchestrator's cache.  A JSON response is a status code and a
    body as a Python value; FastAPI renders an [HTTPException] as
    [{"detail": ...}].  The application of [app/main.py] is in [App]. *)

From stdpp Require Import base list gmap.
From Stdlib Require Import ZArith Lia.
From S2P Require Import Prelude PyStr PyVal Models Cache Database LLMService CvParser MatchingService.

Open Scope Z_scope.

(** A [fastapi.UploadFile]: its name and declared type may be absent. *)
Record UploadFile : Type := mkUploadFile {
  filename : option pystr;
  content_type : option pystr;
  file_bytes : list Z
}.

(** Python truth of an optional string. *)
Definition truthy (s : option pystr) : bool :=
  match s with Some (_ :: _) => true | _ => false end.

(** [a or b] on optional strings. *)
Definition or_str (a b : option pystr) : option pystr := if truthy a then a else b.

(** What FastAPI sends: a JSON body, an HTML page (by its title), a
    redirection (by the path it points to) or plain text. *)
Inductive response : Type :=
| Response (status : Z) (body : pyval)
| Html (status : Z) (title : pystr)
| Redirect (status : Z) (location : pystr)
| PlainText (status : Z) (text : pystr).

Section Handlers.
  Context (x : Extractors).

  (** The body of the [try] of [match_cv_job] (lines 20 to 40). *)
Definition match_body (cv job_description : UploadFile) : st (World Db) exn (list (pystr * pyval)) :=
    (let cv_content := file_bytes cv in
     let job_content := file_bytes job_description in
     if negb (truthy (filename cv)) && negb (truthy (content_type cv)) then
       st_raise (HTTPException 400 (py "CV file is required"))
     else if negb (truthy (filename job_description)) && negb (truthy (content_type job_description)) then
       st_raise (HTTPException 400 (py "Job description file is required"))
     else
       match or_str (content_type cv) (filename cv), or_str (content_type job_description) (filename job_description) with
       | Some cvt, Some jt =>
           result <- match_cv_job x cv_content cvt job_content jt ;;
           st_ret (MatchResult_dump result)
       | _, _ => st_raise (AttributeError (py "'NoneType' object has no attribute 'lower'"))
       end)%st.

  (** The two [except] clauses: a [ValueError] becomes a 400, any other
      exception, an [HTTPException] included, a 500. *)
Definition match_handler_exn (e : exn) : exn :=
    if is_value_error e then HTTPException 400 (exn_str e)
    else HTTPException 500 (py "Internal server error: " ++ exn_str e).

  (** The [/match] route: the handler and FastAPI's rendering of its
      outcome. *)
Definition match_endpoint (cv job_description : UploadFile) (w : World Db) : response * World Db :=
    let '(r, w') := match_body cv job_description w in
    match r with
    | Ok d => (Response 200 (VDict d), w')
    | Raise e =>
        match match_handler_exn e with
        | HTTPException s d => (Response s (VDict [(py "detail", VStr d)]), w')
        | _ => (Response 500 (VStr (py "Internal Server Error")), w')
        end
    end.
End Handlers.

(** [/health] *)
Definition health_endpoint (b : Backend) : response :=
  let llm_available := health_check b in
  Response 200 (VDict [(py "status", VStr (if llm_available then py "healthy" else py "degraded"));
                       (py "llm_available", VBool llm_available)]).

(** ** Properties of the HTTP layer *)

Section MatchEndpoint.
  Context (x : Extractors) (cv job : UploadFile) (w : World Db).

Lemma match_endpoint_raise e w' :
    match_body x cv job w = (Raise e, w') ->
    match_endpoint x cv job w =
      (if is_value_error e then Response 400 (VDict [(py "detail", VStr (exn_str e))])
       else Response 500 (VDict [(py "detail", VStr (py "Internal server error: " ++ exn_str e))]), w').
  Proof.
    intros H. unfold match_endpoint. rewrite H. unfold match_handler_exn. by destruct (is_value_error e).
  Qed.

  (** C23: A request without a CV name or type is answered 500, not 400: the
      [HTTPException] raised inside the [try] is caught by the generic
      handler. *)
Theorem match_endpoint_missing_cv :
    truthy (filename cv) = false -> truthy (content_type cv) = false ->
    match_endpoint x cv job w =
      (Response 500 (VDict [(py "detail", VStr (py "Internal server error: 400: CV file is required"))]), w).
  Proof.
    intros Hf Hc. rewrite (match_endpoint_raise (HTTPException 400 (py "CV file is required")) w).
    - reflexivity.
    - unfold match_body, st_raise. by rewrite Hf, Hc.
  Qed.

  Context (cvt jt : pystr).
  Hypothesis Hcvt : or_str (content_type cv) (filename cv) = Some cvt.
  Hypothesis Hjt : or_str (content_type job) (filename job) = Some jt.

Lemma or_str_truthy a b t : or_str a b = Some t -> t <> [] -> truthy a || truthy b = true.
  Proof. unfold or_str. intros H Ht. destruct a as [[|? ?]|], b as [[|? ?]|]; simpl in *; congruence. Qed.

Lemma guard_false a b : truthy a || truthy b = true -> negb (truthy b) && negb (truthy a) = false.
  Proof. by destruct (truthy a), (truthy b). Qed.

Lemma match_body_run (Hcv : cvt <> []) (Hj : jt <> []) :
    match_body x cv job w =
      (let '(r, w') := match_cv_job x (file_bytes cv) cvt (file_bytes job) jt w in
       (r ≫= fun result => Ok (MatchResult_dump result), w')).
  Proof.
    unfold match_body.
    rewrite (guard_false _ _ (or_str_truthy _ _ _ Hcvt Hcv)), (guard_false _ _ (or_str_truthy _ _ _ Hjt Hj)).
    rewrite Hcvt, Hjt. unfold st_bind, st_ret.
    by destruct (match_cv_job x (file_bytes cv) cvt (file_bytes job) jt w) as [[r|e] w'].
  Qed.

Lemma match_endpoint_run (Hcv : cvt <> []) (Hj : jt <> []) :
    match_endpoint x cv job w =
      (let '(r, w') := match_cv_job x (file_bytes cv) cvt (file_bytes job) jt w in
       match r with
       | Ok result => (Response 200 (VDict (MatchResult_dump result)), w')
       | Raise e => match_endpoint x cv job w
       end).
  Proof.
    destruct (match_cv_job x (file_bytes cv) cvt (file_bytes job) jt w) as [[r|e] w'] eqn:E; [|done].
    unfold match_endpoint. rewrite (match_body_run Hcv Hj), E. done.
  Qed.

  (** C24: A file that cannot be parsed (an unsupported type, bytes that are not
      UTF-8) is answered 400 with the error's message, and nothing else
      happens. *)
Theorem match_endpoint_parse_error (Hcv : cvt <> []) (Hj : jt <> []) e :
    (parse_file x (file_bytes cv) cvt = Raise e \/
     exists s, parse_file x (file_bytes cv) cvt = Ok s /\ parse_file x (file_bytes job) jt = Raise e) ->
    is_value_error e = true ->
    match_endpoint x cv job w = (Response 400 (VDict [(py "detail", VStr (exn_str e))]), advance w 1).
  Proof.
    intros Hp Hv. rewrite (match_endpoint_raise e (advance w 1)), Hv; [done|].
    rewrite (match_body_run Hcv Hj), (match_cv_job_run_parse_error x _ _ _ _ w e Hp). done.
  Qed.

  (** A match that completes is answered 200 with the result's
      [model_dump()]. *)
Lemma match_endpoint_ok (Hcv : cvt <> []) (Hj : jt <> []) r w' :
    match_cv_job x (file_bytes cv) cvt (file_bytes job) jt w = (Ok r, w') ->
    match_endpoint x cv job w = (Response 200 (VDict (MatchResult_dump r)), w').
  Proof. intros E. by rewrite (match_endpoint_run Hcv Hj), E. Qed.
End MatchEndpoint.

(** C25: A storage fault fails the request with 500 instead of letting the
    match go on without the cache. *)
Theorem match_endpoint_storage_fault x cv job (w : World Db) cvt jt cv_text job_text e :
  or_str (content_type cv) (filename cv) = Some cvt -> or_str (content_type job) (filename job) = Some jt ->
  cvt <> [] -> jt <> [] ->
  parse_file x (file_bytes cv) cvt = Ok cv_text -> parse_file x (file_bytes job) jt = Ok job_text ->
  db_fault (w_cache w) = Some e -> is_value_error e = false ->
  match_endpoint x cv job w =
    (Response 500 (VDict [(py "detail", VStr (py "Internal server error: " ++ exn_str e))]), advance w 1).
Proof.
  intros Hct Hjt Hc Hj Hcv Hjob Hf Hv.
  rewrite (match_endpoint_raise x cv job w e (advance w 1)), Hv; [done|].
  rewrite (match_body_run x cv job w cvt jt Hct Hjt Hc Hj).
  rewrite (match_cv_job_run_cache_fault x _ _ _ _ cv_text job_text w Hcv Hjob e); [done|].
  cbn. unfold get_match, connect. by rewrite Hf.
Qed.

(** [model_dump()] loses nothing. *)
Lemma MatchResult_dump_inj r r' : MatchResult_dump r = MatchResult_dump r' -> r = r'.
Proof.
  destruct r as [m o [a b c d e] x ca p er], r' as [m' o' [a' b' c' d' e'] x' ca' p' er'].
  cbn. destruct p, p'; intros H; injection H; intros; subst; done.
Qed.

(** Only a match that completes is answered 200: the handlers of the
    exceptions answer 400 or 500. *)
Lemma match_endpoint_200 x cv job (w w1 : World Db) b :
  match_endpoint x cv job w = (Response 200 b, w1) ->
  exists cvt jt r, or_str (content_type cv) (filename cv) = Some cvt /\
    or_str (content_type job) (filename job) = Some jt /\ cvt <> [] /\ jt <> [] /\
    match_cv_job x (file_bytes cv) cvt (file_bytes job) jt w = (Ok r, w1) /\ b = VDict (MatchResult_dump r).
Proof.
  unfold match_endpoint. destruct (match_body x cv job w) as [[d|e] w'] eqn:E.
  - intros [= <- <-]. unfold match_body, st_raise in E.
    destruct (negb (truthy (filename cv)) && negb (truthy (content_type cv))) eqn:G1; [discriminate|].
    destruct (negb (truthy (filename job)) && negb (truthy (content_type job))) eqn:G2; [discriminate|].
    destruct (or_str (content_type cv) (filename cv)) as [cvt|] eqn:Hc,
             (or_str (content_type job) (filename job)) as [jt|] eqn:Hj; try discriminate.
    unfold st_bind, st_ret in E.
    destruct (match_cv_job x (file_bytes cv) cvt (file_bytes job) jt w) as [[r|e] w''] eqn:Hrun;
      [|discriminate].
    injection E as <- <-. exists cvt, jt, r. split_and!; try done.
    + intros ->. unfold or_str in Hc. destruct (content_type cv) as [[|? ?]|], (filename cv) as [[|? ?]|];
        cbn in *; congruence.
    + intros ->. unfold or_str in Hj. destruct (content_type job) as [[|? ?]|], (filename job) as [[|? ?]|];
        cbn in *; congruence.
  - unfold match_handler_exn. destruct (is_value_error e); discriminate.
Qed.

(** C26: End to end over HTTP: a [/match] answered 200 with a result that
    is not an error, asked again with the same files, is answered 200 with
    the same result marked as cached, by the cache alone: the backend is
    not called and nothing else changes but the clock. *)
Theorem match_endpoint_twice (x : Extractors) (cv job : UploadFile) (w w1 : World Db) (r : MatchResult) :
  (* the first request succeeds *)
  match_endpoint x cv job w = (Response 200 (VDict (MatchResult_dump r)), w1) ->
  (* with a storable result that is not an error *)
  error r = false -> Forall valid_char (explanation r) ->
  exists ms, match_endpoint x cv job w1 = (Response 200 (VDict (MatchResult_dump (mark_cached r ms))), advance w1 2).
Proof.
  intros H1 Herr Hx.
  destruct (match_endpoint_200 _ _ _ _ _ _ H1) as (cvt & jt & r' & Hc & Hj & Hcn & Hjn & Hrun & Hb).
  assert (Hd : MatchResult_dump r = MatchResult_dump r') by congruence.
  apply MatchResult_dump_inj in Hd as <-.
  destruct (match_cv_job_cached x _ _ _ _ _ _ _ Hrun Herr Hx) as (cv_t & job_t & m & Hcv & Hjob & Hget & Hm).
  exists (elapsed_ms (reading w1 0) (reading w1 1)). rewrite <- Hm.
  apply (match_endpoint_ok x cv job w1 cvt jt Hc Hj Hcn Hjn).
  exact (match_cv_job_run_hit x _ _ _ _ cv_t job_t w1 Hcv Hjob m Hget).
Qed.

(** [/health] reports the backend's reachability and never fails. *)
Lemma health_endpoint_status b :
  health_endpoint b = Response 200 (VDict [(py "status", VStr (py "healthy")); (py "llm_available", VBool true)])
  /\ (exists u, models_list b = Ok u)
  \/ health_endpoint b = Response 200 (VDict [(py "status", VStr (py "degraded")); (py "llm_available", VBool false)])
  /\ (exists e, models_list b = Raise e).
Proof. unfold health_endpoint, health_check. destruct (models_list b); eauto. Qed.

(** ** Witnesses *)

Definition ex_upload (ty : pystr) (text : pystr) : UploadFile := mkUploadFile None (Some ty) text.

Definition ex_db_world : World Db := mkWorld ex_db ex_stub ex_clock 0.

Lemma match_endpoint_missing_cv_witness :
  match_endpoint ex_extractors (mkUploadFile None None []) (ex_upload (py "text/plain") ex_job_text) ex_db_world =
    (Response 500 (VDict [(py "detail", VStr (py "Internal server error: 400: CV file is required"))]), ex_db_world).
Proof. apply match_endpoint_missing_cv; reflexivity. Defined.

Lemma match_endpoint_parse_error_witness :
  match_endpoint ex_extractors (ex_upload (py "application/zip") ex_cv_text) (ex_upload (py "text/plain") ex_job_text)
    ex_db_world =
  (Response 400 (VDict [(py "detail", VStr (exn_str (ValueError (py "Unsupported file type: application/zip"))))]),
   advance ex_db_world 1).
Proof.
  exact (match_endpoint_parse_error ex_extractors (ex_upload (py "application/zip") ex_cv_text)
           (ex_upload (py "text/plain") ex_job_text) ex_db_world (py "application/zip") (py "text/plain")
           eq_refl eq_refl ltac:(discriminate) ltac:(discriminate) _ (or_introl eq_refl) eq_refl).
Defined.

Lemma ex_db_first_fst :
  fst (match_cv_job ex_extractors ex_cv_text (py "text/plain") ex_job_text (py "text/plain") ex_db_world)
  = Ok ex_first.
Proof. vm_compute. reflexivity. Qed.

Lemma match_endpoint_ok_witness :
  exists w', match_endpoint ex_extractors (ex_upload (py "text/plain") ex_cv_text)
               (ex_upload (py "text/plain") ex_job_text) ex_db_world
             = (Response 200 (VDict (MatchResult_dump ex_first)), w').
Proof.
  pose proof ex_db_first_fst as H.
  destruct (match_cv_job ex_extractors ex_cv_text (py "text/plain") ex_job_text (py "text/plain") ex_db_world)
    as [res w'] eqn:E.
  cbn in H. subst res. exists w'.
  exact (match_endpoint_ok ex_extractors (ex_upload (py "text/plain") ex_cv_text)
           (ex_upload (py "text/plain") ex_job_text) ex_db_world (py "text/plain") (py "text/plain")
           eq_refl eq_refl ltac:(discriminate) ltac:(discriminate) ex_first w' E).
Defined.

Definition ex_fault : exn := OperationalError (py "unable to open database file").

Lemma match_endpoint_storage_fault_witness :
  match_endpoint ex_extractors (ex_upload (py "text/plain") ex_cv_text) (ex_upload (py "text/plain") ex_job_text)
    (mkWorld (mkDb ∅ (Some ex_fault)) ex_stub ex_clock 0) =
  (Response 500 (VDict [(py "detail", VStr (py "Internal server error: " ++ exn_str ex_fault))]),
   advance (mkWorld (mkDb ∅ (Some ex_fault)) ex_stub ex_clock 0) 1).
Proof.
  exact (match_endpoint_storage_fault ex_extractors (ex_upload (py "text/plain") ex_cv_text)
           (ex_upload (py "text/plain") ex_job_text) (mkWorld (mkDb ∅ (Some ex_fault)) ex_stub ex_clock 0)
           (py "text/plain") (py "text/plain") ex_cv_text ex_job_text ex_fault
           eq_refl eq_refl ltac:(discriminate) ltac:(discriminate)
           ltac:(vm_compute; reflexivity) ltac:(vm_compute; reflexivity) eq_refl eq_refl).
Defined.

Lemma match_endpoint_twice_witness :
  exists w1 ms,
    match_endpoint ex_extractors (ex_upload (py "text/plain") ex_cv_text) (ex_upload (py "text/plain") ex_job_text)
      ex_db_world = (Response 200 (VDict (MatchResult_dump ex_first)), w1) /\
    match_endpoint ex_extractors (ex_upload (py "text/plain") ex_cv_text) (ex_upload (py "text/plain") ex_job_text)
      w1 = (Response 200 (VDict (MatchResult_dump (mark_cached ex_first ms))), advance w1 2).
Proof.
  destruct match_endpoint_ok_witness as [w1 E]. exists w1.
  destruct (match_endpoint_twice ex_extractors _ _ ex_db_world w1 ex_first E eq_refl
              ltac:(apply (bool_decide_unpack _); vm_compute; reflexivity)) as [ms H].
  exists ms. split; [exact E | exact H].
Defined.
