(* ===== verification/App.v ===== *)
(** * The application of [app/main.py]

    Importing [app.main] builds the program: [Settings()] is read (through
    the import of [app.data.database]), [db = Database()] opens the store
    and creates its table, [logging.basicConfig] sets the root level to the
    [logging] attribute that [LOG_LEVEL] names, and the FastAPI application
    is built with its documentation routes and the router of
    [app/api/endpoints.py].  When the server starts, [startup_event] sweeps
    expired rows.  [app_boot] runs these stages in order and says which
    one failed.  [route_get] answers a [GET] as Starlette's router does.
    The prompt the adapter sends is read by [load_prompt] from the file
    system, given as the bytes of each path. *)

From stdpp Require Import base list gmap.
From Stdlib Require Import ZArith Lia.
From S2P Require Import Prelude PyStr PyVal Utf8 Models Settings Cache Database LLMService CvParser.
From S2P Require Import MatchingService Endpoints.

Open Scope Z_scope.

(** ** The prompt file of [app/services/llm_service.py] *)

(** [Path(__file__).parent.parent / "prompts" / filename], for the
    directory [app_dir] of the [app] package. *)
Definition prompt_path (app_dir filename : pystr) : pystr := app_dir ++ py "/prompts/" ++ filename.

(** Text mode reads with universal newlines: [\r\n] and [\r] become [\n]. *)
Fixpoint universal_newlines (s : pystr) : pystr :=
  match s with
  | 13 :: 10 :: t => 10 :: universal_newlines t
  | 13 :: t => 10 :: universal_newlines t
  | c :: t => c :: universal_newlines t
  | [] => []
  end.

(** [load_prompt(filename)]: [read_text()] with the locale's encoding,
    UTF-8. *)
Definition load_prompt (fs : pystr -> option (list Z)) (app_dir filename : pystr) : res exn pystr :=
  match fs (prompt_path app_dir filename) with
  | Some b => universal_newlines <$> utf8_decode b
  | None => Raise (FileNotFoundError (prompt_path app_dir filename))
  end.

(** The backend of [LLMService()], whose [match_cv_job] loads
    [match_prompt.txt]; nothing sent yet. *)
Definition backend_of (fs : pystr -> option (list Z)) (app_dir : pystr)
    (rep : nat -> completion) (models : res exn unit) : Backend :=
  mkBackend (load_prompt fs app_dir (py "match_prompt.txt")) rep models [].

(** The world a request runs in: the store [db] of [app/data/database.py],
    the backend of [matching_service = MatchingService()] in
    [app/api/endpoints.py], and the wall clock before its first reading. *)
Definition app_world (db : Db) (fs : pystr -> option (list Z)) (app_dir : pystr)
    (rep : nat -> completion) (models : res exn unit) (clock : nat -> Z) : World Db :=
  mkWorld db (backend_of fs app_dir rep models) clock 0.

(** ** Start-up *)

(** The integer attributes of the [logging] module: the level names and
    the boolean switches ([True] is the integer 1).  [getattr] of any
    other name raises, or gives an object that [basicConfig] rejects. *)
Definition logging_int_attr (name : pystr) : option Z :=
  if str_eqb name (py "CRITICAL") || str_eqb name (py "FATAL") then Some 50
  else if str_eqb name (py "ERROR") then Some 40
  else if str_eqb name (py "WARNING") || str_eqb name (py "WARN") then Some 30
  else if str_eqb name (py "INFO") then Some 20
  else if str_eqb name (py "DEBUG") then Some 10
  else if str_eqb name (py "NOTSET") then Some 0
  else if existsb (str_eqb name)
            [py "raiseExceptions"; py "logThreads"; py "logProcesses"; py "logMultiprocessing"] then Some 1
  else None.

(** [startup_event]: the sweep with [datetime.now()], the local wall
    clock: UTC plus the zone's offset, in microseconds. *)
Definition startup_event (cfg : Settings) (db : Db) (utc_now_us tz_offset_us : Z) : res exn Db :=
  cleanup_old_cache db (utc_now_us + tz_offset_us) (cache_ttl_hours cfg).

(** How the start of the program ends. *)
Inductive boot : Type :=
| Started (cfg : Settings) (level : Z) (db : Db)
| SettingsInvalid (e : exn)          (** [Settings()] raised *)
| DatabaseInvalid (e : exn)          (** [Database()] raised *)
| LoggingInvalid (log_level : pystr) (** [logging.basicConfig(level=getattr(logging, ...))] raised *)
| StartupFailed (e : exn).           (** [startup_event] raised *)

(** Import of [app.main], then the startup event.  [LLMService()] cannot
    fail: the client is built with the key as given, [""] included. *)
Definition app_boot (env dotenv : list (pystr * pystr)) (db0 : Db) (utc_now_us tz_offset_us : Z) : boot :=
  match load_settings env dotenv with
  | Raise e => SettingsInvalid e
  | Ok cfg =>
      match init_database db0 with
      | Raise e => DatabaseInvalid e
      | Ok db1 =>
          match logging_int_attr (log_level cfg) with
          | None => LoggingInvalid (log_level cfg)
          | Some level =>
              match startup_event cfg db1 utc_now_us tz_offset_us with
              | Ok db2 => Started cfg level db2
              | Raise e => StartupFailed e
              end
          end
      end
  end.

(** ** Routing *)

(** [FastAPI(title=..., description=..., version=...)] *)
Record AppInfo : Type := mkAppInfo { title : pystr; description : pystr; version : pystr }.

Definition app_info : AppInfo :=
  mkAppInfo (py "CV Filtering System") (py "Automated CV filtering system using OpenAI") (py "1.0.0").

(** [app.openapi()]: the info object and what FastAPI generates from the
    routes ([paths], [components]). *)
Definition openapi_doc (info : AppInfo) (paths components : pyval) : pyval :=
  VDict [(py "openapi", VStr (py "3.1.0"));
         (py "info", VDict [(py "title", VStr (title info)); (py "description", VStr (description info));
                            (py "version", VStr (version info))]);
         (py "paths", paths); (py "components", components)].

(** [/] *)
Definition root_endpoint : response :=
  Response 200 (VDict [(py "message", VStr (py "CV Filtering System API"));
                       (py "docs", VStr (py "/docs")); (py "health", VStr (py "/health"))]).

(** The paths of the application: FastAPI's documentation routes, the
    router's [/match] ([POST]) and [/health], and [/]. *)
Definition app_paths : list pystr :=
  [py "/openapi.json"; py "/docs"; py "/docs/oauth2-redirect"; py "/redoc"; py "/match"; py "/health"; py "/"].

Definition routed (path : pystr) : bool := existsb (str_eqb path) app_paths.

(** Leading slashes removed. *)
Fixpoint lstrip_slash (s : pystr) : pystr :=
  match s with 47 :: t => lstrip_slash t | _ => s end.

(** [path.rstrip("/")] *)
Definition rstrip_slash (path : pystr) : pystr := rev (lstrip_slash (rev path)).

Definition not_found : response := Response 404 (VDict [(py "detail", VStr (py "Not Found"))]).

(** A [GET] request: the matching route's handler; [405] for a route of
    another method; a [307] redirection to the path without its trailing
    slashes when that path is routed; else [404]. *)
Definition route_get (paths components : pyval) (path : pystr) (b : Backend) : response :=
  if str_eqb path (py "/openapi.json") then Response 200 (openapi_doc app_info paths components)
  else if str_eqb path (py "/docs") then Html 200 (title app_info ++ py " - Swagger UI")
  else if str_eqb path (py "/docs/oauth2-redirect") then Html 200 (py "Swagger UI: OAuth2 Redirect")
  else if str_eqb path (py "/redoc") then Html 200 (title app_info ++ py " - ReDoc")
  else if str_eqb path (py "/match") then Response 405 (VDict [(py "detail", VStr (py "Method Not Allowed"))])
  else if str_eqb path (py "/health") then health_endpoint b
  else if str_eqb path (py "/") then root_endpoint
  else if endswith path (py "/") && routed (rstrip_slash path) then Redirect 307 (rstrip_slash path)
  else not_found.

(** ** Lemmas *)

Lemma init_database_Ok db db' : init_database db = Ok db' -> db' = db /\ db_fault db = None.
Proof. unfold init_database, connect. destruct (db_fault db); [discriminate|]. by intros [= <-]. Qed.

(** The sweep of the startup event keeps the rows younger than the TTL
    measured from local time. *)
Lemma startup_event_rows_iff cfg db utc tz db' :
  startup_event cfg db utc tz = Ok db' ->
  forall h row, db_rows db' !! h = Some row <->
    db_rows db !! h = Some row /\ utc - row_created_at row * 1000000 <= cache_ttl_hours cfg * 3600 * 1000000 - tz.
Proof.
  unfold startup_event. intros Hc h row. rewrite (cleanup_old_cache_rows _ _ _ _ Hc).
  unfold cutoff. split; intros [? ?]; split; auto; lia.
Qed.

(** The adapter cannot load a missing prompt: it raises before sending. *)
Lemma llm_match_cv_job_no_prompt fs app_dir rep models cv job :
  fs (prompt_path app_dir (py "match_prompt.txt")) = None ->
  llm_match_cv_job cv job (backend_of fs app_dir rep models) =
    (Raise (FileNotFoundError (prompt_path app_dir (py "match_prompt.txt"))), backend_of fs app_dir rep models).
Proof.
  intros Hfs. apply llm_match_cv_job_prompt_error. left.
  unfold backend_of, load_prompt. cbn [prompt_file]. by rewrite Hfs.
Qed.

(** ** Theorems *)

(** C14: The sweep does not remove every entry older than the TTL, as the
    docstring of [Database.cleanup_old_cache] says: [created_at] is UTC
    and the cutoff local time, so west of UTC ([tz < 0]) a row up to the
    zone's offset older than the TTL survives the startup sweep, and east
    of UTC ([0 < tz]) a row up to the offset younger than the TTL is
    removed. *)
Theorem startup_event_local_cutoff (cfg : Settings) (db db' : Db) (utc tz : Z) (h : pystr) (row : Row) :
  startup_event cfg db utc tz = Ok db' -> db_rows db !! h = Some row ->
  (tz < 0 -> cache_ttl_hours cfg * 3600 * 1000000 < utc - row_created_at row * 1000000
          <= cache_ttl_hours cfg * 3600 * 1000000 - tz -> db_rows db' !! h = Some row) /\
  (0 < tz -> cache_ttl_hours cfg * 3600 * 1000000 - tz < utc - row_created_at row * 1000000
          <= cache_ttl_hours cfg * 3600 * 1000000 -> db_rows db' !! h = None).
Proof.
  intros Hs Hrow. pose proof (startup_event_rows_iff _ _ _ _ _ Hs h) as Hiff. split.
  - intros _ Hage. apply Hiff. split; [done | lia].
  - intros _ Hage. destruct (db_rows db' !! h) as [r|] eqn:Hr; [|done].
    destruct (proj1 (Hiff r) eq_refl) as [Hr' Hcut]. rewrite Hrow in Hr'. injection Hr' as <-. lia.
Qed.

(** C17: A program that starts has read its settings, set the logging level
    that [LOG_LEVEL] names, opened the store, and kept in it exactly the
    rows created no longer than the configured TTL minus the zone's offset
    ago: the cutoff is local time, [created_at] UTC (see
    [startup_event_local_cutoff]). *)
Theorem app_boot_started (env dotenv : list (pystr * pystr)) (db0 : Db) (utc tz : Z)
    (cfg : Settings) (level : Z) (db : Db) :
  app_boot env dotenv db0 utc tz = Started cfg level db ->
  load_settings env dotenv = Ok cfg /\ logging_int_attr (log_level cfg) = Some level /\
  db_fault db0 = None /\
  forall h row, db_rows db !! h = Some row <->
    db_rows db0 !! h = Some row /\ utc - row_created_at row * 1000000 <= cache_ttl_hours cfg * 3600 * 1000000 - tz.
Proof.
  unfold app_boot.
  destruct (load_settings env dotenv) as [cfg0|e]; [|discriminate].
  destruct (init_database db0) as [db1|e] eqn:Hinit; [|discriminate].
  apply init_database_Ok in Hinit as [-> Hf].
  destruct (logging_int_attr (log_level cfg0)) as [l|] eqn:Hl; [|discriminate].
  destruct (startup_event cfg0 db0 utc tz) as [db2|e] eqn:Hs; [|discriminate].
  intros [= <- <- <-]. split_and!; [done | done | done |]. by apply startup_event_rows_iff.
Qed.

(** C33: [LOG_LEVEL] names a level of [logging] only in upper case: a
    settings load whose level is a level name in lower case ([info],
    say; [case_sensitive=False] applies to the variable's name, not its
    value) makes the import fail at [logging.basicConfig], whatever the
    other settings, the store and the clocks. *)
Theorem app_boot_lower_level (env dotenv : list (pystr * pystr)) (db0 : Db) (utc tz : Z) (cfg : Settings) :
  load_settings env dotenv = Ok cfg -> db_fault db0 = None ->
  log_level cfg ∈ [py "critical"; py "fatal"; py "error"; py "warning"; py "warn"; py "info"; py "debug"; py "notset"] ->
  app_boot env dotenv db0 utc tz = LoggingInvalid (log_level cfg).
Proof.
  intros Hcfg Hdb Hlvl.
  assert (Hn : logging_int_attr (log_level cfg) = None).
  { repeat (apply elem_of_cons in Hlvl as [-> | Hlvl]; [reflexivity|]). by apply not_elem_of_nil in Hlvl. }
  unfold app_boot, init_database, connect. by rewrite Hcfg, Hdb, Hn.
Qed.

(** C32: Without its prompt file ([app/prompts/match_prompt.txt], which the
    repository does not ship), every [/match] request that reaches the
    backend is answered 500 with the [FileNotFoundError], nothing is sent
    and nothing cached. *)
Theorem match_endpoint_no_prompt (x : Extractors) (cv job : UploadFile) (w : World Db)
    (fs : pystr -> option (list Z)) (app_dir : pystr) (rep : nat -> completion) (models : res exn unit)
    (cvt jt cv_text job_text : pystr) :
  w_backend w = backend_of fs app_dir rep models ->
  fs (prompt_path app_dir (py "match_prompt.txt")) = None ->
  or_str (content_type cv) (filename cv) = Some cvt -> or_str (content_type job) (filename job) = Some jt ->
  cvt <> [] -> jt <> [] ->
  parse_file x (file_bytes cv) cvt = Ok cv_text -> parse_file x (file_bytes job) jt = Ok job_text ->
  get_match (w_cache w) cv_text job_text = Ok None ->
  exists w', match_endpoint x cv job w =
    (Response 500 (VDict [(py "detail", VStr (py "Internal server error: [Errno 2] No such file or directory: '"
                                              ++ prompt_path app_dir (py "match_prompt.txt") ++ [39]))]), w') /\
    sent (w_backend w') = [] /\ w_cache w' = w_cache w.
Proof.
  intros Hb Hfs Hct Hjt Hc Hj Hcv Hjob Hget.
  pose proof (llm_match_cv_job_no_prompt fs app_dir rep models cv_text job_text Hfs) as Hllm.
  rewrite <- Hb in Hllm.
  exists (set_backend (advance w 1) (w_backend w)). split; [|split; cbn; [by rewrite Hb | done]].
  rewrite (match_endpoint_raise x cv job w (FileNotFoundError (prompt_path app_dir (py "match_prompt.txt")))
             (set_backend (advance w 1) (w_backend w))); [reflexivity|].
  rewrite (match_body_run x cv job w cvt jt Hct Hjt Hc Hj).
  assert (Hget' : @cache_get Db db_cache (w_cache w) cv_text job_text = Ok None) by exact Hget.
  by rewrite (match_cv_job_run_backend_raise x _ _ _ _ cv_text job_text w Hcv Hjob _ _ Hget' Hllm).
Qed.

(** ** Examples *)

Definition response_status (r : response) : Z :=
  match r with Response s _ | Html s _ | Redirect s _ | PlainText s _ => s end.

(** The links [/] advertises are served; a trailing slash is redirected;
    [/match] takes only [POST]. *)
Example route_get_statuses (paths components : pyval) (b : Backend) :
  map (fun p => response_status (route_get paths components p b))
    [py "/"; py "/docs"; py "/health"; py "/redoc"; py "/openapi.json"; py "/health/"; py "/match"; py "/stats"]
  = [200; 200; 200; 200; 200; 307; 405; 404].
Proof. unfold route_get, health_endpoint. by destruct (health_check b). Qed.

(** A store with one row, created at 2023-11-14 22:13:20 UTC. *)
Definition ex_aged_db : Db :=
  mkDb {[py "k" := mkRow ex_cv_text ex_job_text (py "{}") 1700000000]} None.

(** ** Witnesses *)

(** A TTL of 130 hours, ten hours west of UTC: the row, 500000 s old at
    [utc], is older than the TTL (468000 s) and survives the sweep. *)
Definition ex_ttl130_cfg : Settings := mkSettings (py "") (py "gpt-3.5-turbo") (py "/app/data/cv_filtering.db") 130 70 (py "INFO").

Lemma startup_event_local_cutoff_witness :
  exists db', startup_event ex_ttl130_cfg ex_aged_db 1700500000000000 (-36000000000) = Ok db' /\
    db_rows db' !! py "k" = Some (mkRow ex_cv_text ex_job_text (py "{}") 1700000000).
Proof.
  destruct (startup_event ex_ttl130_cfg ex_aged_db 1700500000000000 (-36000000000)) as [db'|e] eqn:E;
    [|discriminate].
  exists db'. split; [done|].
  refine (proj1 (startup_event_local_cutoff _ _ _ _ _ (py "k") _ E _) _ _); [vm_compute; reflexivity | lia | cbn; lia].
Defined.

Definition ex_debug_cfg : Settings := mkSettings (py "") (py "gpt-3.5-turbo") (py "/app/data/cv_filtering.db") 168 70 (py "DEBUG").

Lemma ex_boot : app_boot [(py "LOG_LEVEL", py "DEBUG")] [] ex_aged_db 1700500000000000 7200000000 =
  Started ex_debug_cfg 10 ex_aged_db.
Proof. vm_compute. reflexivity. Qed.

Lemma app_boot_started_witness :
  load_settings [(py "LOG_LEVEL", py "DEBUG")] [] = Ok ex_debug_cfg /\ logging_int_attr (py "DEBUG") = Some 10.
Proof.
  destruct (app_boot_started _ _ _ _ _ _ _ _ ex_boot) as (H1 & H2 & _). split; [exact H1 | exact H2].
Defined.

Definition ex_info_cfg : Settings := mkSettings (py "") (py "gpt-3.5-turbo") (py "/app/data/cv_filtering.db") 168 70 (py "info").

Lemma app_boot_lower_level_witness :
  app_boot [(py "LOG_LEVEL", py "info")] [] ex_aged_db 1700500000000000 7200000000 = LoggingInvalid (py "info").
Proof.
  change (py "info") with (log_level ex_info_cfg) at 2.
  apply app_boot_lower_level; [vm_compute; reflexivity | reflexivity | cbn; set_solver].
Defined.

(** The application as shipped: no prompt file. *)
Definition ex_unprompted : World Db :=
  app_world ex_db (fun _ => None) (py "/app/app") (fun _ => Reply None) (Ok tt) ex_clock.

Lemma match_endpoint_no_prompt_witness :
  exists w', match_endpoint ex_extractors (ex_upload (py "text/plain") ex_cv_text) (ex_upload (py "text/plain") ex_job_text)
               ex_unprompted =
    (Response 500 (VDict [(py "detail", VStr (py "Internal server error: [Errno 2] No such file or directory: '"
                                              ++ prompt_path (py "/app/app") (py "match_prompt.txt") ++ [39]))]), w') /\
    sent (w_backend w') = [] /\ w_cache w' = w_cache ex_unprompted.
Proof.
  exact (match_endpoint_no_prompt ex_extractors (ex_upload (py "text/plain") ex_cv_text)
           (ex_upload (py "text/plain") ex_job_text) ex_unprompted (fun _ => None) (py "/app/app")
           (fun _ => Reply None) (Ok tt) (py "text/plain") (py "text/plain") ex_cv_text ex_job_text
           eq_refl eq_refl eq_refl eq_refl ltac:(discriminate) ltac:(discriminate)
           ltac:(vm_compute; reflexivity) ltac:(vm_compute; reflexivity) ltac:(vm_compute; reflexivity)).
Defined.
