(* ===== verification/Cors.v ===== *)
(** * The CORS middleware of [app/main.py]

    [app.add_middleware(CORSMiddleware, allow_origins=["*"],
    allow_credentials=True, allow_methods=["*"], allow_headers=["*"])]:
    Starlette's [CORSMiddleware] with that configuration ([app_cors]).  A
    request carrying no [Origin] header goes to the application untouched.
    A preflight ([OPTIONS] with [Access-Control-Request-Method]) is
    answered by the middleware itself, 200 or 400.  Any other request goes
    to the application, and the middleware adds its headers to the
    response.  Request headers are the list the server received; the
    response's headers are the [MutableHeaders] of Starlette, names in
    lower case; the preflight's are the [dict] it builds. *)

From stdpp Require Import base list.
From Stdlib Require Import ZArith Lia.
From S2P Require Import Prelude PyStr PyVal Endpoints.

Open Scope Z_scope.

Abbreviation headers := (list (pystr * pystr)).

Record CorsConfig : Type := mkCorsConfig {
  allow_origins : list pystr;
  allow_methods : list pystr;
  allow_headers : list pystr;
  allow_credentials : bool
}.

(** Lines 20 to 26 of [main.py]. *)
Definition app_cors : CorsConfig := mkCorsConfig [py "*"] [py "*"] [py "*"] true.

(** ** Strings and headers *)

(** [a < b] on [str]: code points compared in order. *)
Fixpoint str_ltb (a b : pystr) : bool :=
  match a, b with
  | [], _ :: _ => true
  | x :: a', y :: b' => (x <? y) || ((x =? y) && str_ltb a' b')
  | _, _ => false
  end.

(** [sorted(set(l))] *)
Fixpoint insert_uniq (x : pystr) (l : list pystr) : list pystr :=
  match l with
  | [] => [x]
  | y :: l' => if str_eqb x y then l else if str_ltb x y then x :: l else y :: insert_uniq x l'
  end.

Definition sort_uniq (l : list pystr) : list pystr := foldr insert_uniq [] l.

(** [s.split(",")] *)
Fixpoint split_comma_go (s acc : pystr) : list pystr :=
  match s with
  | [] => [rev acc]
  | 44 :: t => rev acc :: split_comma_go t []
  | c :: t => split_comma_go t (c :: acc)
  end.

Definition split_comma (s : pystr) : list pystr := split_comma_go s [].

(** [Headers.get(name)] for a lower-case [name]: the first header of
    that name, in any case. *)
Fixpoint req_header (name : pystr) (h : headers) : option pystr :=
  match h with
  | [] => None
  | (k, v) :: h' => if str_eqb (lower k) name then Some v else req_header name h'
  end.

(** [name in headers] *)
Definition has_header (name : pystr) (h : headers) : bool :=
  match req_header name h with Some _ => true | None => false end.

(** [d[k] = v] on the preflight's [dict]: replaced in place, or appended. *)
Fixpoint dset (k v : pystr) (d : headers) : headers :=
  match d with
  | [] => [(k, v)]
  | (k', v') :: d' => if str_eqb k k' then (k, v) :: d' else (k', v') :: dset k v d'
  end.

(** [MutableHeaders.__setitem__]: the name lower-cased; the first header of
    that name takes the value and the others go; appended if there is
    none. *)
Fixpoint mset_go (k v : pystr) (found : bool) (h : headers) : headers :=
  match h with
  | [] => if found then [] else [(k, v)]
  | (k', v') :: h' =>
      if str_eqb k' k then (if found then mset_go k v true h' else (k, v) :: mset_go k v true h')
      else (k', v') :: mset_go k v found h'
  end.

Definition mset (k v : pystr) (h : headers) : headers := mset_go (lower k) v false h.

(** [MutableHeaders.add_vary_header("Origin")] *)
Definition add_vary_origin (h : headers) : headers :=
  match req_header (py "vary") h with
  | Some existing => mset (py "Vary") (existing ++ py ", Origin") h
  | None => mset (py "Vary") (py "Origin") h
  end.

(** ** The middleware *)

Definition all_methods : list pystr :=
  [py "DELETE"; py "GET"; py "HEAD"; py "OPTIONS"; py "PATCH"; py "POST"; py "PUT"].

Definition safelisted_headers : list pystr :=
  [py "Accept"; py "Accept-Language"; py "Content-Language"; py "Content-Type"].

Section Middleware.
  Context (c : CorsConfig).

Definition has_star (l : list pystr) : bool := existsb (str_eqb (py "*")) l.

Definition cors_methods : list pystr := if has_star (allow_methods c) then all_methods else allow_methods c.
Definition allow_all_origins : bool := has_star (allow_origins c).
Definition allow_all_headers : bool := has_star (allow_headers c).
Definition preflight_explicit_allow_origin : bool := negb allow_all_origins || allow_credentials c.

  (** [sorted(SAFELISTED_HEADERS | set(allow_headers))] *)
Definition cors_allow_headers : list pystr := sort_uniq (safelisted_headers ++ allow_headers c).

Definition is_allowed_origin (origin : pystr) : bool :=
    allow_all_origins || existsb (str_eqb origin) (allow_origins c).

Definition simple_headers : headers :=
    (if allow_all_origins then [(py "Access-Control-Allow-Origin", py "*")] else []) ++
    (if allow_credentials c then [(py "Access-Control-Allow-Credentials", py "true")] else []).

Definition preflight_headers : headers :=
    (if preflight_explicit_allow_origin then [(py "Vary", py "Origin")]
     else [(py "Access-Control-Allow-Origin", py "*")]) ++
    [(py "Access-Control-Allow-Methods", join_sep (py ", ") cors_methods);
     (py "Access-Control-Max-Age", py "600")] ++
    (if allow_all_headers then [] else [(py "Access-Control-Allow-Headers", join_sep (py ", ") cors_allow_headers)]) ++
    (if allow_credentials c then [(py "Access-Control-Allow-Credentials", py "true")] else []).

  (** [CORSMiddleware.preflight_response] *)
Definition preflight_response (origin method : pystr) (requested : option pystr) : response * headers :=
    let h0 := preflight_headers in
    let '(h1, f1) :=
      if is_allowed_origin origin then
        (if preflight_explicit_allow_origin then dset (py "Access-Control-Allow-Origin") origin h0 else h0, [])
      else (h0, [py "origin"]) in
    let f2 := if existsb (str_eqb method) cors_methods then [] else [py "method"] in
    let '(h2, f3) :=
      match requested with
      | Some rq =>
          if allow_all_headers then (dset (py "Access-Control-Allow-Headers") rq h1, [])
          else (h1, if forallb (fun hd => existsb (str_eqb (strip hd)) (map lower cors_allow_headers))
                            (map lower (split_comma rq)) then [] else [py "headers"])
      | None => (h1, [])
      end in
    match f1 ++ f2 ++ f3 with
    | [] => (PlainText 200 (py "OK"), h2)
    | failures => (PlainText 400 (py "Disallowed CORS " ++ join_sep (py ", ") failures), h2)
    end.

  (** [CORSMiddleware.send]: the headers of the application's response. *)
Definition simple_response_headers (origin : pystr) (has_cookie : bool) (h : headers) : headers :=
    let h := foldl (fun h '(k, v) => mset k v h) h simple_headers in
    if allow_all_origins && has_cookie then add_vary_origin (mset (py "Access-Control-Allow-Origin") origin h)
    else if negb allow_all_origins && is_allowed_origin origin then
      add_vary_origin (mset (py "Access-Control-Allow-Origin") origin h)
    else h.

  (** [CORSMiddleware.__call__] around an application over a state [W]. *)
Definition cors_middleware {W} (method : pystr) (rh : headers) (app : W -> response * headers * W) (w : W)
    : response * headers * W :=
    match req_header (py "origin") rh with
    | None => app w
    | Some origin =>
        match req_header (py "access-control-request-method") rh with
        | Some rm =>
            if str_eqb method (py "OPTIONS") then (preflight_response origin rm (req_header (py "access-control-request-headers") rh), w)
            else let '(r, h, w') := app w in (r, simple_response_headers origin (has_header (py "cookie") rh) h, w')
        | None => let '(r, h, w') := app w in (r, simple_response_headers origin (has_header (py "cookie") rh) h, w')
        end
    end.
End Middleware.

(** ** Lemmas on headers *)

(** Header names as ASGI carries them: in lower case. *)
Definition lc_names (h : headers) : Prop := Forall (fun kv => lower kv.1 = kv.1) h.

Lemma lower_cp_idem c : lower_cp (lower_cp c) = lower_cp c.
Proof.
  unfold lower_cp. destruct (Z.leb_spec 65 c), (Z.leb_spec c 90), (Z.eqb_spec c 8490); cbn; zbool; lia.
Qed.

Lemma lower_idem s : lower (lower s) = lower s.
Proof. unfold lower. rewrite map_map. apply map_ext, lower_cp_idem. Qed.

Lemma mset_go_lc k v found h : lower k = k -> lc_names h -> lc_names (mset_go k v found h).
Proof.
  intros Hk. revert found. induction h as [|[k' v'] h IH]; intros found Hh; cbn.
  - destruct found; repeat constructor; cbn; auto.
  - inversion_clear Hh as [|? ? Hk' Hh'].
    destruct (str_eqb k' k), found; cbn; try (constructor; [done|]); by apply IH.
Qed.

Lemma mset_go_get_eq k v h : lower k = k -> lc_names h -> req_header k (mset_go k v false h) = Some v.
Proof.
  intros Hk. induction h as [|[k' v'] h IH]; intros Hh; cbn; [by rewrite Hk, str_eqb_refl|].
  inversion_clear Hh as [|? ? Hk' Hh']. change (lower k' = k') in Hk'.
  destruct (str_eqb k' k) eqn:E; cbn; [by rewrite Hk, str_eqb_refl|]. rewrite Hk', E. auto.
Qed.

Lemma mset_go_get_ne k1 k v found h :
  lower k = k -> k1 <> k -> lc_names h -> req_header k1 (mset_go k v found h) = req_header k1 h.
Proof.
  intros Hk Hne. revert found. induction h as [|[k' v'] h IH]; intros found Hh; cbn.
  - destruct found; cbn; [done|]. by rewrite Hk, str_eqb_neq by auto.
  - inversion_clear Hh as [|? ? Hk' Hh']. change (lower k' = k') in Hk'.
    destruct (str_eqb k' k) eqn:E.
    + apply str_eqb_eq in E as ->. rewrite Hk, (str_eqb_neq k k1) by auto.
      destruct found; cbn; [auto|]. rewrite Hk, (str_eqb_neq k k1) by auto. auto.
    + cbn. rewrite Hk'. destruct (str_eqb k' k1); auto.
Qed.

Lemma mset_lc k v h : lc_names h -> lc_names (mset k v h).
Proof. intros Hh. apply mset_go_lc; [apply lower_idem | exact Hh]. Qed.

Lemma mset_get_eq k v h : lc_names h -> req_header (lower k) (mset k v h) = Some v.
Proof. intros Hh. apply mset_go_get_eq; [apply lower_idem | exact Hh]. Qed.

Lemma mset_get_ne k1 k v h : lc_names h -> k1 <> lower k -> req_header k1 (mset k v h) = req_header k1 h.
Proof. intros Hh Hne. apply mset_go_get_ne; [apply lower_idem | exact Hne | exact Hh]. Qed.

(** Adding [Origin] to [Vary] touches no other header. *)
Lemma add_vary_origin_get k h : lc_names h -> k <> py "vary" -> req_header k (add_vary_origin h) = req_header k h.
Proof. intros Hh Hk. unfold add_vary_origin. by destruct (req_header _ h); apply mset_get_ne. Qed.

(** With the configuration of [main.py], a response to a request that
    carries a cookie echoes the request's origin and allows credentials. *)
Lemma app_cors_simple_headers origin h :
  lc_names h ->
  req_header (py "access-control-allow-origin") (simple_response_headers app_cors origin true h) = Some origin /\
  req_header (py "access-control-allow-credentials") (simple_response_headers app_cors origin true h) = Some (py "true").
Proof.
  intros Hh. unfold simple_response_headers.
  change (allow_all_origins app_cors) with true.
  change (simple_headers app_cors) with
    [(py "Access-Control-Allow-Origin", py "*"); (py "Access-Control-Allow-Credentials", py "true")].
  cbn [foldl andb].
  set (h1 := mset (py "Access-Control-Allow-Credentials") (py "true") (mset (py "Access-Control-Allow-Origin") (py "*") h)).
  assert (H1 : lc_names h1) by (apply mset_lc, mset_lc, Hh).
  assert (H2 : lc_names (mset (py "Access-Control-Allow-Origin") origin h1)) by (apply mset_lc, H1).
  rewrite !add_vary_origin_get by (done || discriminate).
  split.
  - exact (mset_get_eq (py "Access-Control-Allow-Origin") origin h1 H1).
  - rewrite mset_get_ne by (done || discriminate).
    exact (mset_get_eq (py "Access-Control-Allow-Credentials") (py "true") _ (mset_lc _ _ _ Hh)).
Qed.

(** A preflight from any origin for any method of the standard set is
    accepted, the origin echoed and credentials allowed. *)
Lemma app_cors_preflight origin method requested :
  method ∈ all_methods ->
  exists h, preflight_response app_cors origin method requested = (PlainText 200 (py "OK"), h) /\
    req_header (py "access-control-allow-origin") h = Some origin /\
    req_header (py "access-control-allow-credentials") h = Some (py "true").
Proof.
  intros Hm. apply list_elem_of_In in Hm.
  repeat (destruct Hm as [<- | Hm];
          [destruct requested; eexists; (split; [reflexivity | split; vm_compute; reflexivity])|]).
  destruct Hm.
Qed.

(** ** Theorem *)

(** C12: With the CORS configuration of [main.py] ([allow_origins=["*"]]
    with [allow_credentials=True]), any web origin may send credentialed
    requests and read the answers: a request that carries an [Origin] and
    a cookie, and is not a preflight, reaches the application, and its
    response echoes that origin and allows credentials. *)
Theorem cors_credentialed_any_origin {W} (method : pystr) (rh : headers) (app : W -> response * headers * W)
    (w : W) (origin : pystr) (r : response) (h : headers) (w' : W) :
  req_header (py "origin") rh = Some origin -> has_header (py "cookie") rh = true ->
  (str_eqb method (py "OPTIONS") = false \/ has_header (py "access-control-request-method") rh = false) ->
  app w = (r, h, w') -> lc_names h ->
  exists h', cors_middleware app_cors method rh app w = (r, h', w') /\
    req_header (py "access-control-allow-origin") h' = Some origin /\
    req_header (py "access-control-allow-credentials") h' = Some (py "true").
Proof.
  intros Ho Hc Hnp Happ Hh. unfold cors_middleware. rewrite Ho.
  destruct (req_header (py "access-control-request-method") rh) as [rm|] eqn:Hrm.
  - destruct Hnp as [Hm | Hm]; [|unfold has_header in Hm; by rewrite Hrm in Hm].
    rewrite Hm, Happ, Hc. eexists. split; [reflexivity | apply app_cors_simple_headers, Hh].
  - rewrite Happ, Hc. eexists. split; [reflexivity | apply app_cors_simple_headers, Hh].
Qed.

(** C36: With the CORS configuration of [main.py], a preflight ([OPTIONS]
    with [Access-Control-Request-Method]) from any origin, for any
    standard method and whatever headers it asks for, is answered 200 by
    the middleware itself, without running the application: the answer
    echoes the origin and allows credentials. *)
Theorem cors_preflight_any_origin {W} (rh : headers) (app : W -> response * headers * W) (w : W)
    (origin rm : pystr) :
  req_header (py "origin") rh = Some origin -> req_header (py "access-control-request-method") rh = Some rm ->
  rm ∈ all_methods ->
  exists h, cors_middleware app_cors (py "OPTIONS") rh app w = (PlainText 200 (py "OK"), h, w) /\
    req_header (py "access-control-allow-origin") h = Some origin /\
    req_header (py "access-control-allow-credentials") h = Some (py "true").
Proof.
  intros Ho Hrm Hm. unfold cors_middleware. rewrite Ho, Hrm.
  destruct (app_cors_preflight origin rm (req_header (py "access-control-request-headers") rh) Hm)
    as (h & Hp & Hh). exists h. by rewrite Hp.
Qed.

(** ** Witness *)

(** A page of another site calls [/health] with the user's cookie. *)
Definition ex_cross_site : headers := [(py "origin", py "https://elsewhere.example"); (py "cookie", py "session=1")].

Lemma cors_credentialed_any_origin_witness :
  exists h', cors_middleware app_cors (py "GET") ex_cross_site (fun u : unit => (PlainText 200 (py "OK"), [], u)) tt
             = (PlainText 200 (py "OK"), h', tt) /\
    req_header (py "access-control-allow-origin") h' = Some (py "https://elsewhere.example") /\
    req_header (py "access-control-allow-credentials") h' = Some (py "true").
Proof.
  apply (cors_credentialed_any_origin (py "GET") ex_cross_site (fun u : unit => (PlainText 200 (py "OK"), [], u)) tt
           (py "https://elsewhere.example") (PlainText 200 (py "OK")) [] tt);
    [reflexivity | reflexivity | left; reflexivity | reflexivity | constructor].
Defined.

(** A page of another site asks whether it may [POST] to [/match]. *)
Definition ex_preflight : headers :=
  [(py "origin", py "https://elsewhere.example"); (py "access-control-request-method", py "POST");
   (py "access-control-request-headers", py "content-type")].

Lemma cors_preflight_any_origin_witness :
  exists h, cors_middleware app_cors (py "OPTIONS") ex_preflight
              (fun u : unit => (PlainText 405 (py "Method Not Allowed"), [], u)) tt
             = (PlainText 200 (py "OK"), h, tt) /\
    req_header (py "access-control-allow-origin") h = Some (py "https://elsewhere.example") /\
    req_header (py "access-control-allow-credentials") h = Some (py "true").
Proof.
  apply (cors_preflight_any_origin ex_preflight _ tt (py "https://elsewhere.example") (py "POST"));
    [reflexivity | reflexivity | unfold all_methods; repeat (apply elem_of_cons; (left; reflexivity) || right)].
Defined.
