(* ===== verification/Refinement.v ===== *)
(** * The SQLite cache refines the reference cache

    The specification describes the result cache as a map from the pair of
    texts to a result ([Cache.PairCache]).  [Database] keys its table by
    the SHA-256 of the concatenated texts instead.  On a set [K] of pairs
    whose keys are computed and distinct, the two agree: [cache_rel]
    relates a store to the map it implements, [get_match] reads through
    it and [cache_match] preserves it.  A generic simulation theorem then
    lifts this to the orchestrator: every result [match_cv_job] returns
    over the store, it returns over the reference cache, and the two
    worlds stay related. *)

From stdpp Require Import base list gmap.
From Stdlib Require Import ZArith Lia.
From S2P Require Import Prelude PyStr PyVal Json JsonRoundtrip Models ModelsJson Identity Cache Database.
From S2P Require Import LLMService CvParser MatchingService.

Open Scope Z_scope.

(** The parts of two worlds other than the cache are the same. *)
Definition same_env {C1 C2} (w1 : World C1) (w2 : World C2) : Prop :=
  w_backend w1 = w_backend w2 /\ w_clock w1 = w_clock w2 /\ w_reads w1 = w_reads w2.

(** ** A simulation between two caches lifts to the orchestrator *)

Section Simulation.
Context {C1 C2 : Type} `{!MatchCache C1} `{!MatchCache C2}.
Context (R : C1 -> C2 -> Prop) (P : pystr -> pystr -> Prop).
Hypothesis get_sim : forall c1 c2 cv job,
  R c1 c2 -> P cv job -> cache_get c1 cv job = cache_get c2 cv job.
Hypothesis put_sim : forall c1 c2 now cv job r c1',
  R c1 c2 -> P cv job -> storable r -> cache_put c1 now cv job r = Ok c1' ->
  exists c2', cache_put c2 now cv job r = Ok c2' /\ R c1' c2'.

Lemma same_env_reading (w1 : World C1) (w2 : World C2) k :
  same_env w1 w2 -> reading w1 k = reading w2 k.
Proof. intros (_ & Hc & Hr). unfold reading. by rewrite Hc, Hr. Qed.

Lemma same_env_advance (w1 : World C1) (w2 : World C2) k :
  same_env w1 w2 -> same_env (advance w1 k) (advance w2 k).
Proof. intros (Hb & Hc & Hr). unfold same_env, advance; simpl. by rewrite Hb, Hc, Hr. Qed.

Lemma same_env_backend (w1 : World C1) (w2 : World C2) b :
  same_env w1 w2 -> same_env (set_backend w1 b) (set_backend w2 b).
Proof. intros (_ & Hc & Hr). by split_and!. Qed.

Lemma same_env_cache (w1 : World C1) (w2 : World C2) c1 c2 :
  same_env w1 w2 -> same_env (set_cache w1 c1) (set_cache w2 c2).
Proof. intros (Hb & Hc & Hr). by split_and!. Qed.

(** Every result the orchestrator returns over [C1] it returns over [C2]
    from a related cache, and the caches stay related. *)
Theorem match_cv_job_simulation x cvb cvt jb jt (w1 : World C1) (w2 : World C2) r w1' :
  R (w_cache w1) (w_cache w2) -> same_env w1 w2 ->
  (forall cv job, parse_file x cvb cvt = Ok cv -> parse_file x jb jt = Ok job -> P cv job) ->
  match_cv_job x cvb cvt jb jt w1 = (Ok r, w1') ->
  (error r = false -> Forall valid_char (explanation r)) ->
  exists w2', match_cv_job x cvb cvt jb jt w2 = (Ok r, w2') /\
    R (w_cache w1') (w_cache w2') /\ same_env w1' w2'.
Proof.
  intros HR Henv HP Hrun Hx.
  pose proof Hrun as (_ & cv & job & Hcv & Hjob & _)%match_cv_job_Ok.
  specialize (HP cv job Hcv Hjob).
  pose proof (get_sim _ _ cv job HR HP) as Hget.
  destruct (cache_get (w_cache w1) cv job) as [[m|]|e] eqn:Hget1.
  - rewrite (match_cv_job_run_hit x cvb jb cvt jt cv job w1 Hcv Hjob m Hget1) in Hrun.
    injection Hrun as <- <-. eexists. split.
    + rewrite (match_cv_job_run_hit x cvb jb cvt jt cv job w2 Hcv Hjob m (eq_sym Hget)).
      by rewrite <- !(same_env_reading w1 w2) by done.
    + split; [exact HR | by apply same_env_advance].
  - destruct Henv as (Hb & Hc & Hr). pose proof (conj Hb (conj Hc Hr)) as Henv.
    destruct (llm_match_cv_job cv job (w_backend w1)) as [[r0|e] b'] eqn:Hllm;
      [|by rewrite (match_cv_job_run_backend_raise x cvb jb cvt jt cv job w1 Hcv Hjob e b' Hget1 Hllm) in Hrun].
    rewrite Hb in Hllm. rewrite (match_cv_job_run_miss x cvb jb cvt jt cv job w1 Hcv Hjob r0 b' Hget1) in Hrun
      by by rewrite Hb.
    pose proof (llm_match_cv_job_Ok _ _ _ _ _ Hllm) as [Hok _].
    rewrite (match_cv_job_run_miss x cvb jb cvt jt cv job w2 Hcv Hjob r0 b' (eq_sym Hget) Hllm).
    rewrite <- !(same_env_reading w1 w2) by done.
    destruct (error r0) eqn:Herr.
    + injection Hrun as <- <-. eexists. split; [done|].
      split; [exact HR | by apply same_env_backend, same_env_advance].
    + destruct (cache_put _ _ _ _ _) as [c1'|e] eqn:Hput; [|discriminate].
      injection Hrun as <- <-.
      destruct (put_sim _ _ _ _ _ (set_processing_time r0 (elapsed_ms (reading w1 0) (reading w1 1))) _
                  HR HP (conj Hok (Hx Herr)) Hput) as (c2' & Hput2 & HR').
      rewrite Hput2. eexists. split; [done|]. split; [exact HR'|].
      by apply same_env_cache, same_env_advance, same_env_backend, same_env_advance.
  - by rewrite (match_cv_job_run_cache_fault x cvb jb cvt jt cv job w1 Hcv Hjob e Hget1) in Hrun.
Qed.
End Simulation.

(** ** The store and the reference cache *)

Section Store.
Context (K : pystr -> pystr -> Prop).

(** The pairs of [K] have keys, and no two of them share one. *)
Definition keys_distinct : Prop :=
  forall a b, K a b -> exists h, match_hash a b = Ok h /\
    forall c d, K c d -> match_hash c d = Ok h -> a = c /\ b = d.

(** A store implements a map on [K]: it reads, for every pair of [K],
    what the map holds for the pair. *)
Definition cache_rel (db : Db) (pc : PairCache) : Prop :=
  db_fault db = None /\ forall cv job, K cv job -> get_match db cv job = Ok (pc !! (cv, job)).

Hypothesis HK : keys_distinct.

Lemma get_match_insert_ne rows f h row cv job h' :
  f = None -> match_hash cv job = Ok h' -> h <> h' ->
  get_match (mkDb (<[h := row]> rows) f) cv job = get_match (mkDb rows f) cv job.
Proof.
  intros -> Hh Hne. unfold get_match, connect. cbn. rewrite Hh. cbn.
  by rewrite lookup_insert_ne.
Qed.

Lemma cache_rel_empty : cache_rel (mkDb ∅ None) ∅.
Proof.
  split; [done|]. intros cv job Hk. destruct (HK cv job Hk) as (h & Hh & _).
  unfold get_match, connect. cbn. rewrite Hh. cbn. by rewrite !lookup_empty.
Qed.

Lemma cache_rel_put db pc now cv job r db' :
  cache_rel db pc -> K cv job -> storable r -> cache_match db now cv job r = Ok db' ->
  cache_rel db' (<[(cv, job) := r]> pc).
Proof.
  intros [Hf Hget] Hk Hs Hput. pose proof Hput as (h & text & _ & Hh & Ht & ->)%cache_match_Ok.
  split; [done|]. intros c d Hcd.
  destruct (decide ((cv, job) = (c, d))) as [[= <- <-]|Hne].
  - rewrite lookup_insert_eq.
    eapply get_match_row; [exact Hf | exact Hh | apply lookup_insert_eq | exact Hs | exact Ht].
  - destruct (HK c d Hcd) as (h' & Hh' & Huniq).
    rewrite lookup_insert_ne by done. rewrite <- Hget by done.
    apply get_match_insert_ne with (h' := h'); [done | done |].
    intros ->. destruct (Huniq cv job Hk Hh) as [-> ->]. by apply Hne.
Qed.
End Store.

(** C27: Refinement: on pairs whose keys are distinct, every result the
    orchestrator returns over the SQLite store it also returns over the
    reference cache keyed by the pair of texts, and the store goes on
    implementing the reference cache. *)
Theorem match_cv_job_refines_pair_cache (K : pystr -> pystr -> Prop) (x : Extractors)
    (cvb : list Z) (cvt : pystr) (jb : list Z) (jt : pystr) (w1 : World Db) (w2 : World PairCache)
    (r : MatchResult) (w1' : World Db) :
  keys_distinct K -> cache_rel K (w_cache w1) (w_cache w2) -> same_env w1 w2 ->
  (forall cv job, parse_file x cvb cvt = Ok cv -> parse_file x jb jt = Ok job -> K cv job) ->
  match_cv_job x cvb cvt jb jt w1 = (Ok r, w1') ->
  (error r = false -> Forall valid_char (explanation r)) ->
  exists w2', match_cv_job x cvb cvt jb jt w2 = (Ok r, w2') /\
    cache_rel K (w_cache w1') (w_cache w2') /\ same_env w1' w2'.
Proof.
  intros HK HR Henv HP Hrun Hx. eapply (match_cv_job_simulation (cache_rel K) K); [| | exact HR | done..].
  - intros db pc cv job [_ Hget] Hk. cbn. by apply Hget.
  - intros db pc now cv job r' db' HR' Hk Hs Hput. eexists. split; [reflexivity|].
    by eapply cache_rel_put.
Qed.

(** ** Witness *)

Definition ex_pair (a b : pystr) : Prop := a = ex_cv_text /\ b = ex_job_text.

Lemma ex_pair_distinct : keys_distinct ex_pair.
Proof.
  intros a b [-> ->].
  destruct (match_hash ex_cv_text ex_job_text) as [h|e] eqn:E; [|vm_compute in E; discriminate].
  exists h. split; [done|]. intros c d [-> ->] _. done.
Qed.

Definition ex_store_world : World Db := mkWorld ex_db ex_stub ex_clock 0.

Lemma ex_store_first_fst : fst (ex_call ex_store_world) = Ok ex_first.
Proof. vm_compute. reflexivity. Qed.

Lemma match_cv_job_refines_pair_cache_witness :
  exists w1' w2', ex_call ex_store_world = (Ok ex_first, w1') /\
    ex_call (ex_world ∅ ex_stub) = (Ok ex_first, w2') /\
    cache_rel ex_pair (w_cache w1') (w_cache w2') /\ same_env w1' w2'.
Proof.
  pose proof ex_store_first_fst as H.
  destruct (ex_call ex_store_world) as [res w1'] eqn:E. cbn in H. subst res.
  destruct (match_cv_job_refines_pair_cache ex_pair ex_extractors ex_cv_text (py "text/plain") ex_job_text
              (py "text/plain") ex_store_world (ex_world ∅ ex_stub) ex_first w1'
              ex_pair_distinct (cache_rel_empty ex_pair ex_pair_distinct) ltac:(split_and!; reflexivity)
              ltac:(intros cv job Hcv Hjob; vm_compute in Hcv, Hjob; injection Hcv as <-;
                    injection Hjob as <-; split; reflexivity)
              E ltac:(intros _; apply (bool_decide_unpack _); vm_compute; reflexivity))
    as (w2' & E2 & HR & Henv).
  exists w1', w2'. split_and!; [done | exact E2 | exact HR | exact Henv].
Defined.
