(* ===== verification/Concurrency.v ===== *)
(** * Concurrent requests

    FastAPI runs one [MatchingService.match_cv_job] per request, and the
    requests interleave at their [await]s: the cache read, the backend
    call and the cache write are separate steps, and no lock is held
    across the backend call.  A request is a [phase]; [run_phase] runs
    the code of one phase, from one [await] to the next, on the shared
    [World]; [sys_step] lets any unfinished request take its next phase.
    [run_alone_match_cv_job] checks that the phases of one request, run
    in order, compute what [match_cv_job] computes.  The theorems: every
    interleaving keeps the cache free of error results, and the backend
    is called at most once per request; an example shows two requests for
    the same texts both missing and both calling the backend. *)

From stdpp Require Import base list gmap.
From Stdlib Require Import ZArith Lia.
From S2P Require Import Prelude PyStr PyVal Models ModelsJson Cache LLMService CvParser MatchingService.

Open Scope Z_scope.

(** Where a request stands. *)
Inductive phase : Type :=
| Start (cvb : list Z) (cvt : pystr) (jb : list Z) (jt : pystr)
| Missed (start_time : Z) (cv_text job_text : pystr)
| Scored (start_time : Z) (cv_text job_text : pystr) (match_result : MatchResult)
| Finished (out : res exn MatchResult).

Definition finished (p : phase) : bool := match p with Finished _ => true | _ => false end.

(** The phases still to run. *)
Definition phase_measure (p : phase) : nat :=
  match p with Start _ _ _ _ => 3 | Missed _ _ _ => 2 | Scored _ _ _ _ => 1 | Finished _ => 0 end.

Section Phases.
Context {C : Type} `{!MatchCache C} (x : Extractors).

(** Lines 23 to 36: parse both files, read the cache; a hit ends the request. *)
Definition lookup_phase (cvb : list Z) (cvt : pystr) (jb : list Z) (jt : pystr) : st (World C) exn phase :=
  (start_time <- time_time ;;
   cv_text <- st_lift (parse_file x cvb cvt) ;;
   job_text <- st_lift (parse_file x jb jt) ;;
   w <- st_get ;;
   cached_match <- st_lift (cache_get (w_cache w) cv_text job_text) ;;
   match cached_match with
   | Some m => t <- time_time ;; st_ret (Finished (Ok (mark_cached m (elapsed_ms start_time t))))
   | None => st_ret (Missed start_time cv_text job_text)
   end)%st.

(** Line 40: the backend call. *)
Definition score_phase (start_time : Z) (cv_text job_text : pystr) : st (World C) exn phase :=
  (match_result <- on_backend (llm_match_cv_job cv_text job_text) ;;
   st_ret (Scored start_time cv_text job_text match_result))%st.

(** Lines 43 to 52: time the result and store it unless it is an error. *)
Definition store_phase (start_time : Z) (cv_text job_text : pystr) (match_result : MatchResult)
    : st (World C) exn phase :=
  (t <- time_time ;;
   let match_result := set_processing_time match_result (elapsed_ms start_time t) in
   (if negb (error match_result) then store cv_text job_text match_result else st_ret tt) ;;
   st_ret (Finished (Ok match_result)))%st.

(** One phase of a request; an exception finishes it. *)
Definition run_phase (p : phase) (w : World C) : phase * World C :=
  let '(r, w') :=
    match p with
    | Start cvb cvt jb jt => lookup_phase cvb cvt jb jt w
    | Missed s cv job => score_phase s cv job w
    | Scored s cv job r => store_phase s cv job r w
    | Finished o => (Ok (Finished o), w)
    end in
  match r with Ok p' => (p', w') | Raise e => (Finished (Raise e), w') end.

(** A request run alone until it finishes. *)
Fixpoint run_alone (fuel : nat) (p : phase) (w : World C) : phase * World C :=
  match fuel with
  | O => (p, w)
  | S f => if finished p then (p, w) else let '(p', w') := run_phase p w in run_alone f p' w'
  end.

(** Any request takes its next phase. *)
Inductive sys_step : World C * list phase -> World C * list phase -> Prop :=
| sys_step_run w ps i p p' w' :
    ps !! i = Some p -> finished p = false -> run_phase p w = (p', w') ->
    sys_step (w, ps) (w', <[i := p']> ps).

Inductive star : World C * list phase -> World C * list phase -> Prop :=
| star_refl s : star s s
| star_step s1 s2 s3 : sys_step s1 s2 -> star s2 s3 -> star s1 s3.
End Phases.

(** ** One request alone *)

Section Alone.
Context {C : Type} `{!MatchCache C} (x : Extractors).

(** Run alone, the three phases of a request compute what [match_cv_job]
    computes: cutting the code at its [await]s changes nothing. *)
Lemma run_alone_match_cv_job cvb cvt jb jt (w : World C) :
  run_alone x 3 (Start cvb cvt jb jt) w =
    let '(o, w') := match_cv_job x cvb cvt jb jt w in (Finished o, w').
Proof.
  unfold run_alone, run_phase, finished, lookup_phase, score_phase, store_phase, match_cv_job,
    st_bind, st_lift, st_get, st_ret, time_time, on_backend, store, st_put.
  cbn [w_cache w_backend w_clock w_reads].
  destruct (parse_file x cvb cvt); [|done]. destruct (parse_file x jb jt); [|done].
  destruct (cache_get _ _ _) as [[m|]|e]; [done| |done].
  destruct (llm_match_cv_job _ _ _) as [[r|e] b']; [|done]. cbn.
  destruct (error r); [done|]. cbn. by destruct (cache_put _ _ _ _ _).
Qed.
End Alone.

(** ** The phases one at a time *)

(** The backend's replies are what it was given: the adapter only
    records prompts, and a fresh result that is not an error is the
    parse of one of the replies. *)
Lemma llm_match_cv_job_replies cv job b res b' :
  llm_match_cv_job cv job b = (res, b') ->
  replies b' = replies b /\
  (forall r, res = Ok r -> error r = false -> exists n, try_body (replies b n) = Ok r).
Proof.
  destruct (prompt_file b) as [t|e] eqn:Ht;
    [|rewrite (llm_match_cv_job_prompt_error b cv job e) by auto; intros [= <- <-]; done].
  destruct (format_prompt t cv job) as [p|e] eqn:Hp;
    [|rewrite (llm_match_cv_job_prompt_error b cv job e) by eauto; intros [= <- <-]; done].
  rewrite (llm_match_cv_job_call _ _ _ _ _ Ht Hp). intros [= <- <-]. split; [done|].
  intros r [= <-]. unfold outcome. destruct (try_body _) as [r|e] eqn:E; [by eauto|].
  by rewrite (proj2 (error_result_ok e)).
Qed.

Section Steps.
Context {C : Type} `{!MatchCache C} (x : Extractors).

Lemma run_phase_Start cvb cvt jb jt (w : World C) p' w' :
  run_phase x (Start cvb cvt jb jt) w = (p', w') ->
  w_cache w' = w_cache w /\ w_backend w' = w_backend w /\
  (forall r, p' = Finished (Ok r) ->
     exists cv job m ms, cache_get (w_cache w) cv job = Ok (Some m) /\ r = mark_cached m ms) /\
  match p' with Missed _ _ _ | Finished _ => True | _ => False end.
Proof.
  unfold run_phase, lookup_phase, st_bind, st_lift, st_get, st_ret, time_time.
  cbn [w_cache w_backend w_clock w_reads].
  destruct (parse_file x cvb cvt); [|intros [= <- <-]; cbn; split_and!; done || lia].
  destruct (parse_file x jb jt); [|intros [= <- <-]; cbn; split_and!; done || lia].
  destruct (cache_get _ _ _) as [[m|]|e] eqn:Hget; intros [= <- <-]; cbn; split_and!; try done; try lia.
  intros r [= <-]. do 4 eexists. split; [exact Hget | reflexivity].
Qed.

Lemma run_phase_Missed s cv job (w : World C) p' w' :
  run_phase x (Missed s cv job) w = (p', w') ->
  w_cache w' = w_cache w /\ replies (w_backend w') = replies (w_backend w) /\
  (forall s' cv' job' r, p' = Scored s' cv' job' r ->
     result_ok r /\ cached r = false /\
     (error r = false -> exists n, try_body (replies (w_backend w) n) = Ok r)) /\
  (forall o, p' = Finished o -> exists e, o = Raise e) /\
  match p' with Scored _ _ _ _ | Finished _ => True | _ => False end.
Proof.
  unfold run_phase, score_phase, st_bind, st_ret, on_backend.
  destruct (llm_match_cv_job cv job (w_backend w)) as [res b'] eqn:Hllm.
  destruct (llm_match_cv_job_replies _ _ _ _ _ Hllm) as [Hrep Hfrom].
  destruct res as [r|e]; intros [= <- <-]; cbn; split_and!; try done; try lia.
  - intros ? ? ? ? [= <- <- <- <-]. destruct (llm_match_cv_job_Ok _ _ _ _ _ Hllm). eauto.
  - intros o [= <-]. eauto.
Qed.

Lemma run_phase_Scored s cv job r (w : World C) p' w' :
  run_phase x (Scored s cv job r) w = (p', w') ->
  w_backend w' = w_backend w /\
  exists ms, let r' := set_processing_time r ms in
    (p' = Finished (Ok r') \/ exists e, p' = Finished (Raise e)) /\
    (w_cache w' = w_cache w \/
     error r = false /\ exists now, cache_put (w_cache w) now cv job r' = Ok (w_cache w')).
Proof.
  unfold run_phase, store_phase, store, st_bind, st_ret, st_get, st_lift, st_put, time_time.
  cbn [w_cache w_backend w_clock w_reads].
  destruct (error r) eqn:Herr; cbn; rewrite Herr; cbn.
  - intros [= <- <-]. split; [done|]. exists (elapsed_ms s (w_clock w (w_reads w))).
    split; [left; reflexivity | by left].
  - destruct (cache_put _ _ _ _ _) as [c|e] eqn:Hput; intros [= <- <-]; (split; [done|]);
      exists (elapsed_ms s (w_clock w (w_reads w))); (split; [eauto | cbn]); eauto.
Qed.
End Steps.

(** ** An invariant of every interleaving *)

(** The replies of the backend whose fresh results can be stored. *)
Definition replies_explained (rep : nat -> completion) : Prop :=
  forall n r, try_body (rep n) = Ok r -> error r = false -> Forall valid_char (explanation r).

(** What a request in each phase holds. *)
Definition phase_ok (p : phase) : Prop :=
  match p with
  | Scored _ _ _ r => result_ok r /\ cached r = false /\ (error r = false -> Forall valid_char (explanation r))
  | Finished (Ok r) => cached r = true -> error r = false
  | _ => True
  end.

Section Invariant.
Context {C : Type} `{!MatchCache C} `{!MatchCacheLaws C} (x : Extractors).
Context (rep : nat -> completion).
Hypothesis Hrep : replies_explained rep.

(** The cache serves no error result, the backend keeps its replies, and
    every request holds what its phase promises. *)
Definition sys_inv (s : World C * list phase) : Prop :=
  serves_only (fun r => error r = false) (w_cache s.1) /\
  replies (w_backend s.1) = rep /\ Forall phase_ok s.2.

Lemma run_phase_inv p (w : World C) p' w' :
  serves_only (fun r => error r = false) (w_cache w) -> replies (w_backend w) = rep -> phase_ok p ->
  run_phase x p w = (p', w') ->
  serves_only (fun r => error r = false) (w_cache w') /\ replies (w_backend w') = rep /\ phase_ok p'.
Proof.
  intros Hc Hr Hp Hrun. destruct p as [cvb cvt jb jt|s cv job|s cv job r|o].
  - apply run_phase_Start in Hrun as (-> & -> & Hhit & Hshape). split_and!; [done | done |].
    destruct p' as [| | |[r|e]]; try done. intros _.
    destruct (Hhit r eq_refl) as (cv & job & m & ms & Hget & ->). exact (Hc _ _ _ Hget).
  - apply run_phase_Missed in Hrun as (-> & Hr' & Hsc & Hfin & Hshape). rewrite Hr', Hr.
    split_and!; [done | done |]. destruct p' as [| |s' cv' job' r|o]; try done.
    + destruct (Hsc s' cv' job' r eq_refl) as (Hok & Hcached & Hfrom). split_and!; [done | done |].
      intros He. destruct (Hfrom He) as (n & Hn). rewrite Hr in Hn. exact (Hrep n r Hn He).
    + by destruct (Hfin o eq_refl) as (e & ->).
  - destruct Hp as (Hok & Hcached & Hx).
    apply run_phase_Scored in Hrun as (Hb & ms & Hp' & Hcache). rewrite Hb.
    split_and!; [| done | by destruct Hp' as [-> | (e & ->)]; cbn; [rewrite Hcached|]].
    destruct Hcache as [-> | (He & now & Hput)]; [done|].
    apply (serves_only_put _ _ now cv job (set_processing_time r ms) _ Hc); [| exact He | exact Hput].
    split; [exact Hok | exact (Hx He)].
  - unfold run_phase in Hrun. by injection Hrun as <- <-.
Qed.

Lemma sys_step_inv s s' : sys_inv s -> sys_step x s s' -> sys_inv s'.
Proof.
  intros Hinv Hstep. revert Hinv. destruct Hstep as [w ps i p p' w' Hi _ Hrun].
  intros (Hc & Hr & Hps). cbn in *.
  pose proof (proj1 (Forall_lookup _ _) Hps i p Hi) as Hp.
  destruct (run_phase_inv p w p' w' Hc Hr Hp Hrun) as (Hc' & Hr' & Hp').
  split_and!; [done | done |]. by apply Forall_insert.
Qed.

Lemma star_inv s s' : sys_inv s -> star x s s' -> sys_inv s'.
Proof. intros Hs Hstar. induction Hstar; eauto using sys_step_inv. Qed.
End Invariant.

(** ** Sums over the requests *)

(** A measure summed over all requests. *)
Fixpoint sum_phases (f : phase -> nat) (ps : list phase) : nat :=
  match ps with [] => 0%nat | p :: ps => (f p + sum_phases f ps)%nat end.

(** Replacing one request's phase changes a sum by the difference. *)
Lemma sum_phases_insert f ps i p p' :
  ps !! i = Some p -> (sum_phases f (<[i := p']> ps) + f p = sum_phases f ps + f p')%nat.
Proof.
  revert i. induction ps as [|q ps IH]; intros [|i] Hi; cbn in Hi; try discriminate.
  - injection Hi as ->. cbn. lia.
  - change (<[S i := p']> (q :: ps)) with (q :: <[i := p']> ps). cbn [sum_phases].
    specialize (IH i Hi). lia.
Qed.

(** ** Backend calls *)

(** The backend calls a request may still make: one before its call. *)
Definition calls_left (p : phase) : nat :=
  match p with Start _ _ _ _ | Missed _ _ _ => 1 | _ => 0 end.

Lemma sum_calls_left_le ps : (sum_phases calls_left ps <= length ps)%nat.
Proof. induction ps as [|[] ps IH]; cbn; lia. Qed.

(** The adapter sends at most one prompt. *)
Lemma llm_match_cv_job_sent cv job b res b' :
  llm_match_cv_job cv job b = (res, b') -> (length (sent b') <= S (length (sent b)))%nat.
Proof.
  destruct (prompt_file b) as [t|e] eqn:Ht;
    [|rewrite (llm_match_cv_job_prompt_error b cv job e) by auto; intros [= _ <-]; lia].
  destruct (format_prompt t cv job) as [p|e] eqn:Hp;
    [|rewrite (llm_match_cv_job_prompt_error b cv job e) by eauto; intros [= _ <-]; lia].
  rewrite (llm_match_cv_job_call _ _ _ _ _ Ht Hp). intros [= _ <-]. cbn. rewrite length_app. cbn. lia.
Qed.

Section Calls.
Context {C : Type} `{!MatchCache C} (x : Extractors).

(** A phase spends the call it had left, or none. *)
Lemma run_phase_sent p (w : World C) p' w' :
  run_phase x p w = (p', w') ->
  (length (sent (w_backend w')) + calls_left p' <= length (sent (w_backend w)) + calls_left p)%nat.
Proof.
  intros Hrun. destruct p as [cvb cvt jb jt|s cv job|s cv job r|o].
  - apply run_phase_Start in Hrun as (_ & -> & _ & Hs). destruct p'; cbn in *; done || lia.
  - unfold run_phase, score_phase, st_bind, st_ret, on_backend in Hrun.
    destruct (llm_match_cv_job cv job (w_backend w)) as [[r|e] b'] eqn:Hllm;
      injection Hrun as <- <-; apply llm_match_cv_job_sent in Hllm; cbn; lia.
  - apply run_phase_Scored in Hrun as (-> & ms & [-> | (e & ->)] & _); cbn; lia.
  - unfold run_phase in Hrun. injection Hrun as <- <-. lia.
Qed.

Lemma star_sent (s s' : World C * list phase) :
  star x s s' ->
  (length (sent (w_backend s'.1)) + sum_phases calls_left s'.2 <=
   length (sent (w_backend s.1)) + sum_phases calls_left s.2)%nat.
Proof.
  induction 1 as [s|s1 s2 s3 Hstep _ IH]; [lia|].
  destruct Hstep as [w ps i p p' w' Hi _ Hrun]. cbn in *.
  pose proof (sum_phases_insert calls_left ps i p p' Hi). pose proof (run_phase_sent p w p' w' Hrun). lia.
Qed.
End Calls.

(** ** Schedules *)

(** The state after request [i] takes its next phase, if it can. *)
Definition step_at {C} `{!MatchCache C} (x : Extractors) (i : nat) (s : World C * list phase)
    : World C * list phase :=
  let '(w, ps) := s in
  match ps !! i with
  | Some p => if finished p then s else let '(p', w') := run_phase x p w in (w', <[i := p']> ps)
  | None => s
  end.

(** Whether request [i] can take a phase. *)
Definition can_step {C} (i : nat) (s : World C * list phase) : bool :=
  match s.2 !! i with Some p => negb (finished p) | None => false end.

(** A schedule, run: each entry names the request that moves. *)
Fixpoint run_schedule {C} `{!MatchCache C} (x : Extractors) (sched : list nat) (s : World C * list phase)
    : World C * list phase :=
  match sched with [] => s | i :: sched => run_schedule x sched (step_at x i s) end.

Fixpoint schedule_ok {C} `{!MatchCache C} (x : Extractors) (sched : list nat) (s : World C * list phase) : bool :=
  match sched with [] => true | i :: sched => can_step i s && schedule_ok x sched (step_at x i s) end.

Lemma step_at_step {C} `{!MatchCache C} x i (s : World C * list phase) :
  can_step i s = true -> sys_step x s (step_at x i s).
Proof.
  destruct s as [w ps]. unfold can_step, step_at. cbn.
  destruct (ps !! i) as [p|] eqn:Hi; [|discriminate]. destruct (finished p) eqn:Hf; [discriminate|].
  intros _. destruct (run_phase x p w) as [p' w'] eqn:Hrun. by econstructor.
Qed.

Lemma run_schedule_star {C} `{!MatchCache C} x sched (s : World C * list phase) :
  schedule_ok x sched s = true -> star x s (run_schedule x sched s).
Proof.
  revert s. induction sched as [|i sched IH]; intros s; cbn; [constructor|].
  intros [Hi Hok]%andb_prop. econstructor; [by apply step_at_step | by apply IH].
Qed.

(** ** Theorems *)

(** C28: However the requests interleave, the cache never serves an error
    result and no request answers with a cached error result, provided
    the cache starts without one and the backend's replies that parse have
    explanations of Unicode scalar values. *)
Theorem interleaving_serves_no_error {C} `{!MatchCache C} `{!MatchCacheLaws C} (x : Extractors)
    (w w' : World C) (reqs ps' : list phase) :
  replies_explained (replies (w_backend w)) ->
  serves_only (fun r => error r = false) (w_cache w) ->
  Forall (fun p => phase_measure p = 3%nat) reqs ->
  star x (w, reqs) (w', ps') ->
  serves_only (fun r => error r = false) (w_cache w') /\
  forall i r, ps' !! i = Some (Finished (Ok r)) -> cached r = true -> error r = false.
Proof.
  intros Hrep Hc Hreqs Hstar.
  assert (Hinv : sys_inv (replies (w_backend w)) (w, reqs)).
  { split_and!; [done | done |]. eapply Forall_impl; [exact Hreqs|]. by intros [] ?. }
  destruct (star_inv x _ Hrep _ _ Hinv Hstar) as (Hc' & _ & Hps). split; [done|].
  intros i r Hi. exact (proj1 (Forall_lookup _ _) Hps i _ Hi).
Qed.

(** C29: However the requests interleave, the backend is called at most
    once per request. *)
Theorem backend_calls_bounded {C} `{!MatchCache C} (x : Extractors) (w w' : World C) (reqs ps' : list phase) :
  star x (w, reqs) (w', ps') ->
  (length (sent (w_backend w')) <= length (sent (w_backend w)) + length reqs)%nat.
Proof.
  intros Hstar. pose proof (star_sent x _ _ Hstar) as H. cbn in H.
  pose proof (sum_calls_left_le reqs). lia.
Qed.

(** ** Examples *)

(** Two requests for the same pair of files. *)
Definition ex_req : phase := Start ex_cv_text (py "text/plain") ex_job_text (py "text/plain").

(** As asyncio runs them when the second arrives while the first awaits
    the backend: the first reads the cache and calls, the second reads
    the cache and calls, then each stores its result. *)
Definition ex_race : World PairCache * list phase :=
  run_schedule ex_extractors [0; 0; 1; 1; 0; 1]%nat (ex_world ∅ ex_stub, [ex_req; ex_req]).

(** The second request arrives after the first has stored its result. *)
Definition ex_seq : World PairCache * list phase :=
  run_schedule ex_extractors [0; 0; 0; 1]%nat (ex_world ∅ ex_stub, [ex_req; ex_req]).

(** Two requests for the same files that overlap both miss the cache,
    both call the backend and both store, the later write replacing the
    earlier; the same requests one after the other call the backend once
    and the second is served from the cache. *)
Example same_key_double_miss :
  star ex_extractors (ex_world ∅ ex_stub, [ex_req; ex_req]) ex_race /\
  ex_race.2 = [Finished (Ok (set_processing_time ex_first 3)); Finished (Ok (set_processing_time ex_first 4))] /\
  length (sent (w_backend ex_race.1)) = 2%nat /\
  w_cache ex_race.1 !! (ex_cv_text, ex_job_text) = Some (set_processing_time ex_first 4) /\
  star ex_extractors (ex_world ∅ ex_stub, [ex_req; ex_req]) ex_seq /\
  ex_seq.2 = [Finished (Ok ex_first); Finished (Ok (mark_cached ex_first 1))] /\
  length (sent (w_backend ex_seq.1)) = 1%nat.
Proof.
  split_and!; try (apply run_schedule_star); vm_compute; reflexivity.
Qed.

(** ** Witnesses *)

Lemma ex_stub_explained : replies_explained (replies ex_stub).
Proof.
  intros n r H _. cbn in H. vm_compute in H. injection H as <-.
  apply valid_lit. vm_compute. reflexivity.
Qed.

Lemma interleaving_serves_no_error_witness :
  serves_only (fun r => error r = false) (w_cache ex_race.1) /\
  forall i r, ex_race.2 !! i = Some (Finished (Ok r)) -> cached r = true -> error r = false.
Proof.
  apply (interleaving_serves_no_error ex_extractors (ex_world ∅ ex_stub) ex_race.1 [ex_req; ex_req] ex_race.2
           ex_stub_explained (serves_only_empty _) ltac:(repeat constructor)).
  rewrite <- surjective_pairing. apply run_schedule_star. vm_compute. reflexivity.
Defined.

Lemma backend_calls_bounded_witness :
  (length (sent (w_backend ex_race.1)) <= length (sent (w_backend (ex_world ∅ ex_stub))) + 2)%nat.
Proof.
  apply (backend_calls_bounded ex_extractors (ex_world ∅ ex_stub) ex_race.1 [ex_req; ex_req] ex_race.2).
  rewrite <- surjective_pairing. apply run_schedule_star. vm_compute. reflexivity.
Defined.
